(** * sistema-gestor-tareas: persistence and lazy query core

    A shallow embedding of [src/utils/generadores.py] and
    [src/services/persistencia.py], and the properties of the
    specification that concern them.

    Python lists are Rocq lists, Python callables used as filters are total
    functions into [bool], a Python [float] is a primitive binary64 float,
    a raised exception is the [Lanza] branch of
    [resultado], and the file system is an explicit state threaded through
    the operations that touch it.  [print] calls are not modelled. *)

From Stdlib Require Import String Ascii List ZArith QArith Bool Arith Lia.
From Stdlib Require PrimFloat Uint63.
Import ListNotations.
Open Scope string_scope.
Open Scope nat_scope.

Set Implicit Arguments.
Set Warnings "-register-all".

(* ================================================================== *)
(** * Exceptions and results *)

(** The exception classes that the modelled code raises, catches or lets
    through.  Messages are dropped: no [except] clause inspects them. *)
Inductive excepcion : Type :=
| FileNotFoundError
| PermissionError
| IsADirectoryError
| OSError
| JSONDecodeError
| UnicodeDecodeError
| ValueError
| TypeError
| OverflowError
| RecursionError
| AttributeError
| EOFError
| PicklingError
| UnpicklingError
| StopIteration
| KeyboardInterrupt.

(** [except IOError]: in Python 3 [IOError] is [OSError], the base of the
    file-system errors. *)
Definition es_IOError (e : excepcion) : bool :=
  match e with
  | FileNotFoundError | PermissionError | IsADirectoryError | OSError => true
  | _ => false
  end.

(** [except (TypeError, ValueError)]: [json.JSONDecodeError] and
    [UnicodeDecodeError] derive from [ValueError]. *)
Definition es_TypeError_o_ValueError (e : excepcion) : bool :=
  match e with
  | TypeError | ValueError | JSONDecodeError | UnicodeDecodeError => true
  | _ => false
  end.

(** [except Exception]: everything but the [BaseException]-only classes. *)
Definition es_Exception (e : excepcion) : bool :=
  match e with
  | KeyboardInterrupt => false
  | _ => true
  end.

Inductive resultado (A : Type) : Type :=
| Retorna (a : A)
| Lanza (e : excepcion).
Arguments Retorna {A} a.
Arguments Lanza {A} e.

(* ================================================================== *)
(** * utils/generadores.py *)

Module Generadores.

Section Iteracion.
Variable A : Type.

(** ** [IteradorTareas] *)

(** The three attributes set by [__init__]. *)
Record IteradorTareas : Type := {
  tareas : list A;
  filtro : option (A -> bool);
  indice : nat
}.

(** [IteradorTareas(tareas, filtro)]. *)
Definition nuevo_iterador (ts : list A) (f : option (A -> bool)) : IteradorTareas :=
  {| tareas := ts; filtro := f; indice := 0 |}.

(** [self.filtro is None or self.filtro(tarea)]. *)
Definition pasa_filtro (f : option (A -> bool)) (tarea : A) : bool :=
  match f with
  | None => true
  | Some p => p tarea
  end.

(** The [while] loop of [__next__], run over the elements from
    [self.indice] on: [pendientes] is [self.tareas[self.indice:]] and [i] is
    [self.indice].  It returns the element found ([None] stands for
    [raise StopIteration]) and the final value of [self.indice]. *)
Fixpoint bucle_next (f : option (A -> bool)) (pendientes : list A) (i : nat)
  : option A * nat :=
  match pendientes with
  | [] => (None, i)
  | tarea :: resto =>
      if pasa_filtro f tarea then (Some tarea, S i)
      else bucle_next f resto (S i)
  end.

(** [__next__]: the outcome and the iterator after the call. *)
Definition next (it : IteradorTareas) : option A * IteradorTareas :=
  let '(r, i) := bucle_next (filtro it) (skipn (indice it) (tareas it)) (indice it) in
  (r, {| tareas := tareas it; filtro := filtro it; indice := i |}).

(** The iterator after [n] calls of [__next__], whatever they returned. *)
Fixpoint tras_avances (n : nat) (it : IteradorTareas) : IteradorTareas :=
  match n with
  | O => it
  | S m => tras_avances m (snd (next it))
  end.

(** ** [filtro_compuesto] *)

(** [all(filtro(item) for filtro in filtros)]. *)
Definition filtro_compuesto (filtros : list (A -> bool)) : A -> bool :=
  fun item => forallb (fun filtro => filtro item) filtros.

(** ** [generador_estadisticas_por_lote] *)

(** [t.estado.value] when [t] has an attribute [estado], else [None]. *)
Variable estado_valor : A -> option string.

(** [hasattr(t, 'estado') and t.estado.value == e]. *)
Definition tiene_estado (e : string) (t : A) : bool :=
  match estado_valor t with
  | Some v => String.eqb v e
  | None => false
  end.

(** [sum(1 for t in lote if ...)]. *)
Definition contar_estado (e : string) (lote : list A) : nat :=
  length (filter (tiene_estado e) lote).

(** A Python number: an [int] or a [float], the latter an IEEE 754
    binary64 value as the kernel's primitive floats are. *)
Inductive numero : Type :=
| Entero (n : Z)
| Flotante (x : PrimFloat.float).

(** The [float] of a count: the conversion that [/] and [*] apply to an
    [int] operand.  It is exact for the counts below 2^53, as the lengths
    of lists are. *)
Definition a_float (n : nat) : PrimFloat.float :=
  PrimFloat.of_uint63 (Uint63.of_Z (Z.of_nat n)).

(** The dictionary yielded for one batch. *)
Record estadisticas_lote : Type := {
  lote_numero : nat;
  rango_indices : nat * nat;
  total_tareas : nat;
  pendientes : nat;
  en_progreso : nat;
  completadas : nat;
  porcentaje_completadas : numero
}.

(** [(completadas / total_tareas * 100) if total_tareas > 0 else 0]: the
    true division of the two counts, rounded to a [float], times 100,
    rounded again; the [int] 0 for an empty batch. *)
Definition porcentaje (hechas total : nat) : numero :=
  if 0 <? total
  then Flotante (PrimFloat.mul (PrimFloat.div (a_float hechas) (a_float total))
                   (a_float 100))
  else Entero 0.

(** [range(0, stop, paso)] for a positive step: [ceil(stop / paso)] values,
    the k-th being [k * paso]. *)
Definition range (stop paso : nat) : list nat :=
  map (fun k => k * paso) (seq 0 ((stop + paso - 1) / paso)).

(** [tareas[i:i + tamaño_lote]]. *)
Definition rebanada (ts : list A) (i tamaño_lote : nat) : list A :=
  firstn tamaño_lote (skipn i ts).

(** The body of the [for] loop: the statistics of the batch that starts at
    index [i]. *)
Definition estadisticas_en (ts : list A) (tamaño_lote i : nat) : estadisticas_lote :=
  let lote := rebanada ts i tamaño_lote in
  let total := length lote in
  let hechas := contar_estado "completada" lote in
  {| lote_numero := i / tamaño_lote + 1;
     rango_indices := (i, Nat.min (i + tamaño_lote - 1) (length ts - 1));
     total_tareas := total;
     pendientes := contar_estado "pendiente" lote;
     en_progreso := contar_estado "en_progreso" lote;
     completadas := hechas;
     porcentaje_completadas := porcentaje hechas total |}.

(** The sequence of dictionaries the generator yields when it is consumed
    to the end.  A zero step makes [range] raise [ValueError]; a negative
    one gives an empty range. *)
Definition generador_estadisticas_por_lote (ts : list A) (tamaño_lote : Z)
  : resultado (list estadisticas_lote) :=
  if (tamaño_lote =? 0)%Z then Lanza ValueError
  else if (tamaño_lote <? 0)%Z then Retorna []
  else
    let w := Z.to_nat tamaño_lote in
    Retorna (map (estadisticas_en ts w) (range (length ts) w)).

(** The windows themselves, in order. *)
Definition lotes (ts : list A) (tamaño_lote : nat) : list (list A) :=
  map (fun i => rebanada ts i tamaño_lote) (range (length ts) tamaño_lote).

End Iteracion.

(** ** Concrete inputs for the examples *)

(** Twenty-five tasks, numbered from 0; the state of a task is given by
    its number: multiples of three are completed, the others pending. *)
Definition veinticinco_tareas : list nat := seq 0 25.

Definition estado_por_numero (n : nat) : option string :=
  Some (if n mod 3 =? 0 then "completada" else "pendiente").

End Generadores.

(* ================================================================== *)
(** * services/persistencia.py *)

Module Persistencia.

(** ** Python values that reach the persistence layer *)

(** [VObjeto clase d] is an instance of a user class; [d] is what its
    [to_dict()] returns when the class has that method ([Usuario] and
    [Tarea] do), [None] when it has not. *)
Inductive valor : Type :=
| VNone
| VBool (b : bool)
| VInt (n : Z)
| VFloat (x : Q)
| VStr (s : string)
| VList (l : list valor)
| VTuple (l : list valor)
| VDict (d : list (valor * valor))
| VObjeto (clase : string) (to_dict : option valor).

(** Truth value of [if v:].  [Usuario] and [Tarea] define neither
    [__bool__] nor [__len__], so an instance is true. *)
Definition es_verdadero (v : valor) : bool :=
  match v with
  | VNone => false
  | VBool b => b
  | VInt n => negb (n =? 0)%Z
  | VFloat x => negb (Qeq_bool x (inject_Z 0))
  | VStr s => negb (String.eqb s "")
  | VList l => negb (Nat.eqb (length l) 0)
  | VTuple l => negb (Nat.eqb (length l) 0)
  | VDict d => negb (Nat.eqb (length d) 0)
  | VObjeto _ _ => true
  end.

(** [PersistenciaJSON._preparar_datos_para_json]: an object with [to_dict]
    is replaced by its dictionary; lists and the values of dictionaries are
    prepared recursively; anything else, tuples included, is left as is. *)
Fixpoint _preparar_datos_para_json (datos : valor) : valor :=
  match datos with
  | VObjeto _ (Some d) => d
  | VList l => VList (map _preparar_datos_para_json l)
  | VDict d =>
      VDict (map (fun kv => match kv with (key, value) =>
                    (key, _preparar_datos_para_json value) end) d)
  | _ => datos
  end.

(** ** The [json] and [pickle] modules

    The two codecs are library code.  A dump is given by the bytes it has
    written to the open file when it stops and by the exception it stops
    with, if any; a load by its result on the bytes of the file.
    [json_dump] stands for [json.dump(_, archivo, indent=2,
    ensure_ascii=False, default=str)]. *)
Record codecs : Type := {
  json_dump : valor -> string * option excepcion;
  json_load : string -> resultado valor;
  pickle_dump : Z -> valor -> string * option excepcion;
  pickle_load : string -> resultado valor;
  HIGHEST_PROTOCOL : Z
}.

(** ** Clock *)

(** A naive [datetime], field by field. *)
Record fecha_hora : Type := {
  año : Z;
  mes : Z;
  dia : Z;
  hora : Z;
  minuto : Z;
  segundo : Z;
  microsegundo : Z
}.

Definition es_bisiesto (y : Z) : bool :=
  ((y mod 4 =? 0) && (negb (y mod 100 =? 0) || (y mod 400 =? 0)))%Z.

Definition dias_en_mes (y m : Z) : Z :=
  (if m =? 2 then (if es_bisiesto y then 29 else 28)
   else if (m =? 4) || (m =? 6) || (m =? 9) || (m =? 11) then 30
   else 31)%Z.

(** The field ranges of a [datetime] whose year has four digits (where [%Y]
    prints exactly four digits on every platform). *)
Definition fecha_valida (f : fecha_hora) : bool :=
  ((1000 <=? año f) && (año f <=? 9999) &&
   (1 <=? mes f) && (mes f <=? 12) &&
   (1 <=? dia f) && (dia f <=? dias_en_mes (año f) (mes f)) &&
   (0 <=? hora f) && (hora f <? 24) &&
   (0 <=? minuto f) && (minuto f <? 60) &&
   (0 <=? segundo f) && (segundo f <? 60) &&
   (0 <=? microsegundo f) && (microsegundo f <? 1000000))%Z.

Definition dias_antes_de_año (y : Z) : Z :=
  (let p := y - 1 in p * 365 + p / 4 - p / 100 + p / 400)%Z.

(** Days of year [y] before the first of month [m]. *)
Definition dias_antes_de_mes (y m : Z) : Z :=
  fold_right Z.add 0%Z
    (map (fun k => dias_en_mes y (Z.of_nat k)) (seq 1 (Z.to_nat m - 1))).

(** [date.toordinal()]: 1 for 0001-01-01. *)
Definition ordinal (f : fecha_hora) : Z :=
  (dias_antes_de_año (año f) + dias_antes_de_mes (año f) (mes f) + dia f)%Z.

(** A point of the naive time line, in microseconds since
    0001-01-01 00:00:00, the unit and origin of [datetime] arithmetic. *)
Definition instante (f : fecha_hora) : Z :=
  (((((ordinal f - 1) * 24 + hora f) * 60 + minuto f) * 60 + segundo f) * 1000000
   + microsegundo f)%Z.

Definition microsegundos_por_dia : Z := 86400000000.

(** One past [datetime.max], 9999-12-31 23:59:59.999999. *)
Definition instante_tope : Z := 3652059 * microsegundos_por_dia.

(** The bound on the [days] of a [timedelta]. *)
Definition timedelta_max_dias : Z := 999999999.

Definition digito (n : Z) : ascii := ascii_of_nat (48 + Z.to_nat (n mod 10)).

Definition dos_digitos (n : Z) : string :=
  String (digito (n / 10)) (String (digito n) EmptyString).

Definition cuatro_digitos (n : Z) : string :=
  dos_digitos (n / 100) ++ dos_digitos (n mod 100).

(** [f.strftime("%Y%m%d_%H%M%S")]. *)
Definition strftime_marca (f : fecha_hora) : string :=
  cuatro_digitos (año f) ++ dos_digitos (mes f) ++ dos_digitos (dia f) ++ "_"
  ++ dos_digitos (hora f) ++ dos_digitos (minuto f) ++ dos_digitos (segundo f).

(** ** File system

    The state is the three data directories of [GestorArchivos].  A
    directory lists its entries in the order [os.listdir] reports them.  A
    file carries its bytes, its modification time and what the operating
    system lets a process do with it; a subdirectory is opaque. *)
Record archivo : Type := {
  contenido : string;
  mtime : Z;
  legible : bool;
  modificable : bool;
  eliminable : bool
}.

Inductive entrada : Type :=
| Archivo (a : archivo)
| Subdirectorio (mtime_dir : Z).

Record carpeta : Type := {
  entradas : list (string * entrada);
  acepta_nuevos : bool
}.

Inductive zona : Type := ZJson | ZBinarios | ZBackups.

(** [None] is a directory that does not exist. *)
Record sistema : Type := {
  directorio_json : option carpeta;
  directorio_binarios : option carpeta;
  directorio_backups : option carpeta
}.

(** A path [os.path.join(directorio, nombre)], for a name without a path
    separator, as all the names the layer builds or lists are. *)
Definition ruta : Type := (zona * string)%type.

Definition carpeta_de (fs : sistema) (z : zona) : option carpeta :=
  match z with
  | ZJson => directorio_json fs
  | ZBinarios => directorio_binarios fs
  | ZBackups => directorio_backups fs
  end.

Definition con_carpeta (fs : sistema) (z : zona) (c : carpeta) : sistema :=
  match z with
  | ZJson => {| directorio_json := Some c;
                directorio_binarios := directorio_binarios fs;
                directorio_backups := directorio_backups fs |}
  | ZBinarios => {| directorio_json := directorio_json fs;
                    directorio_binarios := Some c;
                    directorio_backups := directorio_backups fs |}
  | ZBackups => {| directorio_json := directorio_json fs;
                   directorio_binarios := directorio_binarios fs;
                   directorio_backups := Some c |}
  end.

Fixpoint buscar_entrada (n : string) (l : list (string * entrada)) : option entrada :=
  match l with
  | [] => None
  | (m, e) :: r => if String.eqb m n then Some e else buscar_entrada n r
  end.

(** Replaces the entry called [n] where it stands, or adds it at the end. *)
Fixpoint poner_entrada (n : string) (e : entrada) (l : list (string * entrada))
  : list (string * entrada) :=
  match l with
  | [] => [(n, e)]
  | (m, x) :: r =>
      if String.eqb m n then (m, e) :: r else (m, x) :: poner_entrada n e r
  end.

Fixpoint quitar_entrada (n : string) (l : list (string * entrada))
  : list (string * entrada) :=
  match l with
  | [] => []
  | (m, x) :: r =>
      if String.eqb m n then r else (m, x) :: quitar_entrada n r
  end.

Definition entradas_de (fs : sistema) (z : zona) : list (string * entrada) :=
  match carpeta_de fs z with
  | Some c => entradas c
  | None => []
  end.

Definition buscar (fs : sistema) (r : ruta) : option entrada :=
  buscar_entrada (snd r) (entradas_de fs (fst r)).

Definition mtime_de (e : entrada) : Z :=
  match e with
  | Archivo a => mtime a
  | Subdirectorio t => t
  end.

Definition tamaño_de (e : entrada) : nat :=
  match e with
  | Archivo a => String.length (contenido a)
  | Subdirectorio _ => 0
  end.


(** ** State and exceptions *)

(** A computation that may change the file system and ends by returning or
    by raising; what it wrote before raising stays written. *)
Definition M (A : Type) : Type := sistema -> resultado A * sistema.

Definition ret {A : Type} (a : A) : M A := fun fs => (Retorna a, fs).

Definition lanzar {A : Type} (e : excepcion) : M A := fun fs => (Lanza e, fs).

Definition bind {A B : Type} (m : M A) (k : A -> M B) : M B :=
  fun fs =>
    match m fs with
    | (Retorna a, fs') => k a fs'
    | (Lanza e, fs') => (Lanza e, fs')
    end.

(** A computation that only reads the state. *)
Definition leer {A : Type} (f : sistema -> resultado A) : M A :=
  fun fs => (f fs, fs).

(** [try: m  except ...:], the handler choosing by the class of the
    exception; [None] lets it through. *)
Definition capturar {A : Type} (m : M A) (h : excepcion -> option (M A)) : M A :=
  fun fs =>
    match m fs with
    | (Retorna a, fs') => (Retorna a, fs')
    | (Lanza e, fs') =>
        match h e with
        | Some k => k fs'
        | None => (Lanza e, fs')
        end
    end.

Declare Scope py_scope.
Delimit Scope py_scope with py.
Notation "x <- m ;; k" := (bind m (fun x => k))
  (at level 61, m at next level, right associativity) : py_scope.
Notation "m ;;; k" := (bind m (fun _ => k))
  (at level 61, right associativity) : py_scope.

(** ** The [os], [shutil] and [open] primitives *)

Definition os_path_exists (fs : sistema) (r : ruta) : bool :=
  match buscar fs r with
  | Some _ => true
  | None => false
  end.

Definition os_path_isfile (fs : sistema) (r : ruta) : bool :=
  match buscar fs r with
  | Some (Archivo _) => true
  | _ => false
  end.

Definition os_path_isdir (fs : sistema) (r : ruta) : bool :=
  match buscar fs r with
  | Some (Subdirectorio _) => true
  | _ => false
  end.

Definition os_path_getsize (fs : sistema) (r : ruta) : resultado nat :=
  match buscar fs r with
  | Some e => Retorna (tamaño_de e)
  | None => Lanza FileNotFoundError
  end.

Definition os_listdir (fs : sistema) (z : zona) : resultado (list string) :=
  match carpeta_de fs z with
  | Some c => Retorna (map fst (entradas c))
  | None => Lanza FileNotFoundError
  end.

(** [os.stat]: the size and the modification time. *)
Definition os_stat (fs : sistema) (r : ruta) : resultado (nat * Z) :=
  match buscar fs r with
  | Some e => Retorna (tamaño_de e, mtime_de e)
  | None => Lanza FileNotFoundError
  end.

Definition os_remove (r : ruta) : M unit :=
  fun fs =>
    match carpeta_de fs (fst r) with
    | None => (Lanza FileNotFoundError, fs)
    | Some c =>
        match buscar_entrada (snd r) (entradas c) with
        | None => (Lanza FileNotFoundError, fs)
        | Some (Subdirectorio _) => (Lanza IsADirectoryError, fs)
        | Some (Archivo a) =>
            if eliminable a
            then (Retorna tt,
                  con_carpeta fs (fst r)
                    {| entradas := quitar_entrada (snd r) (entradas c);
                       acepta_nuevos := acepta_nuevos c |})
            else (Lanza PermissionError, fs)
        end
    end.

(** [open(ruta, 'r')] followed by reading the whole file. *)
Definition leer_archivo (fs : sistema) (r : ruta) : resultado string :=
  match buscar fs r with
  | None => Lanza FileNotFoundError
  | Some (Subdirectorio _) => Lanza IsADirectoryError
  | Some (Archivo a) =>
      if legible a then Retorna (contenido a) else Lanza PermissionError
  end.

(** The directory after file [a] is written at name [n], over what was
    there if anything; the exception when the operating system refuses. *)
Definition sobre_entrada (c : carpeta) (n : string) (a : archivo)
  : resultado carpeta :=
  match buscar_entrada n (entradas c) with
  | Some (Subdirectorio _) => Lanza IsADirectoryError
  | Some (Archivo viejo) =>
      if modificable viejo
      then Retorna {| entradas := poner_entrada n (Archivo a) (entradas c);
                      acepta_nuevos := acepta_nuevos c |}
      else Lanza PermissionError
  | None =>
      if acepta_nuevos c
      then Retorna {| entradas := poner_entrada n (Archivo a) (entradas c);
                      acepta_nuevos := acepta_nuevos c |}
      else Lanza PermissionError
  end.

(** The permissions a file keeps when it is opened for writing: its own if it
    existed, those of a fresh file otherwise. *)
Definition permisos_al_escribir (fs : sistema) (r : ruta) : bool * bool * bool :=
  match buscar fs r with
  | Some (Archivo a) => (legible a, modificable a, eliminable a)
  | _ => (true, true, true)
  end.

(** [open(ruta, 'w')] (or ['wb']) followed by the writes that leave [texto]
    in the file and by the closing of the file.  Opening truncates: the old
    bytes are gone whatever [texto] is.  Only the opening can fail. *)
Definition escribir_archivo (ahora : fecha_hora) (r : ruta) (texto : string) : M unit :=
  fun fs =>
    match carpeta_de fs (fst r) with
    | None => (Lanza FileNotFoundError, fs)
    | Some c =>
        let '(l, m, d) := permisos_al_escribir fs r in
        match sobre_entrada c (snd r)
                {| contenido := texto; mtime := instante ahora;
                   legible := l; modificable := m; eliminable := d |} with
        | Retorna c' => (Retorna tt, con_carpeta fs (fst r) c')
        | Lanza e => (Lanza e, fs)
        end
    end.

(** [shutil.copy2(origen, destino)]: the bytes, the modification time and
    the permission bits of the source go to the destination.  When the
    destination names a subdirectory the copy goes inside it, where the
    model does not look: the listing stays as it is. *)
Definition shutil_copy2 (origen destino : ruta) : M unit :=
  fun fs =>
    match buscar fs origen with
    | None => (Lanza FileNotFoundError, fs)
    | Some (Subdirectorio _) => (Lanza IsADirectoryError, fs)
    | Some (Archivo a) =>
        if negb (legible a) then (Lanza PermissionError, fs)
        else
          match carpeta_de fs (fst destino) with
          | None => (Lanza FileNotFoundError, fs)
          | Some c =>
              match buscar_entrada (snd destino) (entradas c) with
              | Some (Subdirectorio _) => (Retorna tt, fs)
              | _ =>
                  match sobre_entrada c (snd destino) a with
                  | Retorna c' => (Retorna tt, con_carpeta fs (fst destino) c')
                  | Lanza e => (Lanza e, fs)
                  end
              end
          end
    end.

Open Scope py_scope.

(** ** [GestorArchivos] *)

(** [s.endswith(sufijo)]. *)
Definition endswith (s sufijo : string) : bool :=
  (String.length sufijo <=? String.length s) &&
  String.eqb
    (substring (String.length s - String.length sufijo) (String.length sufijo) s)
    sufijo.

Definition obtener_ruta_json (nombre_archivo : string) : ruta :=
  (ZJson,
   if endswith nombre_archivo ".json" then nombre_archivo
   else nombre_archivo ++ ".json").

Definition obtener_ruta_binario (nombre_archivo : string) : ruta :=
  (ZBinarios,
   if endswith nombre_archivo ".pkl" then nombre_archivo
   else nombre_archivo ++ ".pkl").

(** [ahora] is what [datetime.now()] returns during the call. *)
Definition obtener_ruta_backup (ahora : fecha_hora) (nombre_archivo : string) : ruta :=
  let timestamp := strftime_marca ahora in
  let nombre_con_timestamp := nombre_archivo ++ "_" ++ timestamp in
  (ZBackups, nombre_con_timestamp).

Definition listar_archivos (fs : sistema) (tipo : string) : list string :=
  let listar (directorio : zona) (extension : string) :=
    match os_listdir fs directorio with
    | Retorna archivos => filter (fun archivo => endswith archivo extension) archivos
    | Lanza _ => []
    end in
  if String.eqb tipo "json" then listar ZJson ".json"
  else if String.eqb tipo "binario" then listar ZBinarios ".pkl"
  else [].

(** The dictionary of [obtener_info_archivo], without the access and
    creation times, which the state does not record. *)
Record info_archivo : Type := {
  existe : bool;
  tamaño : nat;
  fecha_modificacion : option Z;
  es_archivo : bool;
  es_directorio : bool
}.

Definition obtener_info_archivo (fs : sistema) (ruta_archivo : ruta) : info_archivo :=
  match os_stat fs ruta_archivo with
  | Retorna (size, mt) =>
      {| existe := true;
         tamaño := size;
         fecha_modificacion := Some mt;
         es_archivo := os_path_isfile fs ruta_archivo;
         es_directorio := os_path_isdir fs ruta_archivo |}
  | Lanza _ =>
      {| existe := false;
         tamaño := 0;
         fecha_modificacion := None;
         es_archivo := false;
         es_directorio := false |}
  end.

Section Operaciones.
(** The codecs in use and the reading of the clock during the call. *)
Variable B : codecs.
Variable ahora : fecha_hora.

(** ** [PersistenciaJSON] *)

Definition json_crear_backup (ruta_archivo : ruta) (nombre_base : string) : M unit :=
  let ruta_backup := obtener_ruta_backup ahora (nombre_base ++ ".json") in
  capturar (shutil_copy2 ruta_archivo ruta_backup)
    (fun e => if es_IOError e then Some (ret tt) else None).

(** The [with open(...)] block of a save: the file is opened, which
    truncates it, the dump writes what it writes, and its exception, if it
    ends with one, leaves the block once the file is closed. *)
Definition volcar (r : ruta) (salida : string * option excepcion) : M unit :=
  escribir_archivo ahora r (fst salida) ;;;
  match snd salida with
  | Some e => lanzar e
  | None => ret tt
  end.

Definition json_guardar_datos (nombre_archivo : string) (datos : valor)
    (crear_backup : bool) : M bool :=
  let ruta_archivo := obtener_ruta_json nombre_archivo in
  capturar
    (existe_ya <- leer (fun fs => Retorna (os_path_exists fs ruta_archivo)) ;;
     (if crear_backup && existe_ya
      then json_crear_backup ruta_archivo nombre_archivo
      else ret tt) ;;;
     let datos_json := _preparar_datos_para_json datos in
     volcar ruta_archivo (json_dump B datos_json) ;;;
     ret true)
    (fun e =>
       if es_TypeError_o_ValueError e then Some (lanzar ValueError)
       else if es_IOError e then Some (lanzar OSError)
       else None).

Definition json_cargar_datos (nombre_archivo : string) (fs : sistema)
  : resultado valor :=
  let ruta_archivo := obtener_ruta_json nombre_archivo in
  let intento :=
    match leer_archivo fs ruta_archivo with
    | Retorna bytes => json_load B bytes
    | Lanza e => Lanza e
    end in
  match intento with
  | Retorna datos => Retorna datos
  | Lanza FileNotFoundError => Retorna VNone
  | Lanza JSONDecodeError => Retorna VNone
  | Lanza e => if es_IOError e then Retorna VNone else Lanza e
  end.

(** ** [PersistenciaBinaria] *)

Definition binario_crear_backup (ruta_archivo : ruta) (nombre_base : string) : M unit :=
  let ruta_backup := obtener_ruta_backup ahora (nombre_base ++ ".pkl") in
  capturar (shutil_copy2 ruta_archivo ruta_backup)
    (fun e => if es_IOError e then Some (ret tt) else None).

Definition binario_guardar_datos (nombre_archivo : string) (datos : valor)
    (protocolo : Z) (crear_backup : bool) : M bool :=
  let ruta_archivo := obtener_ruta_binario nombre_archivo in
  capturar
    (existe_ya <- leer (fun fs => Retorna (os_path_exists fs ruta_archivo)) ;;
     (if crear_backup && existe_ya
      then binario_crear_backup ruta_archivo nombre_archivo
      else ret tt) ;;;
     volcar ruta_archivo (pickle_dump B protocolo datos) ;;;
     ret true)
    (fun e =>
       match e with
       | PicklingError => Some (ret false)
       | _ => if es_IOError e then Some (ret false) else None
       end).

Definition binario_cargar_datos (nombre_archivo : string) (fs : sistema)
  : resultado valor :=
  let ruta_archivo := obtener_ruta_binario nombre_archivo in
  let intento :=
    match leer_archivo fs ruta_archivo with
    | Retorna bytes => pickle_load B bytes
    | Lanza e => Lanza e
    end in
  match intento with
  | Retorna datos => Retorna datos
  | Lanza FileNotFoundError => Retorna VNone
  | Lanza UnpicklingError => Retorna VNone
  | Lanza e => if es_IOError e then Retorna VNone else Lanza e
  end.

(** ** [GestorPersistencia] *)

Definition archivo_usuarios : string := "usuarios".
Definition archivo_tareas : string := "tareas".

Definition guardar_usuarios (usuarios : valor) (formato : string) : M bool :=
  if String.eqb formato "json"
  then json_guardar_datos archivo_usuarios usuarios true
  else if String.eqb formato "binario"
  then binario_guardar_datos archivo_usuarios usuarios (HIGHEST_PROTOCOL B) true
  else lanzar ValueError.

Definition cargar_usuarios (formato : string) (fs : sistema) : resultado valor :=
  if String.eqb formato "json" then json_cargar_datos archivo_usuarios fs
  else if String.eqb formato "binario" then binario_cargar_datos archivo_usuarios fs
  else Lanza ValueError.

Definition guardar_tareas (tareas : valor) (formato : string) : M bool :=
  if String.eqb formato "json"
  then json_guardar_datos archivo_tareas tareas true
  else if String.eqb formato "binario"
  then binario_guardar_datos archivo_tareas tareas (HIGHEST_PROTOCOL B) true
  else lanzar ValueError.

Definition cargar_tareas (formato : string) (fs : sistema) : resultado valor :=
  if String.eqb formato "json" then json_cargar_datos archivo_tareas fs
  else if String.eqb formato "binario" then binario_cargar_datos archivo_tareas fs
  else Lanza ValueError.

Definition sincronizar_formatos : M bool :=
  capturar
    (usuarios_json <- leer (cargar_usuarios "json") ;;
     (if es_verdadero usuarios_json
      then binario_guardar_datos (archivo_usuarios ++ "_sync") usuarios_json
             (HIGHEST_PROTOCOL B) true ;;; ret tt
      else ret tt) ;;;
     tareas_json <- leer (cargar_tareas "json") ;;
     (if es_verdadero tareas_json
      then binario_guardar_datos (archivo_tareas ++ "_sync") tareas_json
             (HIGHEST_PROTOCOL B) true ;;; ret tt
      else ret tt) ;;;
     ret true)
    (fun e => if es_Exception e then Some (ret false) else None).

(** The [for archivo in archivos_backup] loop of
    [limpiar_backups_antiguos]; [archivos_eliminados] is the counter. *)
Fixpoint bucle_limpieza (fecha_limite : Z) (archivos_backup : list string)
    (archivos_eliminados : nat) : M nat :=
  match archivos_backup with
  | [] => ret archivos_eliminados
  | archivo :: resto =>
      let ruta_completa := (ZBackups, archivo) in
      info_archivo <- leer (fun fs => Retorna (obtener_info_archivo fs ruta_completa)) ;;
      if existe info_archivo &&
         match fecha_modificacion info_archivo with
         | Some t => (t <? fecha_limite)%Z
         | None => false
         end
      then os_remove ruta_completa ;;;
           bucle_limpieza fecha_limite resto (archivos_eliminados + 1)
      else bucle_limpieza fecha_limite resto archivos_eliminados
  end.

(** [datetime.now() - timedelta(days=dias_antiguedad)], which raises
    [OverflowError] when the days or the result are out of range. *)
Definition calcular_fecha_limite (dias_antiguedad : Z) : resultado Z :=
  if (Z.abs dias_antiguedad >? timedelta_max_dias)%Z then Lanza OverflowError
  else
    let t := (instante ahora - dias_antiguedad * microsegundos_por_dia)%Z in
    if ((0 <=? t) && (t <? instante_tope))%Z then Retorna t
    else Lanza OverflowError.

Definition limpiar_backups_antiguos (dias_antiguedad : Z) : M nat :=
  fecha_limite <- leer (fun _ => calcular_fecha_limite dias_antiguedad) ;;
  capturar
    (archivos_backup <- leer (fun fs => os_listdir fs ZBackups) ;;
     bucle_limpieza fecha_limite archivos_backup 0)
    (fun e => if es_Exception e then Some (ret 0) else None).

(** The dictionary of [obtener_estadisticas_almacenamiento].
    [tamaño_total_bytes] is the sum accumulated under the key
    ['tamaño_total_mb'] before the final conversion to megabytes, a
    floating-point rounding that is not modelled. *)
Record estadisticas : Type := {
  archivos_json : nat;
  archivos_binarios : nat;
  backups_totales : nat;
  tamaño_total_bytes : nat;
  fecha_ultimo_backup : option Z
}.

(** [max(fechas_backup)] for a non-empty list, [None] for the empty one. *)
Definition maximo (l : list Z) : option Z :=
  match l with
  | [] => None
  | x :: r => Some (fold_left Z.max r x)
  end.

(** The bytes of the regular files of one directory. *)
Definition bytes_de (fs : sistema) (directorio : zona) : nat :=
  match os_listdir fs directorio with
  | Retorna archivos =>
      fold_left
        (fun total archivo =>
           if os_path_isfile fs (directorio, archivo)
           then match os_path_getsize fs (directorio, archivo) with
                | Retorna n => total + n
                | Lanza _ => total
                end
           else total)
        archivos 0
  | Lanza _ => 0
  end.

(** Every primitive used inside the [try] block is defined on every
    state of the model, so the [except Exception] branch is never taken
    here. *)
Definition obtener_estadisticas_almacenamiento (fs : sistema) : estadisticas :=
  let backups :=
    match os_listdir fs ZBackups with
    | Retorna l => l
    | Lanza _ => []
    end in
  let fechas_backup :=
    flat_map
      (fun backup =>
         let info := obtener_info_archivo fs (ZBackups, backup) in
         if existe info
         then match fecha_modificacion info with Some t => [t] | None => [] end
         else [])
      backups in
  {| archivos_json := length (listar_archivos fs "json");
     archivos_binarios := length (listar_archivos fs "binario");
     backups_totales := length backups;
     tamaño_total_bytes :=
       bytes_de fs ZJson + bytes_de fs ZBinarios + bytes_de fs ZBackups;
     fecha_ultimo_backup := maximo fechas_backup |}.

Definition crear_backup : M bool :=
  capturar
    (let timestamp := strftime_marca ahora in
     usuarios_json <- leer (cargar_usuarios "json") ;;
     resultado_usuarios <-
       (if es_verdadero usuarios_json
        then json_guardar_datos ("usuarios_backup_" ++ timestamp) usuarios_json false
        else ret true) ;;
     tareas_json <- leer (cargar_tareas "json") ;;
     resultado_tareas <-
       (if es_verdadero tareas_json
        then json_guardar_datos ("tareas_backup_" ++ timestamp) tareas_json false
        else ret true) ;;
     let exito := resultado_usuarios && resultado_tareas in
     ret exito)
    (fun e => if es_Exception e then Some (ret false) else None).

End Operaciones.


(** ** The shape shared by the two [guardar_datos]

    The [try] body of [PersistenciaJSON.guardar_datos] and of
    [PersistenciaBinaria.guardar_datos] is the same up to the paths and the
    dump: the optional best-effort backup, then the [with open] block. *)
Definition respaldo (ruta_archivo ruta_backup : ruta) : M unit :=
  capturar (shutil_copy2 ruta_archivo ruta_backup)
    (fun e => if es_IOError e then Some (ret tt) else None).

Definition intento_guardar (ahora : fecha_hora) (ruta_archivo ruta_backup : ruta)
    (crear_backup : bool) (salida : string * option excepcion) : M bool :=
  existe_ya <- leer (fun fs => Retorna (os_path_exists fs ruta_archivo)) ;;
  (if crear_backup && existe_ya
   then respaldo ruta_archivo ruta_backup
   else ret tt) ;;;
  volcar ahora ruta_archivo salida ;;;
  ret true.

(** The state after the backup step of a save. *)
Definition tras_respaldo (ruta_archivo ruta_backup : ruta) (crear_backup : bool)
    (fs : sistema) : sistema :=
  if crear_backup && os_path_exists fs ruta_archivo
  then snd (respaldo ruta_archivo ruta_backup fs)
  else fs.

(** What [sincronizar_formatos] does with the data loaded for one
    collection. *)
Definition paso_sincronizar (B : codecs) (ahora : fecha_hora) (nombre : string)
    (datos_json : valor) : M unit :=
  if es_verdadero datos_json
  then binario_guardar_datos B ahora (nombre ++ "_sync") datos_json
         (HIGHEST_PROTOCOL B) true ;;; ret tt
  else ret tt.

(** ** Predicates on the state used to state the properties *)

(** [open(r, 'w')] succeeds: the directory exists and either the name is
    that of a file that may be modified, or it is free and the directory
    takes new entries. *)
Definition escribible (fs : sistema) (r : ruta) : bool :=
  match carpeta_de fs (fst r) with
  | None => false
  | Some c =>
      match buscar_entrada (snd r) (entradas c) with
      | Some (Subdirectorio _) => false
      | Some (Archivo viejo) => modificable viejo
      | None => acepta_nuevos c
      end
  end.

(** The file that [escribir_archivo] leaves at [r]. *)
Definition archivo_escrito (ahora : fecha_hora) (fs : sistema) (r : ruta)
    (texto : string) : archivo :=
  let '(l, m, d) := permisos_al_escribir fs r in
  {| contenido := texto; mtime := instante ahora;
     legible := l; modificable := m; eliminable := d |}.

(** A backup is older than the limit of a pruning. *)
Definition antigua (fecha_limite : Z) (ne : string * entrada) : bool :=
  (mtime_de (snd ne) <? fecha_limite)%Z.

(** [os.remove] accepts the entry. *)
Definition se_puede_eliminar (ne : string * entrada) : bool :=
  match snd ne with
  | Archivo a => eliminable a
  | Subdirectorio _ => false
  end.

(** ** Concrete inputs for the examples *)

Definition salto : string := String (ascii_of_nat 10) EmptyString.

Definition bytes_de_codigos (l : list nat) : string :=
  fold_right (fun n s => String (ascii_of_nat n) s) EmptyString l.

(** A list that holds a module-level [lambda], an object without [to_dict]
    that [pickle] refuses with [PicklingError]. *)
Definition lista_con_lambda : valor := VList [VObjeto "function" None].

(** The list [[{(1, 2): 3}]]: [json] refuses the key of the dictionary with
    [TypeError]. *)
Definition lista_clave_tupla : valor :=
  VList [VDict [(VTuple [VInt 1; VInt 2], VInt 3)]].

(** The bytes of [pickle.dumps([1], protocol=5)]. *)
Definition pickle_de_lista_1 : string :=
  bytes_de_codigos [128; 5; 149; 6; 0; 0; 0; 0; 0; 0; 0; 93; 148; 75; 1; 97; 46].

(** What CPython's [json] and [pickle] do on the few inputs of the examples
    below: the lists [[1]], [[{(1, 2): 3}]] and [[lambda: 0]], the truncated
    text ["{"], the byte ["x"] and the pickle of [[1]].  The answers on any
    other input are placeholders that no example uses. *)
Definition codecs_ejemplo : codecs :=
  {| json_dump := fun v =>
       match v with
       | VList [VInt 1] => ("[" ++ salto ++ "  1" ++ salto ++ "]", None)
       | VList [VDict [(VTuple [VInt 1; VInt 2], VInt 3)]] =>
           ("[" ++ salto ++ "  {" ++ salto ++ "    ", Some TypeError)
       | _ => ("", Some TypeError)
       end;
     json_load := fun s =>
       if String.eqb s "[1]" then Retorna (VList [VInt 1])
       else Lanza JSONDecodeError;
     pickle_dump := fun _ v =>
       match v with
       | VList [VInt 1] => (pickle_de_lista_1, None)
       | _ => ("", Some PicklingError)
       end;
     pickle_load := fun s =>
       if String.eqb s pickle_de_lista_1 then Retorna (VList [VInt 1])
       else Lanza UnpicklingError;
     HIGHEST_PROTOCOL := 5 |}.

(** 2025-01-15 10:30:45. *)
Definition ahora_ejemplo : fecha_hora :=
  {| año := 2025; mes := 1; dia := 15; hora := 10; minuto := 30; segundo := 45;
     microsegundo := 0 |}.

(** 2024-01-01 00:00:00, more than a year before [ahora_ejemplo]. *)
Definition hace_un_año : Z :=
  instante {| año := 2024; mes := 1; dia := 1; hora := 0; minuto := 0;
              segundo := 0; microsegundo := 0 |}.

Definition archivo_normal (texto : string) (t : Z) : entrada :=
  Archivo {| contenido := texto; mtime := t;
             legible := true; modificable := true; eliminable := true |}.

Definition archivo_protegido (texto : string) (t : Z) : entrada :=
  Archivo {| contenido := texto; mtime := t;
             legible := true; modificable := false; eliminable := false |}.

Definition carpeta_con (l : list (string * entrada)) : option carpeta :=
  Some {| entradas := l; acepta_nuevos := true |}.

(** A freshly initialised root: the three directories, empty. *)
Definition sistema_vacio : sistema :=
  {| directorio_json := carpeta_con [];
     directorio_binarios := carpeta_con [];
     directorio_backups := carpeta_con [] |}.

(** Both collections saved in JSON, the users also in binary. *)
Definition sistema_con_datos : sistema :=
  {| directorio_json :=
       carpeta_con [("usuarios.json", archivo_normal "[1]" hace_un_año);
                    ("tareas.json", archivo_normal "[1]" hace_un_año)];
     directorio_binarios :=
       carpeta_con [("usuarios.pkl", archivo_normal pickle_de_lista_1 hace_un_año)];
     directorio_backups := carpeta_con [] |}.

(** The users saved in binary only. *)
Definition sistema_solo_binario : sistema :=
  {| directorio_json := carpeta_con [];
     directorio_binarios :=
       carpeta_con [("usuarios.pkl", archivo_normal pickle_de_lista_1 hace_un_año)];
     directorio_backups := carpeta_con [] |}.

(** The users file cut short in each format. *)
Definition sistema_corrupto : sistema :=
  {| directorio_json :=
       carpeta_con [("usuarios.json", archivo_normal "{" hace_un_año)];
     directorio_binarios :=
       carpeta_con [("usuarios.pkl", archivo_normal "x" hace_un_año)];
     directorio_backups := carpeta_con [] |}.

(** Three old backups, the second of which the operating system does not
    let the process remove. *)
Definition sistema_con_backups : sistema :=
  {| directorio_json := carpeta_con [];
     directorio_binarios := carpeta_con [];
     directorio_backups :=
       carpeta_con
         [("usuarios.json_20240101_000000", archivo_normal "[1]" hace_un_año);
          ("tareas.json_20240101_000000", archivo_protegido "[1]" hace_un_año);
          ("usuarios.pkl_20240101_000000", archivo_normal "x" hace_un_año)] |}.

(** Two old backups and one made at [ahora_ejemplo], all removable. *)
Definition sistema_con_backups_libres : sistema :=
  {| directorio_json := carpeta_con [];
     directorio_binarios := carpeta_con [];
     directorio_backups :=
       carpeta_con
         [("usuarios.json_20240101_000000", archivo_normal "[1]" hace_un_año);
          ("tareas.json_20250115_103045",
           archivo_normal "[1]" (instante ahora_ejemplo));
          ("usuarios.pkl_20240101_000000", archivo_normal "x" hace_un_año)] |}.

End Persistencia.

(* ================================================================== *)
(** * models/tarea.py, models/usuario.py and the rest of
      utils/generadores.py *)

From Stdlib Require Import DecimalString DecimalNat Permutation Sorted.
From Stdlib Require DecimalFacts.

(** [str(n)] for a natural number. *)
Definition str_de_nat (n : nat) : string :=
  NilZero.string_of_uint (Nat.to_uint n).

(** [k] characters ['0']. *)
Fixpoint ceros (k : nat) : string :=
  match k with
  | O => EmptyString
  | S j => String "0"%char (ceros j)
  end.

(** [f"{n:06d}"]: the decimal digits of [n], with zeros in front up to a
    width of six. *)
Definition formato_06d (n : nat) : string :=
  let s := str_de_nat n in
  (ceros (6 - String.length s) ++ s)%string.

(** [int(s)] for a string of decimal digits, leading zeros allowed;
    [None] when [s] is not such a string. *)
Definition leer_decimal (s : string) : option nat :=
  match NilEmpty.uint_of_string s with
  | Some d => Some (Nat.of_uint d)
  | None => None
  end.

Module Tarea.

(** [EstadoTarea] and the [value] of each member. *)
Inductive EstadoTarea : Type := PENDIENTE | EN_PROGRESO | COMPLETADA.

Definition value (e : EstadoTarea) : string :=
  match e with
  | PENDIENTE => "pendiente"
  | EN_PROGRESO => "en_progreso"
  | COMPLETADA => "completada"
  end.

(** The attributes of a [Tarea] that the queries read.  A task built
    without [fecha_limite] has [None] there; a [fecha_limite] kept as an
    ISO string, which the methods below convert first, is not modelled. *)
Record t : Type := {
  id : string;
  titulo : string;
  estado : EstadoTarea;
  usuario_id : option string;
  fecha_limite : option Persistencia.fecha_hora
}.

(** [(fecha_limite - datetime.now()).days]: the whole days of the
    difference, rounded down; subtracting from [None] raises
    [TypeError]. *)
Definition calcular_dias_restantes (ahora : Persistencia.fecha_hora) (tarea : t)
  : resultado Z :=
  match fecha_limite tarea with
  | None => Lanza TypeError
  | Some limite =>
      Retorna ((Persistencia.instante limite - Persistencia.instante ahora)
               / Persistencia.microsegundos_por_dia)%Z
  end.

(** [datetime.now() > fecha_limite]; comparing with [None] raises
    [TypeError]. *)
Definition esta_vencida (ahora : Persistencia.fecha_hora) (tarea : t)
  : resultado bool :=
  match fecha_limite tarea with
  | None => Lanza TypeError
  | Some limite =>
      Retorna (Persistencia.instante limite <? Persistencia.instante ahora)%Z
  end.

(** [tarea.estado.value], an attribute every [Tarea] has. *)
Definition estado_valor (tarea : t) : option string := Some (value (estado tarea)).

End Tarea.

Module Usuario.
Local Open Scope list_scope.

(** The attributes of a [Usuario] that the queries and the assignment
    methods read or write. *)
Record t : Type := {
  id : string;
  nombre : string;
  tareas_asignadas : list string
}.

Definition con_tareas (u : t) (l : list string) : t :=
  {| id := id u; nombre := nombre u; tareas_asignadas := l |}.

(** [x in lista] for strings. *)
Definition esta_en (x : string) (lista : list string) : bool :=
  existsb (String.eqb x) lista.

(** [lista.remove(x)]: the list without the first occurrence of [x];
    [ValueError] when there is none. *)
Fixpoint list_remove (x : string) (lista : list string) : resultado (list string) :=
  match lista with
  | [] => Lanza ValueError
  | y :: r =>
      if String.eqb y x then Retorna r
      else match list_remove x r with
           | Retorna r' => Retorna (y :: r')
           | Lanza e => Lanza e
           end
  end.

Section Asignacion.
(** [solo_blancos s] is [not s.strip()], the test of [str.strip] for a
    string made of white space only. *)
Variable solo_blancos : string -> bool.

(** [agregar_tarea]: the result and the user after the call. *)
Definition agregar_tarea (u : t) (tarea_id : string) : resultado bool * t :=
  if String.eqb tarea_id "" || solo_blancos tarea_id then (Lanza ValueError, u)
  else if negb (esta_en tarea_id (tareas_asignadas u))
  then (Retorna true, con_tareas u (tareas_asignadas u ++ [tarea_id]))
  else (Retorna false, u).

End Asignacion.

(** [remover_tarea]. *)
Definition remover_tarea (u : t) (tarea_id : string) : bool * t :=
  match list_remove tarea_id (tareas_asignadas u) with
  | Retorna l => (true, con_tareas u l)
  | Lanza _ => (false, u)
  end.

End Usuario.

Module Consultas.
Local Open Scope list_scope.

Section Generico.
Variable A : Type.

(** [list(iterador)]: [__next__] is called until it raises
    [StopIteration].  [None] is a run that needs more than [combustible]
    calls. *)
Fixpoint consumir (combustible : nat) (it : Generadores.IteradorTareas A)
  : option (list A) :=
  match combustible with
  | O => None
  | S c =>
      match Generadores.next it with
      | (None, _) => Some []
      | (Some tarea, it') =>
          match consumir c it' with
          | Some l => Some (tarea :: l)
          | None => None
          end
      end
  end.

(** A generator [for x in xs: if p(x): yield x], consumed to the end,
    where the test may raise: the exception ends the iteration. *)
Fixpoint filtrar_o_lanzar (p : A -> resultado bool) (xs : list A)
  : resultado (list A) :=
  match xs with
  | [] => Retorna []
  | x :: r =>
      match p x with
      | Lanza e => Lanza e
      | Retorna b =>
          match filtrar_o_lanzar p r with
          | Lanza e => Lanza e
          | Retorna l => Retorna (if b then x :: l else l)
          end
      end
  end.

(** [generador_tareas_por_estado]; [estado_valor] as in
    [generador_estadisticas_por_lote]. *)
Definition generador_tareas_por_estado (estado_valor : A -> option string)
    (tareas : list A) (estado_objetivo : string) : list A :=
  filter (Generadores.tiene_estado estado_valor estado_objetivo) tareas.

End Generico.

(** The generators below are modelled on lists of [Tarea] and [Usuario]
    objects, which have every attribute that the source tests with
    [hasattr].  The clock is read once for a whole run. *)



Definition generador_tareas_vencidas (ahora : Persistencia.fecha_hora)
    (tareas : list Tarea.t) : resultado (list Tarea.t) :=
  filtrar_o_lanzar (Tarea.esta_vencida ahora) tareas.

(** [0 <= dias_restantes <= dias]. *)
Definition proxima_a_vencer (ahora : Persistencia.fecha_hora) (dias : Z)
    (tarea : Tarea.t) : resultado bool :=
  match Tarea.calcular_dias_restantes ahora tarea with
  | Lanza e => Lanza e
  | Retorna dias_restantes =>
      Retorna ((0 <=? dias_restantes) && (dias_restantes <=? dias))%Z
  end.

Definition generador_tareas_proximas_vencer (ahora : Persistencia.fecha_hora)
    (tareas : list Tarea.t) (dias : Z) : resultado (list Tarea.t) :=
  filtrar_o_lanzar (proxima_a_vencer ahora dias) tareas.

(** ** [generador_usuarios_con_tareas] *)








(** ** [generador_fechas_limite_calendario] *)

(** [tarea.fecha_limite] read for its [year], [month] or [day]: on [None]
    the attribute access raises [AttributeError]. *)
Definition fecha_de (tarea : Tarea.t) : resultado Persistencia.fecha_hora :=
  match Tarea.fecha_limite tarea with
  | Some f => Retorna f
  | None => Lanza AttributeError
  end.

Definition es_del_mes (año mes : Z) (tarea : Tarea.t) : resultado bool :=
  match fecha_de tarea with
  | Retorna f =>
      Retorna ((Persistencia.año f =? año) && (Persistencia.mes f =? mes))%Z
  | Lanza e => Lanza e
  end.

(** The day of a task of [tareas_del_mes], all of which have a date. *)
Definition dia_de (tarea : Tarea.t) : Z :=
  match Tarea.fecha_limite tarea with
  | Some f => Persistencia.dia f
  | None => 0%Z
  end.

(** A dictionary from days to lists of tasks, in insertion order. *)
Definition por_dia : Type := list (Z * list Tarea.t).

Fixpoint tareas_del_dia (dia : Z) (d : por_dia) : list Tarea.t :=
  match d with
  | [] => []
  | (c, l) :: r => if (c =? dia)%Z then l else tareas_del_dia dia r
  end.

Fixpoint anotar_dia (dia : Z) (tarea : Tarea.t) (d : por_dia) : por_dia :=
  match d with
  | [] => [(dia, [tarea])]
  | (c, l) :: r =>
      if (c =? dia)%Z then (c, l ++ [tarea]) :: r
      else (c, l) :: anotar_dia dia tarea r
  end.

Definition agrupar_por_dia (tareas_del_mes : list Tarea.t) : por_dia :=
  fold_left (fun d tarea => anotar_dia (dia_de tarea) tarea d) tareas_del_mes [].

(** [sorted] on integers, by insertion. *)
Fixpoint insertar (x : Z) (l : list Z) : list Z :=
  match l with
  | [] => [x]
  | y :: r => if (x <=? y)%Z then x :: y :: r else y :: insertar x r
  end.

Definition sorted (l : list Z) : list Z := fold_right insertar [] l.

Record dia_calendario : Type := {
  dc_fecha : Z * Z * Z;
  dc_dia : Z;
  dc_tareas : list Tarea.t;
  dc_total_tareas : nat;
  dc_resumen : string
}.

(** [f"{n} tarea{'s' if n != 1 else ''}"]. *)
Definition resumen_de (n : nat) : string :=
  (str_de_nat n ++ " tarea" ++ (if Nat.eqb n 1 then "" else "s"))%string.

Definition generador_fechas_limite_calendario (tareas : list Tarea.t)
    (año mes : Z) : resultado (list dia_calendario) :=
  match filtrar_o_lanzar (es_del_mes año mes) tareas with
  | Lanza e => Lanza e
  | Retorna tareas_del_mes =>
      let tareas_por_dia := agrupar_por_dia tareas_del_mes in
      Retorna
        (map (fun dia =>
                let tareas_dia := tareas_del_dia dia tareas_por_dia in
                {| dc_fecha := (año, mes, dia);
                   dc_dia := dia;
                   dc_tareas := tareas_dia;
                   dc_total_tareas := length tareas_dia;
                   dc_resumen := resumen_de (length tareas_dia) |})
             (sorted (map fst tareas_por_dia)))
  end.

(** The due date of a task is the given day of the given month; the
    tasks that an entry of the calendar is stated to hold. *)
Definition vence_el (año mes dia : Z) (t : Tarea.t) : bool :=
  match Tarea.fecha_limite t with
  | Some f => ((Persistencia.año f =? año) && (Persistencia.mes f =? mes)
               && (Persistencia.dia f =? dia))%Z
  | None => false
  end.

(** ** [crear_filtro_fecha_rango] *)

(** [fecha_inicio <= tarea.fecha_limite <= fecha_fin], on instants;
    comparing a [datetime] with [None] raises [TypeError]. *)
Definition crear_filtro_fecha_rango (fecha_inicio fecha_fin : Persistencia.fecha_hora)
    (tarea : Tarea.t) : resultado bool :=
  match Tarea.fecha_limite tarea with
  | None => Lanza TypeError
  | Some f =>
      Retorna ((Persistencia.instante fecha_inicio <=? Persistencia.instante f)
               && (Persistencia.instante f <=? Persistencia.instante fecha_fin))%Z
  end.

(** ** [GeneradorInfinito] *)

Record GeneradorInfinito : Type := {
  prefijo : string;
  contador : nat
}.

(** [GeneradorInfinito(prefijo)]. *)
Definition nuevo_generador (p : string) : GeneradorInfinito :=
  {| prefijo := p; contador := 0 |}.

(** [__next__]: the identifier returned and the generator after the
    call.  It never raises [StopIteration]. *)
Definition siguiente_id (g : GeneradorInfinito) : string * GeneradorInfinito :=
  let c := contador g + 1 in
  ((prefijo g ++ "_" ++ formato_06d c)%string,
   {| prefijo := prefijo g; contador := c |}).

(** The first [n] identifiers of a generator, in order. *)
Fixpoint primeros_ids (n : nat) (g : GeneradorInfinito) : list string :=
  match n with
  | O => []
  | S m => fst (siguiente_id g) :: primeros_ids m (snd (siguiente_id g))
  end.

End Consultas.

(* ================================================================== *)
(** * services/gestor_tareas.py: the searches *)

Module GestorTareas.
Import Consultas.
Local Open Scope list_scope.

Section Busquedas.
(** [crear_filtro_titulo_contiene(texto)] applied to a task:
    [texto.lower().strip() in tarea.titulo.lower()], a test on strings
    that never raises.  The case mapping of [str.lower] is not modelled:
    the test is a parameter. *)
Variable titulo_contiene : string -> Tarea.t -> bool.

(** [all(filtro(item) for filtro in filtros)] for filters that may raise:
    [all] stops at the first filter that returns [False], and an
    exception ends it. *)
Fixpoint filtro_combinado (filtros : list (Tarea.t -> resultado bool))
    (item : Tarea.t) : resultado bool :=
  match filtros with
  | [] => Retorna true
  | filtro :: resto =>
      match filtro item with
      | Lanza e => Lanza e
      | Retorna false => Retorna false
      | Retorna true => filtro_combinado resto item
      end
  end.

(** [buscar_tareas_por_fecha_rango]. *)
Definition buscar_tareas_por_fecha_rango (tareas : list Tarea.t)
    (fecha_inicio fecha_fin : Persistencia.fecha_hora) : resultado (list Tarea.t) :=
  filtrar_o_lanzar (crear_filtro_fecha_rango fecha_inicio fecha_fin) tareas.

(** The list [filtros] of [buscar_tareas_compuesto].  An argument left at
    [None] and an empty string are both false for [if titulo:] and
    [if estado:]; a [datetime] is always true. *)
Definition filtros_de (titulo estado : option string)
    (fecha_inicio fecha_fin : option Persistencia.fecha_hora)
  : list (Tarea.t -> resultado bool) :=
  (match titulo with
   | Some texto =>
       if String.eqb texto "" then []
       else [fun t => Retorna (titulo_contiene texto t)]
   | None => []
   end)
  ++ (match estado with
      | Some e =>
          if String.eqb e "" then []
          else [fun t => Retorna (Generadores.tiene_estado Tarea.estado_valor e t)]
      | None => []
      end)
  ++ (match fecha_inicio, fecha_fin with
      | Some inicio, Some fin => [crear_filtro_fecha_rango inicio fin]
      | _, _ => []
      end).

Definition buscar_tareas_compuesto (tareas : list Tarea.t)
    (titulo estado : option string)
    (fecha_inicio fecha_fin : option Persistencia.fecha_hora)
  : resultado (list Tarea.t) :=
  let filtros := filtros_de titulo estado fecha_inicio fecha_fin in
  match filtros with
  | [] => Retorna tareas
  | _ :: _ => filtrar_o_lanzar (filtro_combinado filtros) tareas
  end.

(** The three criteria of a compound search, as tests on a task; a
    criterion that is not given holds. *)
Definition criterio_titulo (titulo : option string) (t : Tarea.t) : bool :=
  match titulo with
  | Some texto => if String.eqb texto "" then true else titulo_contiene texto t
  | None => true
  end.

Definition criterio_estado (estado : option string) (t : Tarea.t) : bool :=
  match estado with
  | Some e =>
      if String.eqb e "" then true
      else String.eqb (Tarea.value (Tarea.estado t)) e
  | None => true
  end.

Definition criterio_fecha (fecha_inicio fecha_fin : option Persistencia.fecha_hora)
    (t : Tarea.t) : bool :=
  match fecha_inicio, fecha_fin with
  | Some inicio, Some fin =>
      match Tarea.fecha_limite t with
      | Some f =>
          ((Persistencia.instante inicio <=? Persistencia.instante f)
           && (Persistencia.instante f <=? Persistencia.instante fin))%Z
      | None => false
      end
  | _, _ => true
  end.

End Busquedas.

End GestorTareas.

(** ** More predicates on stored values *)

Module Planos.
Import Persistencia.

(** No object with a [to_dict] method at any place that
    [_preparar_datos_para_json] visits: the elements of lists and the
    values of dictionaries, at any depth. *)
Fixpoint sin_to_dict (v : valor) : bool :=
  match v with
  | VObjeto _ (Some _) => false
  | VList l => forallb sin_to_dict l
  | VDict d => forallb (fun kv => match kv with (_, x) => sin_to_dict x end) d
  | _ => true
  end.

End Planos.

(** ** Concrete inputs for the examples of the queries *)

Module Ejemplos.
Local Open Scope list_scope.

(** Noon of a day of January 2025. *)
Definition dia_de_enero (d : Z) : Persistencia.fecha_hora :=
  {| Persistencia.año := 2025; Persistencia.mes := 1; Persistencia.dia := d;
     Persistencia.hora := 12; Persistencia.minuto := 0;
     Persistencia.segundo := 0; Persistencia.microsegundo := 0 |}.

Definition tarea_ejemplo (id : string) (e : Tarea.EstadoTarea)
    (u : option string) (f : option Persistencia.fecha_hora) : Tarea.t :=
  {| Tarea.id := id; Tarea.titulo := ("Tarea " ++ id)%string; Tarea.estado := e;
     Tarea.usuario_id := u; Tarea.fecha_limite := f |}.

(** Four tasks due on the 10th, the 16th (two) and the 20th. *)
Definition cuatro_tareas : list Tarea.t :=
  [ tarea_ejemplo "t1" Tarea.PENDIENTE (Some "u1"%string) (Some (dia_de_enero 10));
    tarea_ejemplo "t2" Tarea.COMPLETADA (Some "u1"%string) (Some (dia_de_enero 16));
    tarea_ejemplo "t3" Tarea.EN_PROGRESO (Some "u2"%string) (Some (dia_de_enero 16));
    tarea_ejemplo "t4" Tarea.PENDIENTE None (Some (dia_de_enero 20)) ].

(** A completed task built without due date. *)
Definition tarea_sin_fecha : Tarea.t :=
  tarea_ejemplo "t5" Tarea.COMPLETADA None None.

Definition usuario_ejemplo : Usuario.t :=
  {| Usuario.id := "u1"; Usuario.nombre := "Ana";
     Usuario.tareas_asignadas := ["t1"; "t2"]%string |}.

(** [not s.strip()] on strings of ASCII spaces. *)
Fixpoint solo_espacios (s : string) : bool :=
  match s with
  | EmptyString => true
  | String c r => Ascii.eqb c " " && solo_espacios r
  end.

End Ejemplos.

(* ================================================================== *)
(** * Properties of the lazy query engine *)

Section PropiedadesIterador.
Import Generadores.
Local Open Scope list_scope.
Variable A : Type.
Implicit Types (it : IteradorTareas A) (f : option (A -> bool)).

(** One turn of the [while] loop of [__next__], as the source writes it:
    test [indice < len(tareas)], read [tareas[indice]], advance, test the
    filter. *)
Lemma next_un_paso it :
  next it =
  match nth_error (tareas it) (indice it) with
  | None => (None, it)
  | Some tarea =>
      let it1 := {| tareas := tareas it; filtro := filtro it;
                    indice := S (indice it) |} in
      if pasa_filtro (filtro it) tarea then (Some tarea, it1) else next it1
  end.
Proof.
  destruct it as [ts f i]; unfold next; cbn [tareas filtro indice].
  destruct (nth_error ts i) as [tarea|] eqn:E.
  - destruct (nth_error_split ts i E) as (l1 & l2 & -> & <-).
    assert (E1 : skipn (length l1) (l1 ++ tarea :: l2) = tarea :: l2).
    { rewrite skipn_app, skipn_all, Nat.sub_diag. reflexivity. }
    assert (E2 : skipn (S (length l1)) (l1 ++ tarea :: l2) = l2).
    { replace (S (length l1)) with (1 + length l1) by lia.
      rewrite <- skipn_skipn, E1. reflexivity. }
    rewrite E1; cbn [bucle_next].
    destruct (pasa_filtro f tarea); [reflexivity|].
    cbn zeta. cbn [tareas filtro indice]. rewrite E2. reflexivity.
  - apply nth_error_None in E. rewrite skipn_all2 by exact E. reflexivity.
Qed.

Lemma bucle_next_some f l i x j :
  bucle_next f l i = (Some x, j) ->
  exists k, nth_error l k = Some x /\ pasa_filtro f x = true /\
            (forall m y, m < k -> nth_error l m = Some y -> pasa_filtro f y = false) /\
            j = S (i + k).
Proof.
  revert i; induction l as [|t r IH]; intros i H; simpl in H; [discriminate|].
  destruct (pasa_filtro f t) eqn:P.
  - injection H as <- <-. exists 0.
    split; [reflexivity|]. split; [exact P|]. split; [|lia].
    intros m y Hm; lia.
  - destruct (IH _ H) as (k & Hk & Hp & Hbefore & ->).
    exists (S k).
    split; [exact Hk|]. split; [exact Hp|]. split; [|lia].
    intros [|m] y Hm Hy; simpl in Hy.
    + injection Hy as <-. exact P.
    + apply (Hbefore m); [lia|exact Hy].
Qed.

Lemma bucle_next_none f l i j :
  bucle_next f l i = (None, j) ->
  j = i + length l /\ forall y, In y l -> pasa_filtro f y = false.
Proof.
  revert i; induction l as [|t r IH]; intros i H; simpl in H.
  - injection H as <-. split; [simpl; lia | intros y []].
  - destruct (pasa_filtro f t) eqn:P; [discriminate|].
    destruct (IH _ H) as [-> Hall]. split; [simpl; lia|].
    intros y [<-|Hy]; auto.
Qed.

Lemma next_conserva it :
  tareas (snd (next it)) = tareas it /\ filtro (snd (next it)) = filtro it.
Proof.
  unfold next. destruct (bucle_next _ _ _); simpl; auto.
Qed.

Lemma next_agotado_es_fijo it it' :
  next it = (None, it') -> next it' = (None, it').
Proof.
  unfold next.
  destruct (bucle_next (filtro it) (skipn (indice it) (tareas it)) (indice it))
    as [r j] eqn:E.
  intros H; injection H as -> <-. simpl.
  destruct (bucle_next_none _ _ _ E) as [-> _].
  rewrite skipn_all2; [reflexivity|].
  rewrite length_skipn. lia.
Qed.

Lemma tras_avances_agotado it' n :
  next it' = (None, it') -> tras_avances n it' = it'.
Proof.
  intros H; induction n as [|n IH]; simpl; [reflexivity|].
  rewrite H; simpl. exact IH.
Qed.

(** The test of [__next__], [self.filtro is None or self.filtro(tarea)],
    by cases on the filter: it holds when there is no filter or the filter
    accepts the element, and fails only when there is a filter that
    rejects it. *)
Lemma pasa_filtro_true f (x : A) :
  pasa_filtro f x = true <-> (forall p, f = Some p -> p x = true).
Proof.
  destruct f as [q|]; cbn [pasa_filtro]; split.
  - intros H p E. injection E as <-. exact H.
  - intros H. apply H. reflexivity.
  - intros _ p E. discriminate E.
  - reflexivity.
Qed.

Lemma pasa_filtro_false f (x : A) :
  pasa_filtro f x = false <-> (exists p, f = Some p /\ p x = false).
Proof.
  destruct f as [q|]; cbn [pasa_filtro]; split.
  - intros H. exists q. split; [reflexivity|exact H].
  - intros (p & E & H). injection E as <-. exact H.
  - discriminate.
  - intros (p & E & _). discriminate E.
Qed.

(** C9.  [IteradorTareas] is single-pass and forward-only.  An advance that
    yields an element yields the first element at or after the current
    position that the filter accepts, where every element counts as
    accepted when there is no filter, and moves the position just past
    it: the elements passed over are elements that the filter, which then
    exists, rejects.  Without a filter an advance yields the element at
    the current position, whatever it is.  An advance signals
    [StopIteration] only when every element from the current position on
    is rejected by the filter, and it does yield when some element from
    the current position on is accepted.  The position never decreases,
    and the source and the filter are left as they were; once an advance
    has signalled [StopIteration], every later advance of the same
    iterator signals it too.  The source is the list the iterator holds,
    which [__next__] only reads. *)
Theorem C9_iterador_una_pasada it :
  (forall x it', next it = (Some x, it') ->
     exists j, indice it <= j /\
       nth_error (tareas it) j = Some x /\
       (forall p, filtro it = Some p -> p x = true) /\
       (forall k y, indice it <= k < j -> nth_error (tareas it) k = Some y ->
                    exists p, filtro it = Some p /\ p y = false) /\
       indice it' = S j) /\
  (filtro it = None ->
   forall x, nth_error (tareas it) (indice it) = Some x ->
     next it = (Some x, {| tareas := tareas it; filtro := None;
                           indice := S (indice it) |})) /\
  (forall it', next it = (None, it') ->
     forall k y, indice it <= k -> nth_error (tareas it) k = Some y ->
                 exists p, filtro it = Some p /\ p y = false) /\
  (forall k y, indice it <= k -> nth_error (tareas it) k = Some y ->
     (forall p, filtro it = Some p -> p y = true) ->
     exists x, fst (next it) = Some x) /\
  indice it <= indice (snd (next it)) /\
  tareas (snd (next it)) = tareas it /\
  filtro (snd (next it)) = filtro it /\
  (fst (next it) = None ->
     forall n, fst (next (tras_avances n (snd (next it)))) = None).
Proof.
  assert (Hnth : forall k, indice it <= k ->
            nth_error (tareas it) k =
            nth_error (skipn (indice it) (tareas it)) (k - indice it)).
  { intros k Hk. rewrite nth_error_skipn. f_equal; lia. }
  assert (Hnone : forall it', next it = (None, it') ->
            forall k y, indice it <= k -> nth_error (tareas it) k = Some y ->
                        pasa_filtro (filtro it) y = false).
  { intros it' H k y Hk Hy. unfold next in H.
    destruct (bucle_next _ _ _) as [r j] eqn:E.
    injection H as -> <-.
    destruct (bucle_next_none _ _ _ E) as [_ Hall].
    apply Hall. rewrite Hnth in Hy by lia. eapply nth_error_In; eauto. }
  split; [|split; [|split; [|split; [|split; [|split; [|split]]]]]].
  - intros x it' H. unfold next in H.
    destruct (bucle_next _ _ _) as [r j] eqn:E.
    injection H as -> <-.
    destruct (bucle_next_some _ _ _ E) as (k & Hk & Hp & Hbefore & ->).
    exists (indice it + k). cbn [indice].
    split; [lia|]. split; [|split; [apply pasa_filtro_true; exact Hp|split; [|lia]]].
    + rewrite Hnth by lia. rewrite <- Hk. f_equal; lia.
    + intros m y Hm Hy. rewrite Hnth in Hy by lia. apply pasa_filtro_false.
      apply (Hbefore (m - indice it) y); [lia|exact Hy].
  - intros Hf x Hx. rewrite next_un_paso, Hx, Hf. reflexivity.
  - intros it' H k y Hk Hy. apply pasa_filtro_false. exact (Hnone it' H k y Hk Hy).
  - intros k y Hk Hy Hp. destruct (next it) as [[x|] it'] eqn:E.
    + exists x. reflexivity.
    + apply pasa_filtro_true in Hp.
      rewrite (Hnone it' eq_refl k y Hk Hy) in Hp. discriminate Hp.
  - unfold next. destruct (bucle_next _ _ _) as [[x|] j] eqn:E; cbn [snd indice].
    + destruct (bucle_next_some _ _ _ E) as (k & _ & _ & _ & ->). lia.
    + destruct (bucle_next_none _ _ _ E) as [-> _]. lia.
  - apply next_conserva.
  - apply next_conserva.
  - intros H n. destruct (next it) as [r it'] eqn:E. simpl in *. subst r.
    apply next_agotado_es_fijo in E.
    rewrite (tras_avances_agotado n E), E. reflexivity.
Qed.

(** C8.  Filtering a list with [filtro_compuesto(a, b)] keeps exactly the
    items that pass both filters: an item is in the result if and only if
    it is in the list filtered by [a] alone and in the list filtered by
    [b] alone, and the result is the [a]-filtered list, in its original
    order, restricted by [b] (equally, the [b]-filtered list restricted by
    [a]). *)
Theorem C8_filtro_compuesto_interseccion (a b : A -> bool) (l : list A) :
  (forall x, In x (filter (filtro_compuesto [a; b]) l) <->
             In x (filter a l) /\ In x (filter b l)) /\
  filter (filtro_compuesto [a; b]) l = filter (fun x => a x && b x) l /\
  filter (filtro_compuesto [a; b]) l = filter b (filter a l) /\
  filter (filtro_compuesto [a; b]) l = filter a (filter b l).
Proof.
  assert (E : forall x, filtro_compuesto [a; b] x = a x && b x).
  { intros x; unfold filtro_compuesto; simpl. rewrite andb_true_r. reflexivity. }
  split; [|split; [|split]].
  - intros x. rewrite !filter_In, E, andb_true_iff. tauto.
  - apply filter_ext; exact E.
  - induction l as [|x r IH]; cbn [filter]; [reflexivity|].
    rewrite E. destruct (a x); cbn [filter andb]; [destruct (b x)|];
      rewrite IH; reflexivity.
  - induction l as [|x r IH]; cbn [filter]; [reflexivity|].
    rewrite E. destruct (b x); cbn [filter]; [destruct (a x)|rewrite andb_false_r];
      cbn [andb]; rewrite IH; reflexivity.
Qed.

(** C10.  [filtro_compuesto()] with no filters accepts every item, so
    filtering any list with it returns the list unchanged. *)
Theorem C10_filtro_compuesto_vacio (l : list A) :
  (forall item : A, filtro_compuesto [] item = true) /\
  filter (filtro_compuesto []) l = l.
Proof.
  split; [reflexivity|].
  induction l as [|x r IH]; simpl; [reflexivity|]. f_equal. exact IH.
Qed.

End PropiedadesIterador.

Section PropiedadesLotes.
Import Generadores.
Local Open Scope list_scope.
Variable A : Type.
Variable estado_valor : A -> option string.

Lemma nth_error_seq0 (m k : nat) :
  nth_error (seq 0 m) k = if k <? m then Some k else None.
Proof.
  destruct (Nat.ltb_spec k m) as [H|H].
  - rewrite (nth_error_nth' _ 0) by (rewrite length_seq; exact H).
    rewrite seq_nth by exact H. reflexivity.
  - apply nth_error_None. rewrite length_seq. exact H.
Qed.

(** The number of windows covers the list and no window is empty. *)
Lemma cuenta_de_lotes (n w : nat) :
  1 <= w ->
  let m := (n + w - 1) / w in
  n <= m * w /\ (1 <= m -> (m - 1) * w < n).
Proof.
  intros Hw m.
  pose proof (Nat.div_mod_eq (n + w - 1) w) as E.
  pose proof (Nat.mod_upper_bound (n + w - 1) w ltac:(lia)) as R.
  fold m in E. split; [nia|]. intros Hm.
  destruct m as [|m']; [lia|]. simpl. rewrite Nat.sub_0_r. nia.
Qed.

Lemma nth_error_lotes (ts : list A) (w k : nat) (lote : list A) :
  nth_error (lotes ts w) k = Some lote ->
  k < (length ts + w - 1) / w /\ lote = rebanada ts (k * w) w.
Proof.
  unfold lotes, range. rewrite map_map, nth_error_map, nth_error_seq0.
  destruct (Nat.ltb_spec k ((length ts + w - 1) / w)) as [H|H]; simpl;
    [|discriminate].
  intros E; injection E as <-. split; [exact H|reflexivity].
Qed.

Lemma concat_rebanadas (w : nat) :
  forall (m : nat) (ts : list A),
    length ts <= m * w ->
    concat (map (fun k => rebanada ts (k * w) w) (seq 0 m)) = ts.
Proof.
  induction m as [|m IH]; intros ts H.
  - destruct ts; [reflexivity|simpl in H; lia].
  - rewrite <- cons_seq, <- seq_shift. cbn [map concat]. rewrite map_map.
    unfold rebanada at 1. cbn [Nat.mul skipn].
    transitivity (firstn w ts ++ skipn w ts); [|apply firstn_skipn]. f_equal.
    rewrite <- (IH (skipn w ts)) by (rewrite length_skipn; simpl in H; lia).
    f_equal. apply map_ext. intros k. unfold rebanada.
    rewrite skipn_skipn. do 2 f_equal. lia.
Qed.

Lemma length_rebanada (ts : list A) (i w : nat) :
  length (rebanada ts i w) = Nat.min w (length ts - i).
Proof. unfold rebanada. rewrite length_firstn, length_skipn. reflexivity. Qed.

(** C7.  For a window size [w >= 1] the generator, consumed to the end,
    yields one dictionary per window of the partition of the input into
    consecutive windows of [w] items (the last one possibly shorter, never
    empty): the windows concatenate to the input; the k-th dictionary
    carries the number [k + 1], the size of the k-th window and, for each
    of the three states, the number of tasks of that window in that state;
    its percentage is a [float], the quotient of the number of completed
    tasks of that window by the size of that window, times 100, each
    operation rounded as floating-point arithmetic rounds it, so it is
    computed from the counts of that window alone; the sizes add up to the
    length of the input; and 25 items with [w = 10] give the sizes 10, 10,
    5. *)
Theorem C7_estadisticas_por_lote (ts : list A) (w : Z) :
  (1 <= w)%Z ->
  exists dicts,
    generador_estadisticas_por_lote estado_valor ts w = Retorna dicts /\
    concat (lotes ts (Z.to_nat w)) = ts /\
    length dicts = length (lotes ts (Z.to_nat w)) /\
    (forall k lote, nth_error (lotes ts (Z.to_nat w)) k = Some lote ->
       lote = firstn (Z.to_nat w) (skipn (k * Z.to_nat w) ts) /\
       1 <= length lote <= Z.to_nat w /\
       (S k < length (lotes ts (Z.to_nat w)) -> length lote = Z.to_nat w) /\
       exists d, nth_error dicts k = Some d /\
         lote_numero d = k + 1 /\
         total_tareas d = length lote /\
         pendientes d
         = length (filter (fun t => match estado_valor t with
                                    | Some v => String.eqb v "pendiente"
                                    | None => false
                                    end) lote) /\
         en_progreso d
         = length (filter (fun t => match estado_valor t with
                                    | Some v => String.eqb v "en_progreso"
                                    | None => false
                                    end) lote) /\
         completadas d
         = length (filter (fun t => match estado_valor t with
                                    | Some v => String.eqb v "completada"
                                    | None => false
                                    end) lote) /\
         porcentaje_completadas d
         = Flotante
             (PrimFloat.mul
                (PrimFloat.div
                   (PrimFloat.of_uint63 (Uint63.of_Z (Z.of_nat (completadas d))))
                   (PrimFloat.of_uint63 (Uint63.of_Z (Z.of_nat (length lote)))))
                (PrimFloat.of_uint63 (Uint63.of_Z 100)))) /\
    list_sum (map total_tareas dicts) = length ts /\
    (length ts = 25 -> w = 10%Z -> map total_tareas dicts = [10; 10; 5]).
Proof.
  intros Hw. unfold generador_estadisticas_por_lote.
  destruct (Z.eqb_spec w 0) as [|_]; [lia|].
  destruct (Z.ltb_spec w 0) as [|_]; [lia|].
  set (n := Z.to_nat w). assert (Hn : 1 <= n) by (unfold n; lia).
  eexists; split; [reflexivity|].
  destruct (cuenta_de_lotes (length ts) Hn) as [Hcubre Hultimo].
  assert (Hconcat : concat (lotes ts n) = ts).
  { unfold lotes, range. rewrite map_map. apply concat_rebanadas. exact Hcubre. }
  assert (Hlen : length (lotes ts n) = (length ts + n - 1) / n).
  { unfold lotes, range. rewrite !length_map, length_seq. reflexivity. }
  split; [exact Hconcat|]. split.
  { unfold lotes. rewrite !length_map. reflexivity. }
  split; [|split].
  - intros k lote Hk. destruct (nth_error_lotes _ _ _ Hk) as [Hkm ->].
    split; [reflexivity|].
    pose proof (length_rebanada ts (k * n) n) as Hl. rewrite Hlen.
    assert (Hpos : 1 <= length (rebanada ts (k * n) n)) by nia.
    split; [nia|]. split; [nia|].
    exists (estadisticas_en estado_valor ts n (k * n)). split.
    + unfold range. rewrite map_map, nth_error_map, nth_error_seq0.
      apply Nat.ltb_lt in Hkm. rewrite Hkm. reflexivity.
    + unfold estadisticas_en.
      cbn [lote_numero total_tareas pendientes en_progreso completadas
           porcentaje_completadas].
      rewrite Nat.div_mul by lia.
      split; [reflexivity|]. split; [reflexivity|].
      split; [reflexivity|]. split; [reflexivity|]. split; [reflexivity|].
      unfold porcentaje.
      destruct (Nat.ltb_spec 0 (length (rebanada ts (k * n) n))) as [_|H0];
        [reflexivity|lia].
  - transitivity (length (concat (lotes ts n))); [|rewrite Hconcat; reflexivity].
    rewrite length_concat. f_equal.
    unfold lotes. rewrite !map_map. apply map_ext. intros i. reflexivity.
  - intros H25 Hw10. subst w. unfold range. rewrite H25. unfold n.
    cbn [map seq]. change (Z.to_nat 10) with 10.
    change ((25 + 10 - 1) / 10) with 3. cbn [seq map].
    unfold estadisticas_en; cbn [total_tareas].
    rewrite !length_rebanada, H25. reflexivity.
Qed.

(** The empty input yields nothing, whatever the positive window size. *)
Lemma generador_estadisticas_vacio (w : Z) :
  (1 <= w)%Z -> generador_estadisticas_por_lote estado_valor [] w = Retorna [].
Proof.
  intros Hw. unfold generador_estadisticas_por_lote.
  destruct (Z.eqb_spec w 0) as [|_]; [lia|].
  destruct (Z.ltb_spec w 0) as [|_]; [lia|].
  unfold range. cbn [length]. rewrite Nat.add_0_l.
  rewrite Nat.div_small by lia. reflexivity.
Qed.

End PropiedadesLotes.

Section EjemplosGeneradores.
Import Generadores.
Local Open Scope list_scope.

Lemma C7_testigo :
  exists dicts,
    generador_estadisticas_por_lote estado_por_numero veinticinco_tareas 10
      = Retorna dicts /\
    map total_tareas dicts = [10; 10; 5] /\
    list_sum (map total_tareas dicts) = 25 /\
    map porcentaje_completadas dicts
    = [Flotante (a_float 40); Flotante (a_float 30); Flotante (a_float 40)].
Proof.
  destruct (@C7_estadisticas_por_lote nat estado_por_numero veinticinco_tareas 10
              ltac:(vm_compute; intros H; discriminate H))
    as (dicts & H1 & _ & _ & _ & H2 & H3).
  exists dicts. split; [exact H1|]. split; [apply H3; reflexivity|].
  split; [exact H2|].
  vm_compute in H1. injection H1 as <-. vm_compute. reflexivity.
Defined.

Example lotes_de_25 :
  generador_estadisticas_por_lote estado_por_numero veinticinco_tareas 10
  = Retorna
      [ {| lote_numero := 1; rango_indices := (0, 9); total_tareas := 10;
           pendientes := 6; en_progreso := 0; completadas := 4;
           porcentaje_completadas := porcentaje 4 10 |};
        {| lote_numero := 2; rango_indices := (10, 19); total_tareas := 10;
           pendientes := 7; en_progreso := 0; completadas := 3;
           porcentaje_completadas := porcentaje 3 10 |};
        {| lote_numero := 3; rango_indices := (20, 24); total_tareas := 5;
           pendientes := 3; en_progreso := 0; completadas := 2;
           porcentaje_completadas := porcentaje 2 5 |} ].
Proof. reflexivity. Qed.

Example porcentaje_del_ultimo_lote : porcentaje 2 5 = Flotante (a_float 40).
Proof. reflexivity. Qed.

(** 7 completed tasks of 25: the two roundings leave
    28.000000000000004, the [float] next above 28. *)
Example porcentaje_7_de_25 :
  porcentaje 7 25 = Flotante (PrimFloat.next_up (a_float 28)) /\
  porcentaje 7 25 <> Flotante (a_float 28).
Proof.
  split; [reflexivity|]. intros H. vm_compute in H. discriminate H.
Qed.

(** No completed task gives 0.0 and all completed gives 100.0, floats;
    only the empty batch, which the generator never yields, gives the
    [int] 0. *)
Example porcentaje_extremos :
  porcentaje 0 5 = Flotante (a_float 0) /\
  porcentaje 5 5 = Flotante (a_float 100) /\
  porcentaje 0 0 = Entero 0.
Proof. repeat split; reflexivity. Qed.

Example paso_cero_lanza :
  generador_estadisticas_por_lote estado_por_numero veinticinco_tareas 0
  = Lanza ValueError.
Proof. reflexivity. Qed.

Example iterador_con_filtro :
  let it := nuevo_iterador [1; 2; 3; 4] (Some Nat.even) in
  fst (next it) = Some 2 /\
  fst (next (tras_avances 1 it)) = Some 4 /\
  fst (next (tras_avances 2 it)) = None /\
  fst (next (tras_avances 3 it)) = None /\
  indice (tras_avances 3 it) = 4.
Proof. repeat split; reflexivity. Qed.

Example filtro_compuesto_ejemplo :
  filter (filtro_compuesto [Nat.even; fun n => 2 <? n]) [1; 2; 3; 4; 5; 6] = [4; 6].
Proof. reflexivity. Qed.

End EjemplosGeneradores.

(* ================================================================== *)
(** * Properties of the persistence layer *)

Section PropiedadesPersistencia.
Import Persistencia.
Local Open Scope list_scope.

Example prueba_strftime : strftime_marca ahora_ejemplo = "20250115_103045"%string.
Proof. reflexivity. Qed.

Example prueba_ordinal : ordinal ahora_ejemplo = 739266%Z.
Proof. reflexivity. Qed.

(** ** Directories as association lists *)

Lemma carpeta_de_con_carpeta_eq fs z c :
  carpeta_de (con_carpeta fs z c) z = Some c.
Proof. destruct z; reflexivity. Qed.

Lemma carpeta_de_con_carpeta_neq fs z z' c :
  z <> z' -> carpeta_de (con_carpeta fs z c) z' = carpeta_de fs z'.
Proof. destruct z, z'; intros H; try reflexivity; congruence. Qed.

Lemma con_carpeta_con_carpeta fs z c c' :
  con_carpeta (con_carpeta fs z c) z c' = con_carpeta fs z c'.
Proof. destruct z; reflexivity. Qed.

Lemma con_carpeta_misma fs z c :
  carpeta_de fs z = Some c -> con_carpeta fs z c = fs.
Proof. destruct fs, z; simpl; intros ->; reflexivity. Qed.

Lemma buscar_segun_carpeta fs fs' r :
  carpeta_de fs' (fst r) = carpeta_de fs (fst r) -> buscar fs' r = buscar fs r.
Proof. unfold buscar, entradas_de. intros ->. reflexivity. Qed.

Lemma buscar_entrada_poner_eq n e l :
  buscar_entrada n (poner_entrada n e l) = Some e.
Proof.
  induction l as [|[m x] r IH]; simpl.
  - rewrite String.eqb_refl. reflexivity.
  - destruct (String.eqb m n) eqn:E; simpl; rewrite E; auto.
Qed.

Lemma buscar_entrada_poner_neq n m e l :
  m <> n -> buscar_entrada m (poner_entrada n e l) = buscar_entrada m l.
Proof.
  intros H. induction l as [|[k x] r IH]; simpl.
  - destruct (String.eqb_spec n m); [congruence|reflexivity].
  - destruct (String.eqb_spec k n) as [->|Hk]; simpl.
    + destruct (String.eqb_spec n m); [congruence|reflexivity].
    + rewrite IH. reflexivity.
Qed.

Lemma buscar_entrada_app_fuera n k l :
  ~ In n (map fst k) -> buscar_entrada n (k ++ l) = buscar_entrada n l.
Proof.
  induction k as [|[m x] r IH]; simpl; intros H; [reflexivity|].
  destruct (String.eqb_spec m n); [tauto|]. apply IH. tauto.
Qed.

Lemma quitar_entrada_app_fuera n k l :
  ~ In n (map fst k) -> quitar_entrada n (k ++ l) = k ++ quitar_entrada n l.
Proof.
  induction k as [|[m x] r IH]; simpl; intros H; [reflexivity|].
  destruct (String.eqb_spec m n); [tauto|]. f_equal. apply IH. tauto.
Qed.

(** ** Writing a file *)

Lemma escribir_archivo_falla ahora r texto fs :
  escribible fs r = false ->
  exists e, es_IOError e = true /\
            escribir_archivo ahora r texto fs = (Lanza e, fs).
Proof.
  unfold escribible, escribir_archivo, sobre_entrada.
  destruct (carpeta_de fs (fst r)) as [c|]; [|eexists; split; [|reflexivity]; reflexivity].
  destruct (permisos_al_escribir fs r) as [[l m] d].
  destruct (buscar_entrada (snd r) (entradas c)) as [[a|t]|].
  - intros ->. eexists; split; [|reflexivity]; reflexivity.
  - intros _. eexists; split; [|reflexivity]; reflexivity.
  - intros ->. eexists; split; [|reflexivity]; reflexivity.
Qed.

Lemma escribir_archivo_ok ahora r texto fs :
  escribible fs r = true ->
  exists fs',
    escribir_archivo ahora r texto fs = (Retorna tt, fs') /\
    buscar fs' r = Some (Archivo (archivo_escrito ahora fs r texto)) /\
    (forall n, n <> snd r -> buscar fs' (fst r, n) = buscar fs (fst r, n)) /\
    (forall z, z <> fst r -> carpeta_de fs' z = carpeta_de fs z).
Proof.
  unfold escribible, escribir_archivo, sobre_entrada, archivo_escrito.
  destruct (carpeta_de fs (fst r)) as [c|] eqn:Ec; [|discriminate].
  destruct (permisos_al_escribir fs r) as [[l m] d].
  intros H.
  set (a := {| contenido := texto; mtime := instante ahora; legible := l;
               modificable := m; eliminable := d |}).
  exists (con_carpeta fs (fst r)
            {| entradas := poner_entrada (snd r) (Archivo a) (entradas c);
               acepta_nuevos := acepta_nuevos c |}).
  split; [|split; [|split]].
  - destruct (buscar_entrada (snd r) (entradas c)) as [[v|t]|];
      try discriminate; rewrite H; reflexivity.
  - unfold buscar, entradas_de. rewrite carpeta_de_con_carpeta_eq. simpl.
    apply buscar_entrada_poner_eq.
  - intros n Hn. unfold buscar, entradas_de. simpl fst.
    rewrite carpeta_de_con_carpeta_eq, Ec. simpl.
    apply buscar_entrada_poner_neq. exact Hn.
  - intros z Hz. apply carpeta_de_con_carpeta_neq. congruence.
Qed.

Lemma escribible_segun_carpeta fs fs' r :
  carpeta_de fs' (fst r) = carpeta_de fs (fst r) ->
  escribible fs' r = escribible fs r.
Proof. unfold escribible. intros ->. reflexivity. Qed.

Lemma archivo_escrito_segun_carpeta ahora fs fs' r texto :
  carpeta_de fs' (fst r) = carpeta_de fs (fst r) ->
  archivo_escrito ahora fs' r texto = archivo_escrito ahora fs r texto.
Proof.
  intros H. unfold archivo_escrito, permisos_al_escribir.
  rewrite (buscar_segun_carpeta _ _ _ H). reflexivity.
Qed.

(** ** The best-effort backup *)

(** The backup step never raises, touches nothing but the name it writes
    in the directory of the backups, and what it leaves there, if it
    changes anything, is the file it was asked to copy. *)
Lemma respaldo_spec r dst fs :
  exists fs',
    respaldo r dst fs = (Retorna tt, fs') /\
    (forall z, z <> fst dst -> carpeta_de fs' z = carpeta_de fs z) /\
    (forall n, n <> snd dst -> buscar fs' (fst dst, n) = buscar fs (fst dst, n)) /\
    (buscar fs' dst = buscar fs dst \/
     exists a, buscar fs r = Some (Archivo a) /\ buscar fs' dst = Some (Archivo a)) /\
    (forall a, buscar fs r = Some (Archivo a) -> legible a = true ->
               escribible fs dst = true -> buscar fs' dst = Some (Archivo a)).
Proof.
  unfold respaldo, capturar, shutil_copy2, escribible.
  destruct (buscar fs r) as [[a|t]|] eqn:Er;
    try (exists fs; simpl; repeat split; auto; discriminate).
  destruct (legible a) eqn:El; simpl;
    [|exists fs; repeat split; auto; intros a' Ha; injection Ha as <-; congruence].
  destruct (carpeta_de fs (fst dst)) as [c|] eqn:Ec;
    [|exists fs; simpl; repeat split; auto; discriminate].
  unfold sobre_entrada.
  destruct (buscar_entrada (snd dst) (entradas c)) as [[v|t]|] eqn:Ed.
  - destruct (modificable v) eqn:Em;
      [|exists fs; simpl; repeat split; auto; discriminate].
    eexists; split; [reflexivity|]. split; [|split; [|split]].
    + intros z Hz. apply carpeta_de_con_carpeta_neq. congruence.
    + intros n Hn. unfold buscar, entradas_de. simpl fst.
      rewrite carpeta_de_con_carpeta_eq, Ec. simpl.
      apply buscar_entrada_poner_neq. exact Hn.
    + right. exists a. split; [reflexivity|].
      unfold buscar, entradas_de. rewrite carpeta_de_con_carpeta_eq. simpl.
      apply buscar_entrada_poner_eq.
    + intros a' Ha _ _. injection Ha as <-.
      unfold buscar, entradas_de. rewrite carpeta_de_con_carpeta_eq. simpl.
      apply buscar_entrada_poner_eq.
  - exists fs; simpl; repeat split; auto; discriminate.
  - destruct (acepta_nuevos c) eqn:Em;
      [|exists fs; simpl; repeat split; auto; discriminate].
    eexists; split; [reflexivity|]. split; [|split; [|split]].
    + intros z Hz. apply carpeta_de_con_carpeta_neq. congruence.
    + intros n Hn. unfold buscar, entradas_de. simpl fst.
      rewrite carpeta_de_con_carpeta_eq, Ec. simpl.
      apply buscar_entrada_poner_neq. exact Hn.
    + right. exists a. split; [reflexivity|].
      unfold buscar, entradas_de. rewrite carpeta_de_con_carpeta_eq. simpl.
      apply buscar_entrada_poner_eq.
    + intros a' Ha _ _. injection Ha as <-.
      unfold buscar, entradas_de. rewrite carpeta_de_con_carpeta_eq. simpl.
      apply buscar_entrada_poner_eq.
Qed.

Lemma tras_respaldo_spec r dst cb fs :
  (forall z, z <> fst dst ->
     carpeta_de (tras_respaldo r dst cb fs) z = carpeta_de fs z) /\
  (forall n, n <> snd dst ->
     buscar (tras_respaldo r dst cb fs) (fst dst, n) = buscar fs (fst dst, n)) /\
  (buscar (tras_respaldo r dst cb fs) dst = buscar fs dst \/
   cb = true /\
   exists a, buscar fs r = Some (Archivo a) /\
             buscar (tras_respaldo r dst cb fs) dst = Some (Archivo a)) /\
  (cb = true ->
   forall a, buscar fs r = Some (Archivo a) -> legible a = true ->
             escribible fs dst = true ->
             buscar (tras_respaldo r dst cb fs) dst = Some (Archivo a)).
Proof.
  unfold tras_respaldo.
  destruct (respaldo_spec r dst fs) as (fs' & E & H1 & H2 & H3 & H4).
  destruct cb; simpl.
  - unfold os_path_exists. destruct (buscar fs r) as [e|] eqn:Er.
    + rewrite E. simpl. repeat split; auto.
      destruct H3 as [H3|H3]; [left; exact H3|right; split; [reflexivity|exact H3]].
    + repeat split; auto. discriminate.
  - repeat split; auto. discriminate.
Qed.

(** The [try] body of a save, read off the state after its backup step. *)
Lemma intento_guardar_eq ahora r dst cb salida fs :
  intento_guardar ahora r dst cb salida fs =
  match escribir_archivo ahora r (fst salida) (tras_respaldo r dst cb fs) with
  | (Retorna _, fs2) =>
      (match snd salida with Some e => Lanza e | None => Retorna true end, fs2)
  | (Lanza e, fs1) => (Lanza e, fs1)
  end.
Proof.
  unfold intento_guardar, tras_respaldo, bind, leer, volcar, bind.
  destruct (respaldo_spec r dst fs) as (fs' & E & _).
  destruct (cb && os_path_exists fs r).
  - rewrite E. simpl.
    destruct (escribir_archivo ahora r (fst salida) fs') as [[[]|e] fs2];
      [|reflexivity].
    destruct (snd salida); reflexivity.
  - simpl.
    destruct (escribir_archivo ahora r (fst salida) fs) as [[[]|e] fs2];
      [|reflexivity].
    destruct (snd salida); reflexivity.
Qed.

Lemma contenido_archivo_escrito ahora fs r texto :
  contenido (archivo_escrito ahora fs r texto) = texto /\
  mtime (archivo_escrito ahora fs r texto) = instante ahora.
Proof.
  unfold archivo_escrito. destruct (permisos_al_escribir fs r) as [[l m] d].
  split; reflexivity.
Qed.

(** What the [try] body of a save does, by whether the file can be opened
    for writing: if not, an [IOError] and nothing written; if so, the
    output of the dump is in the file, whether the dump ended well or
    not. *)
Lemma intento_guardar_spec ahora r dst cb salida fs :
  fst r <> fst dst ->
  (escribible fs r = false ->
   exists e, es_IOError e = true /\
     intento_guardar ahora r dst cb salida fs =
     (Lanza e, tras_respaldo r dst cb fs)) /\
  (escribible fs r = true ->
   exists fs2,
     intento_guardar ahora r dst cb salida fs =
     (match snd salida with Some e => Lanza e | None => Retorna true end, fs2) /\
     buscar fs2 r = Some (Archivo (archivo_escrito ahora fs r (fst salida))) /\
     (forall n, n <> snd r -> buscar fs2 (fst r, n) = buscar fs (fst r, n)) /\
     (forall z, z <> fst r ->
        carpeta_de fs2 z = carpeta_de (tras_respaldo r dst cb fs) z)).
Proof.
  intros Hz. rewrite intento_guardar_eq.
  destruct (tras_respaldo_spec r dst cb fs) as (Hf & _).
  assert (Hc : carpeta_de (tras_respaldo r dst cb fs) (fst r) = carpeta_de fs (fst r))
    by (apply Hf; exact Hz).
  split; intros He; rewrite <- (escribible_segun_carpeta _ _ _ Hc) in He.
  - destruct (escribir_archivo_falla ahora r (fst salida) _ He) as (e & Hio & ->).
    exists e. split; [exact Hio|reflexivity].
  - destruct (escribir_archivo_ok ahora r (fst salida) _ He)
      as (fs2 & -> & H1 & H2 & H3).
    exists fs2. split; [reflexivity|]. split; [|split].
    + rewrite H1, (archivo_escrito_segun_carpeta _ _ _ _ _ Hc). reflexivity.
    + intros n Hn. rewrite H2 by exact Hn.
      apply buscar_segun_carpeta. exact Hc.
    + exact H3.
Qed.

Lemma json_guardar_datos_eq B ahora nombre datos cb :
  json_guardar_datos B ahora nombre datos cb =
  capturar
    (intento_guardar ahora (obtener_ruta_json nombre)
       (obtener_ruta_backup ahora (nombre ++ ".json")%string) cb
       (json_dump B (_preparar_datos_para_json datos)))
    (fun e =>
       if es_TypeError_o_ValueError e then Some (lanzar ValueError)
       else if es_IOError e then Some (lanzar OSError)
       else None).
Proof. reflexivity. Qed.

Lemma binario_guardar_datos_eq B ahora nombre datos protocolo cb :
  binario_guardar_datos B ahora nombre datos protocolo cb =
  capturar
    (intento_guardar ahora (obtener_ruta_binario nombre)
       (obtener_ruta_backup ahora (nombre ++ ".pkl")%string) cb
       (pickle_dump B protocolo datos))
    (fun e =>
       match e with
       | PicklingError => Some (ret false)
       | _ => if es_IOError e then Some (ret false) else None
       end).
Proof. reflexivity. Qed.

Lemma json_no_es_backups nombre ahora nb :
  fst (obtener_ruta_json nombre) <> fst (obtener_ruta_backup ahora nb).
Proof. discriminate. Qed.

Lemma binario_no_es_backups nombre ahora nb :
  fst (obtener_ruta_binario nombre) <> fst (obtener_ruta_backup ahora nb).
Proof. discriminate. Qed.

(** ** Loading *)

(** C1 (as amended).  For either format, loading a collection whose file
    is missing never raises and returns [None]; a load whose stored bytes
    the decoder rejects with its decode error ([json.JSONDecodeError],
    [pickle.UnpicklingError]) returns [None] as well, the very same value;
    and the facade routes the two collections to these loads. *)
Theorem C1_carga_ausente_o_corrupta (B : codecs) (nombre : string) (fs : sistema) :
  (buscar fs (obtener_ruta_json nombre) = None ->
     json_cargar_datos B nombre fs = Retorna VNone) /\
  (forall bytes,
     leer_archivo fs (obtener_ruta_json nombre) = Retorna bytes ->
     json_load B bytes = Lanza JSONDecodeError ->
     json_cargar_datos B nombre fs = Retorna VNone) /\
  (buscar fs (obtener_ruta_binario nombre) = None ->
     binario_cargar_datos B nombre fs = Retorna VNone) /\
  (forall bytes,
     leer_archivo fs (obtener_ruta_binario nombre) = Retorna bytes ->
     pickle_load B bytes = Lanza UnpicklingError ->
     binario_cargar_datos B nombre fs = Retorna VNone) /\
  cargar_usuarios B "json" fs = json_cargar_datos B "usuarios" fs /\
  cargar_usuarios B "binario" fs = binario_cargar_datos B "usuarios" fs /\
  cargar_tareas B "json" fs = json_cargar_datos B "tareas" fs /\
  cargar_tareas B "binario" fs = binario_cargar_datos B "tareas" fs.
Proof.
  unfold json_cargar_datos, binario_cargar_datos, leer_archivo.
  split; [|split; [|split; [|split]]].
  - intros ->. reflexivity.
  - intros bytes -> ->. reflexivity.
  - intros ->. reflexivity.
  - intros bytes -> ->. reflexivity.
  - repeat split; reflexivity.
Qed.

(** C1, counterexample. The claim as first stated fails: in each format the
    load of a missing users file and the load of a users file whose bytes do
    not parse return the same [None]. *)
Lemma C1_contraejemplo :
  buscar sistema_vacio (obtener_ruta_json "usuarios") = None /\
  buscar sistema_vacio (obtener_ruta_binario "usuarios") = None /\
  leer_archivo sistema_corrupto (obtener_ruta_json "usuarios") = Retorna "{"%string /\
  json_load codecs_ejemplo "{" = Lanza JSONDecodeError /\
  leer_archivo sistema_corrupto (obtener_ruta_binario "usuarios") = Retorna "x"%string /\
  pickle_load codecs_ejemplo "x" = Lanza UnpicklingError /\
  cargar_usuarios codecs_ejemplo "json" sistema_vacio = Retorna VNone /\
  cargar_usuarios codecs_ejemplo "json" sistema_corrupto = Retorna VNone /\
  cargar_usuarios codecs_ejemplo "binario" sistema_vacio = Retorna VNone /\
  cargar_usuarios codecs_ejemplo "binario" sistema_corrupto = Retorna VNone.
Proof. repeat split; reflexivity. Qed.

Lemma C1_testigo :
  cargar_usuarios codecs_ejemplo "json" sistema_vacio = Retorna VNone /\
  cargar_usuarios codecs_ejemplo "json" sistema_corrupto = Retorna VNone /\
  cargar_usuarios codecs_ejemplo "binario" sistema_vacio = Retorna VNone /\
  cargar_usuarios codecs_ejemplo "binario" sistema_corrupto = Retorna VNone.
Proof.
  pose proof (C1_carga_ausente_o_corrupta codecs_ejemplo "usuarios" sistema_vacio)
    as (J0 & _ & B0 & _ & Ej & Eb & _).
  pose proof (C1_carga_ausente_o_corrupta codecs_ejemplo "usuarios" sistema_corrupto)
    as (_ & J1 & _ & B1 & Ej' & Eb' & _).
  split; [|split; [|split]].
  - rewrite Ej. apply J0. reflexivity.
  - rewrite Ej'. apply (J1 "{"%string); reflexivity.
  - rewrite Eb. apply B0. reflexivity.
  - rewrite Eb'. apply (B1 "x"%string); reflexivity.
Defined.

(** ** Saving *)

(** C2 (as amended).  A JSON save of data that [json.dump] cannot
    represent raises [ValueError]; the error arises while the dump writes
    into the file, already opened and truncated, so the file then holds
    the output produced up to the error.  A binary save of data that
    [pickle.dump] refuses with [PicklingError] does not raise: it returns
    [False], and the file likewise holds what the dump had written. *)
Theorem C2_guardar_no_serializable (B : codecs) (ahora : fecha_hora)
    (nombre : string) (datos : valor) (crear_backup : bool) (fs : sistema) :
  (forall texto e,
     json_dump B (_preparar_datos_para_json datos) = (texto, Some e) ->
     es_TypeError_o_ValueError e = true ->
     escribible fs (obtener_ruta_json nombre) = true ->
     fst (json_guardar_datos B ahora nombre datos crear_backup fs) = Lanza ValueError /\
     exists a,
       buscar (snd (json_guardar_datos B ahora nombre datos crear_backup fs))
              (obtener_ruta_json nombre) = Some (Archivo a) /\
       contenido a = texto /\ mtime a = instante ahora) /\
  (forall protocolo texto,
     pickle_dump B protocolo datos = (texto, Some PicklingError) ->
     escribible fs (obtener_ruta_binario nombre) = true ->
     fst (binario_guardar_datos B ahora nombre datos protocolo crear_backup fs)
       = Retorna false /\
     exists a,
       buscar (snd (binario_guardar_datos B ahora nombre datos protocolo crear_backup fs))
              (obtener_ruta_binario nombre) = Some (Archivo a) /\
       contenido a = texto /\ mtime a = instante ahora).
Proof.
  split.
  - intros texto e Hd He Hw. rewrite json_guardar_datos_eq. unfold capturar.
    destruct (intento_guardar_spec ahora (obtener_ruta_json nombre)
                (obtener_ruta_backup ahora (nombre ++ ".json")%string) crear_backup
                (json_dump B (_preparar_datos_para_json datos)) fs
                (@json_no_es_backups _ _ _)) as [_ H].
    destruct (H Hw) as (fs2 & -> & Hb & _). rewrite Hd in *. simpl.
    rewrite He. simpl. split; [reflexivity|].
    eexists; split; [exact Hb|]. apply contenido_archivo_escrito.
  - intros protocolo texto Hd Hw. rewrite binario_guardar_datos_eq. unfold capturar.
    destruct (intento_guardar_spec ahora (obtener_ruta_binario nombre)
                (obtener_ruta_backup ahora (nombre ++ ".pkl")%string) crear_backup
                (pickle_dump B protocolo datos) fs
                (@binario_no_es_backups _ _ _)) as [_ H].
    destruct (H Hw) as (fs2 & -> & Hb & _). rewrite Hd in *. simpl.
    split; [reflexivity|].
    eexists; split; [exact Hb|]. apply contenido_archivo_escrito.
Qed.

(** C2, counterexample. The claim as first stated fails on both counts: the
    binary save of a list that holds a lambda returns [False] instead of
    raising, and the JSON save of [[{(1, 2): 3}]] raises only after the users
    file, which held ["[1]"], has been overwritten with the beginning of the
    output. *)
Lemma C2_contraejemplo :
  pickle_dump codecs_ejemplo 5 lista_con_lambda = (""%string, Some PicklingError) /\
  fst (guardar_usuarios codecs_ejemplo ahora_ejemplo lista_con_lambda "binario"
         sistema_con_datos) = Retorna false /\
  json_dump codecs_ejemplo (_preparar_datos_para_json lista_clave_tupla)
    = (("[" ++ salto ++ "  {" ++ salto ++ "    ")%string, Some TypeError) /\
  leer_archivo sistema_con_datos (obtener_ruta_json "usuarios") = Retorna "[1]"%string /\
  fst (guardar_usuarios codecs_ejemplo ahora_ejemplo lista_clave_tupla "json"
         sistema_con_datos) = Lanza ValueError /\
  leer_archivo
    (snd (guardar_usuarios codecs_ejemplo ahora_ejemplo lista_clave_tupla "json"
            sistema_con_datos))
    (obtener_ruta_json "usuarios")
    = Retorna ("[" ++ salto ++ "  {" ++ salto ++ "    ")%string.
Proof. repeat split; reflexivity. Qed.

Lemma C2_testigo :
  fst (json_guardar_datos codecs_ejemplo ahora_ejemplo "usuarios" lista_clave_tupla
         true sistema_con_datos) = Lanza ValueError /\
  fst (binario_guardar_datos codecs_ejemplo ahora_ejemplo "usuarios" lista_con_lambda 5
         true sistema_con_datos) = Retorna false.
Proof.
  pose proof (C2_guardar_no_serializable codecs_ejemplo ahora_ejemplo "usuarios"
                lista_clave_tupla true sistema_con_datos) as [J _].
  pose proof (C2_guardar_no_serializable codecs_ejemplo ahora_ejemplo "usuarios"
                lista_con_lambda true sistema_con_datos) as [_ P].
  split.
  - apply (J ("[" ++ salto ++ "  {" ++ salto ++ "    ")%string TypeError); reflexivity.
  - apply (P 5%Z ""%string); reflexivity.
Defined.

(** ** Pruning *)

Lemma NoDup_app_fuera (n : string) (k l : list (string * entrada)) (e : entrada) :
  NoDup (map fst (k ++ (n, e) :: l)) ->
  ~ In n (map fst k) /\ ~ In n (map fst l).
Proof.
  rewrite map_app. simpl. intros H. apply NoDup_remove_2 in H.
  rewrite in_app_iff in H. tauto.
Qed.

(** The loop over a prefix of the listing none of whose old entries resists
    removal: the old entries of the prefix are removed and counted, the
    others stay where they were. *)
Lemma bucle_limpieza_prefijo (limite : Z) (adm : bool) (fs0 : sistema)
    (resto : list (string * entrada)) (nombres : list string) :
  forall (pre kept : list (string * entrada)) (cuenta : nat),
    NoDup (map fst (kept ++ pre ++ resto)) ->
    (forall ne, In ne pre -> antigua limite ne = true ->
                se_puede_eliminar ne = true) ->
    bucle_limpieza limite (map fst pre ++ nombres) cuenta
      (con_carpeta fs0 ZBackups
         {| entradas := kept ++ pre ++ resto; acepta_nuevos := adm |}) =
    bucle_limpieza limite nombres
      (cuenta + length (filter (antigua limite) pre))
      (con_carpeta fs0 ZBackups
         {| entradas :=
              kept ++ filter (fun ne => negb (antigua limite ne)) pre ++ resto;
            acepta_nuevos := adm |}).
Proof.
  induction pre as [|[n e] p IH]; intros kept cuenta Hnd Hok.
  - simpl. rewrite Nat.add_0_r. reflexivity.
  - destruct (NoDup_app_fuera _ _ _ _ Hnd) as [Hk _].
    assert (Hb : buscar_entrada n (kept ++ (n, e) :: p ++ resto) = Some e).
    { rewrite buscar_entrada_app_fuera by exact Hk. simpl.
      rewrite String.eqb_refl. reflexivity. }
    cbn [map fst app bucle_limpieza].
    unfold bind at 1, leer at 1, obtener_info_archivo, os_stat, buscar, entradas_de.
    cbn [fst snd]. rewrite carpeta_de_con_carpeta_eq. cbn [entradas].
    rewrite Hb. cbn [existe fecha_modificacion andb].
    cbn [filter].
    change (mtime_de e <? limite)%Z with (antigua limite (n, e)).
    destruct (antigua limite (n, e)) eqn:Hold; cbn [negb].
    + assert (Hrm : se_puede_eliminar (n, e) = true).
      { apply Hok; [left; reflexivity|exact Hold]. }
      unfold se_puede_eliminar in Hrm. cbn [snd] in Hrm.
      destruct e as [a|t]; [|discriminate]. clear Hold.
      unfold bind at 1, os_remove at 1. cbn [fst snd].
      rewrite carpeta_de_con_carpeta_eq. cbn [entradas acepta_nuevos].
      rewrite Hb, Hrm, con_carpeta_con_carpeta.
      rewrite quitar_entrada_app_fuera by exact Hk. cbn [quitar_entrada].
      rewrite String.eqb_refl.
      rewrite IH.
      * cbn [length]. f_equal. lia.
      * rewrite map_app in *. simpl in Hnd. apply NoDup_remove_1 in Hnd.
        exact Hnd.
      * intros ne Hin. apply Hok. right; exact Hin.
    + replace (kept ++ (n, e) :: p ++ resto)
        with ((kept ++ [(n, e)]) ++ p ++ resto)
        by (rewrite <- app_assoc; reflexivity).
      rewrite IH.
      * rewrite <- app_assoc. reflexivity.
      * rewrite <- app_assoc. exact Hnd.
      * intros ne Hin. apply Hok. right; exact Hin.
Qed.

(** The loop stops with the exception of [os.remove] at an old entry that
    resists removal. *)
Lemma bucle_limpieza_falla (limite : Z) (adm : bool) (fs0 : sistema)
    (kept post : list (string * entrada)) (n : string) (e : entrada)
    (nombres : list string) (cuenta : nat) :
  NoDup (map fst (kept ++ (n, e) :: post)) ->
  antigua limite (n, e) = true ->
  se_puede_eliminar (n, e) = false ->
  exists ex, es_Exception ex = true /\
    bucle_limpieza limite (n :: nombres) cuenta
      (con_carpeta fs0 ZBackups
         {| entradas := kept ++ (n, e) :: post; acepta_nuevos := adm |}) =
    (Lanza ex,
     con_carpeta fs0 ZBackups
       {| entradas := kept ++ (n, e) :: post; acepta_nuevos := adm |}).
Proof.
  intros Hnd Hold Hrm.
  destruct (NoDup_app_fuera _ _ _ _ Hnd) as [Hk _].
  assert (Hb : buscar_entrada n (kept ++ (n, e) :: post) = Some e).
  { rewrite buscar_entrada_app_fuera by exact Hk. simpl.
    rewrite String.eqb_refl. reflexivity. }
  unfold antigua in Hold. unfold se_puede_eliminar in Hrm. cbn [snd] in *.
  cbn [bucle_limpieza].
  unfold bind at 1, leer at 1, obtener_info_archivo, os_stat, buscar, entradas_de.
  cbn [fst snd]. rewrite carpeta_de_con_carpeta_eq. cbn [entradas].
  rewrite Hb. cbn [existe fecha_modificacion andb]. rewrite Hold.
  unfold bind at 1, os_remove at 1. cbn [fst snd].
  rewrite carpeta_de_con_carpeta_eq. cbn [entradas acepta_nuevos]. rewrite Hb.
  destruct e as [a|t].
  - rewrite Hrm. exists PermissionError. split; reflexivity.
  - exists IsADirectoryError. split; reflexivity.
Qed.

(** C3 (as amended).  For a threshold within the range of [timedelta] and
    of [datetime], and a directory of backups that lists no name twice:
    if [os.remove] accepts every entry older than the threshold, pruning
    removes exactly the entries whose modification time is strictly before
    [now - days], keeps the others in place and returns the number
    removed; if some old entry resists removal, pruning stops at the first
    such entry: the old entries listed before it have been removed, and it
    and every entry listed after it, old or not, remain. *)
Theorem C3_limpiar_backups (ahora : fecha_hora) (dias : Z) (fs : sistema)
    (c : carpeta) :
  carpeta_de fs ZBackups = Some c ->
  NoDup (map fst (entradas c)) ->
  (Z.abs dias <= timedelta_max_dias)%Z ->
  (0 <= instante ahora - dias * microsegundos_por_dia < instante_tope)%Z ->
  let limite := (instante ahora - dias * microsegundos_por_dia)%Z in
  ((forall ne, In ne (entradas c) -> antigua limite ne = true ->
               se_puede_eliminar ne = true) ->
   limpiar_backups_antiguos ahora dias fs =
   (Retorna (length (filter (antigua limite) (entradas c))),
    con_carpeta fs ZBackups
      {| entradas := filter (fun ne => negb (antigua limite ne)) (entradas c);
         acepta_nuevos := acepta_nuevos c |})) /\
  (forall pre ne post,
     entradas c = pre ++ ne :: post ->
     (forall x, In x pre -> antigua limite x = true ->
                se_puede_eliminar x = true) ->
     antigua limite ne = true ->
     se_puede_eliminar ne = false ->
     snd (limpiar_backups_antiguos ahora dias fs) =
     con_carpeta fs ZBackups
       {| entradas :=
            filter (fun x => negb (antigua limite x)) pre ++ ne :: post;
          acepta_nuevos := acepta_nuevos c |}).
Proof.
  intros Hc Hnd Hd Hr limite.
  assert (Hlim : calcular_fecha_limite ahora dias = Retorna limite).
  { unfold calcular_fecha_limite.
    destruct (Z.gtb_spec (Z.abs dias) timedelta_max_dias) as [|_]; [lia|].
    fold limite.
    destruct (Z.leb_spec 0 limite); [|unfold limite in *; lia].
    destruct (Z.ltb_spec limite instante_tope); [|unfold limite in *; lia].
    reflexivity. }
  assert (Hfs : fs = con_carpeta fs ZBackups
                       {| entradas := entradas c; acepta_nuevos := acepta_nuevos c |}).
  { symmetry. apply con_carpeta_misma. rewrite Hc. destruct c; reflexivity. }
  assert (Hlist : os_listdir fs ZBackups = Retorna (map fst (entradas c))).
  { unfold os_listdir. rewrite Hc. reflexivity. }
  unfold limpiar_backups_antiguos.
  unfold bind at 1, leer at 1. rewrite Hlim.
  unfold capturar, bind, leer. rewrite Hlist.
  split.
  - intros Hok. rewrite Hfs at 1.
    pose proof (bucle_limpieza_prefijo limite (acepta_nuevos c) fs [] []
                  (entradas c) [] 0) as P.
    rewrite !app_nil_r in P. cbn [app] in P.
    fold bucle_limpieza. rewrite P by assumption. reflexivity.
  - intros pre [n e] post Hsplit Hok Hold Hrm. rewrite Hfs at 1.
    rewrite Hsplit, map_app. cbn [map fst].
    pose proof (bucle_limpieza_prefijo limite (acepta_nuevos c) fs
                  ((n, e) :: post) (n :: map fst post) pre [] 0) as P.
    cbn [app] in P. fold bucle_limpieza. rewrite P; [|rewrite <- Hsplit; exact Hnd|exact Hok].
    destruct (bucle_limpieza_falla limite (acepta_nuevos c) fs
                (filter (fun x => negb (antigua limite x)) pre) post n e
                (map fst post) (0 + length (filter (antigua limite) pre)))
      as (ex & Hex & ->).
    + rewrite Hsplit in Hnd. rewrite map_app in *. cbn [map fst] in *.
      clear - Hnd. revert Hnd. induction pre as [|[m x] p IH]; intros H.
      * exact H.
      * cbn [filter]. destruct (negb (antigua limite (m, x))); cbn [map fst app] in *.
        -- inversion H as [|? ? Hm Hp]; subst. constructor.
           ++ intros Hin. apply Hm. rewrite in_app_iff in *. cbn [In] in *.
              destruct Hin as [Hin|Hin]; [|tauto].
              left. clear - Hin. induction p as [|[k y] q IHq]; [exact Hin|].
              cbn [filter] in Hin. destruct (negb (antigua limite (k, y)));
                cbn [map fst In] in *; tauto.
           ++ apply IH. exact Hp.
        -- inversion H; subst. apply IH. assumption.
    + exact Hold.
    + exact Hrm.
    + rewrite Hex. reflexivity.
Qed.

(** C3, counterexample. The claim as first stated fails: all three backups are
    older than a week; the first is removed, the removal of the second fails,
    and then the third, old and removable, is left in place, and the count
    returned is 0 although one file was removed. *)
Lemma C3_contraejemplo :
  forallb (antigua (instante ahora_ejemplo - 7 * microsegundos_por_dia))
    (entradas_de sistema_con_backups ZBackups) = true /\
  map se_puede_eliminar (entradas_de sistema_con_backups ZBackups)
    = [true; false; true] /\
  fst (limpiar_backups_antiguos ahora_ejemplo 7 sistema_con_backups) = Retorna 0 /\
  map fst (entradas_de
             (snd (limpiar_backups_antiguos ahora_ejemplo 7 sistema_con_backups))
             ZBackups)
    = ["tareas.json_20240101_000000"; "usuarios.pkl_20240101_000000"]%string.
Proof. repeat split; reflexivity. Qed.

Lemma NoDup_tres (a b c : string) :
  a <> b -> a <> c -> b <> c -> NoDup [a; b; c].
Proof.
  intros Hab Hac Hbc. repeat constructor; simpl; intuition congruence.
Qed.

Lemma C3_testigo :
  limpiar_backups_antiguos ahora_ejemplo 7 sistema_con_backups_libres =
    (Retorna 2,
     con_carpeta sistema_con_backups_libres ZBackups
       {| entradas := [("tareas.json_20250115_103045"%string,
                        archivo_normal "[1]" (instante ahora_ejemplo))];
          acepta_nuevos := true |}) /\
  map fst (entradas_de
             (snd (limpiar_backups_antiguos ahora_ejemplo 7 sistema_con_backups))
             ZBackups)
    = ["tareas.json_20240101_000000"; "usuarios.pkl_20240101_000000"]%string.
Proof.
  split.
  - refine (proj1 (@C3_limpiar_backups ahora_ejemplo 7 sistema_con_backups_libres
                     _ eq_refl _ _ _) _).
    + apply NoDup_tres; discriminate.
    + vm_compute; intros H; discriminate H.
    + split; vm_compute; [intros H; discriminate H|reflexivity].
    + intros ne [<-|[<-|[<-|[]]]] _; reflexivity.
  - assert (Hnd : NoDup ["usuarios.json_20240101_000000"; "tareas.json_20240101_000000";
                         "usuarios.pkl_20240101_000000"]%string)
      by (apply NoDup_tres; discriminate).
    assert (Hd : (Z.abs 7 <= timedelta_max_dias)%Z)
      by (vm_compute; intros H; discriminate H).
    assert (Hr : (0 <= instante ahora_ejemplo - 7 * microsegundos_por_dia
                  < instante_tope)%Z)
      by (split; vm_compute; [intros H; discriminate H|reflexivity]).
    rewrite (proj2 (@C3_limpiar_backups ahora_ejemplo 7 sistema_con_backups
                      _ eq_refl Hnd Hd Hr)
               [("usuarios.json_20240101_000000"%string,
                 archivo_normal "[1]" hace_un_año)]
               ("tareas.json_20240101_000000"%string,
                archivo_protegido "[1]" hace_un_año)
               [("usuarios.pkl_20240101_000000"%string,
                 archivo_normal "x" hace_un_año)]
               eq_refl
               ltac:(intros x [<-|[]] _; reflexivity)
               eq_refl eq_refl).
    reflexivity.
Defined.

(** ** Names of the backups *)

Local Open Scope Z_scope.

Lemma digito_mod (a b : Z) : digito a = digito b -> a mod 10 = b mod 10.
Proof.
  unfold digito. intros H. apply (f_equal nat_of_ascii) in H.
  pose proof (Z.mod_pos_bound a 10 ltac:(lia)).
  pose proof (Z.mod_pos_bound b 10 ltac:(lia)).
  rewrite !nat_ascii_embedding in H by lia. lia.
Qed.

Lemma dos_digitos_inj (a b : Z) :
  0 <= a < 100 -> 0 <= b < 100 -> dos_digitos a = dos_digitos b -> a = b.
Proof.
  intros Ha Hb H. unfold dos_digitos in H. injection H as E1 E2.
  apply digito_mod in E1, E2.
  assert (0 <= a / 10 < 10) by (split; [apply Z.div_pos|apply Z.div_lt_upper_bound]; lia).
  assert (0 <= b / 10 < 10) by (split; [apply Z.div_pos|apply Z.div_lt_upper_bound]; lia).
  rewrite !Z.mod_small in E1 by lia.
  rewrite (Z.div_mod a 10), (Z.div_mod b 10) by lia. congruence.
Qed.

Lemma cuatro_digitos_inj (a b : Z) :
  0 <= a < 10000 -> 0 <= b < 10000 ->
  cuatro_digitos a = cuatro_digitos b -> a = b.
Proof.
  intros Ha Hb H. unfold cuatro_digitos in H. cbn [dos_digitos append] in H.
  injection H as H1 H2 H3 H4.
  assert (E1 : dos_digitos (a / 100) = dos_digitos (b / 100))
    by (unfold dos_digitos; congruence).
  assert (E2 : dos_digitos (a mod 100) = dos_digitos (b mod 100))
    by (unfold dos_digitos; congruence).
  apply dos_digitos_inj in E1;
    [|split; [apply Z.div_pos|apply Z.div_lt_upper_bound]; lia
     |split; [apply Z.div_pos|apply Z.div_lt_upper_bound]; lia].
  apply dos_digitos_inj in E2; [|apply Z.mod_pos_bound; lia|apply Z.mod_pos_bound; lia].
  rewrite (Z.div_mod a 100), (Z.div_mod b 100) by lia. congruence.
Qed.

Lemma fecha_valida_rangos (f : fecha_hora) :
  fecha_valida f = true ->
  1000 <= año f <= 9999 /\ 1 <= mes f <= 12 /\ 1 <= dia f <= 31 /\
  0 <= hora f < 24 /\ 0 <= minuto f < 60 /\ 0 <= segundo f < 60.
Proof.
  unfold fecha_valida. rewrite !andb_true_iff.
  rewrite !Z.leb_le, !Z.ltb_lt. intros H.
  assert (dias_en_mes (año f) (mes f) <= 31).
  { unfold dias_en_mes.
    repeat match goal with |- context [if ?c then _ else _] => destruct c end; lia. }
  lia.
Qed.

(** The stamp has one-second granularity: it is made of the fields down
    to the second, and valid dates get the same stamp only when they
    agree on all of them. *)
Lemma strftime_marca_inj (f g : fecha_hora) :
  fecha_valida f = true -> fecha_valida g = true ->
  strftime_marca f = strftime_marca g ->
  año f = año g /\ mes f = mes g /\ dia f = dia g /\
  hora f = hora g /\ minuto f = minuto g /\ segundo f = segundo g.
Proof.
  intros Hf Hg H.
  apply fecha_valida_rangos in Hf, Hg.
  unfold strftime_marca, cuatro_digitos in H.
  cbn [dos_digitos append] in H.
  injection H as Y1 Y2 Y3 Y4 M1 M2 D1 D2 h1 h2 m1 m2 s1 s2.
  assert (EY : cuatro_digitos (año f) = cuatro_digitos (año g))
    by (unfold cuatro_digitos, dos_digitos; rewrite Y1, Y2, Y3, Y4; reflexivity).
  assert (EM : dos_digitos (mes f) = dos_digitos (mes g))
    by (unfold dos_digitos; congruence).
  assert (ED : dos_digitos (dia f) = dos_digitos (dia g))
    by (unfold dos_digitos; congruence).
  assert (Eh : dos_digitos (hora f) = dos_digitos (hora g))
    by (unfold dos_digitos; congruence).
  assert (Em : dos_digitos (minuto f) = dos_digitos (minuto g))
    by (unfold dos_digitos; congruence).
  assert (Es : dos_digitos (segundo f) = dos_digitos (segundo g))
    by (unfold dos_digitos; congruence).
  apply cuatro_digitos_inj in EY; [|lia|lia].
  apply dos_digitos_inj in EM; [|lia|lia].
  apply dos_digitos_inj in ED; [|lia|lia].
  apply dos_digitos_inj in Eh; [|lia|lia].
  apply dos_digitos_inj in Em; [|lia|lia].
  apply dos_digitos_inj in Es; [|lia|lia].
  tauto.
Qed.

Local Close Scope Z_scope.

Lemma snd_capturar (A : Type) (m : M A) (h : excepcion -> option (M A)) fs :
  (forall e k fs', h e = Some k -> snd (k fs') = fs') ->
  snd (capturar m h fs) = snd (m fs).
Proof.
  intros Hh. unfold capturar. destruct (m fs) as [[a|e] fs']; [reflexivity|].
  destruct (h e) as [k|] eqn:E; [|reflexivity]. simpl. eauto.
Qed.

Lemma snd_json_guardar_datos B ahora nombre datos cb fs :
  snd (json_guardar_datos B ahora nombre datos cb fs) =
  snd (intento_guardar ahora (obtener_ruta_json nombre)
         (obtener_ruta_backup ahora (nombre ++ ".json")%string) cb
         (json_dump B (_preparar_datos_para_json datos)) fs).
Proof.
  rewrite json_guardar_datos_eq. apply snd_capturar.
  intros e k fs'. destruct (es_TypeError_o_ValueError e);
    [|destruct (es_IOError e)]; intros H; inversion H; reflexivity.
Qed.

Lemma snd_binario_guardar_datos B ahora nombre datos protocolo cb fs :
  snd (binario_guardar_datos B ahora nombre datos protocolo cb fs) =
  snd (intento_guardar ahora (obtener_ruta_binario nombre)
         (obtener_ruta_backup ahora (nombre ++ ".pkl")%string) cb
         (pickle_dump B protocolo datos) fs).
Proof.
  rewrite binario_guardar_datos_eq. apply snd_capturar.
  intros e k fs'. destruct e; simpl; intros H; inversion H; reflexivity.
Qed.

(** The [with open] block of a save leaves every other directory as the
    backup step left it. *)
Lemma intento_guardar_marco ahora r dst cb salida fs z :
  fst r <> fst dst -> z <> fst r ->
  carpeta_de (snd (intento_guardar ahora r dst cb salida fs)) z =
  carpeta_de (tras_respaldo r dst cb fs) z.
Proof.
  intros Hr Hz.
  destruct (intento_guardar_spec ahora r dst cb salida fs Hr) as [Hno Hsi].
  destruct (escribible fs r) eqn:E.
  - destruct (Hsi eq_refl) as (fs2 & -> & _ & _ & H). simpl. apply H. exact Hz.
  - destruct (Hno eq_refl) as (e & _ & ->). reflexivity.
Qed.

(** What a save leaves in the directory of the backups: what was there,
    and at most one more file, the copy of the file about to be
    overwritten, under the name built by [obtener_ruta_backup]. *)
Lemma intento_guardar_backups ahora r nb cb salida fs :
  fst r <> ZBackups ->
  let fs' := snd (intento_guardar ahora r (obtener_ruta_backup ahora nb) cb salida fs) in
  (forall n e, buscar fs' (ZBackups, n) = Some e ->
     buscar fs (ZBackups, n) = Some e \/
     (n = (nb ++ "_" ++ strftime_marca ahora)%string /\ cb = true /\
      buscar fs r = Some e /\ exists a, e = Archivo a)) /\
  (cb = true -> forall a,
     buscar fs r = Some (Archivo a) -> legible a = true ->
     escribible fs (obtener_ruta_backup ahora nb) = true ->
     buscar fs' (obtener_ruta_backup ahora nb) = Some (Archivo a)).
Proof.
  intros Hr fs'.
  assert (Hc : carpeta_de fs' ZBackups =
               carpeta_de (tras_respaldo r (obtener_ruta_backup ahora nb) cb fs) ZBackups).
  { apply intento_guardar_marco; [exact Hr|congruence]. }
  destruct (tras_respaldo_spec r (obtener_ruta_backup ahora nb) cb fs)
    as (_ & Hotros & Hdst & Hcopia).
  split.
  - intros n e He.
    rewrite (buscar_segun_carpeta _ fs' (ZBackups, n) Hc) in He.
    destruct (string_dec n (nb ++ "_" ++ strftime_marca ahora)%string) as [->|Hn].
    + change (ZBackups, (nb ++ "_" ++ strftime_marca ahora)%string)
        with (obtener_ruta_backup ahora nb) in *.
      destruct Hdst as [Hsame|(Hcb & a & Ha & Hnew)].
      * left. rewrite <- Hsame. exact He.
      * right. rewrite Hnew in He. injection He as <-.
        repeat split; auto. exists a; reflexivity.
    + left. rewrite <- He. symmetry. apply (Hotros n). exact Hn.
  - intros Hcb a Ha Hl Hw.
    rewrite (buscar_segun_carpeta _ fs' (obtener_ruta_backup ahora nb) Hc).
    apply Hcopia; assumption.
Qed.

Lemma append_assoc (a b c : string) :
  ((a ++ b) ++ c = a ++ b ++ c)%string.
Proof. induction a as [|x a IH]; simpl; [reflexivity|]. rewrite IH. reflexivity. Qed.

(** C4 (as amended).  The backup made before an overwrite goes to the
    directory of the backups under the name
    [{collection}.{ext}_{YYYYMMDD_HHMMSS}]: the name of the collection,
    then the extension of the format, then the stamp, which comes last.
    The stamp is 15 characters long, the date and the time of the clock
    down to the second; a save adds nothing else to that directory, and
    when the file to overwrite can be read and the name can be written the
    copy is there after the save; valid clock readings get the same stamp
    only when they agree down to the second. *)
Theorem C4_nombre_del_backup (B : codecs) (ahora : fecha_hora) (nombre : string)
    (datos : valor) (protocolo : Z) (fs : sistema) :
  obtener_ruta_backup ahora (nombre ++ ".json")%string
    = (ZBackups, (nombre ++ ".json_" ++ strftime_marca ahora)%string) /\
  obtener_ruta_backup ahora (nombre ++ ".pkl")%string
    = (ZBackups, (nombre ++ ".pkl_" ++ strftime_marca ahora)%string) /\
  strftime_marca ahora
    = (cuatro_digitos (año ahora) ++ dos_digitos (mes ahora)
       ++ dos_digitos (dia ahora) ++ "_" ++ dos_digitos (hora ahora)
       ++ dos_digitos (minuto ahora) ++ dos_digitos (segundo ahora))%string /\
  String.length (strftime_marca ahora) = 15 /\
  (forall n e,
     buscar (snd (json_guardar_datos B ahora nombre datos true fs)) (ZBackups, n)
       = Some e ->
     buscar fs (ZBackups, n) = Some e \/
     (n = (nombre ++ ".json_" ++ strftime_marca ahora)%string /\
      buscar fs (obtener_ruta_json nombre) = Some e)) /\
  (forall a,
     buscar fs (obtener_ruta_json nombre) = Some (Archivo a) ->
     legible a = true ->
     escribible fs (ZBackups, (nombre ++ ".json_" ++ strftime_marca ahora)%string)
       = true ->
     buscar (snd (json_guardar_datos B ahora nombre datos true fs))
            (ZBackups, (nombre ++ ".json_" ++ strftime_marca ahora)%string)
       = Some (Archivo a)) /\
  (forall n e,
     buscar (snd (binario_guardar_datos B ahora nombre datos protocolo true fs))
            (ZBackups, n) = Some e ->
     buscar fs (ZBackups, n) = Some e \/
     (n = (nombre ++ ".pkl_" ++ strftime_marca ahora)%string /\
      buscar fs (obtener_ruta_binario nombre) = Some e)) /\
  (forall a,
     buscar fs (obtener_ruta_binario nombre) = Some (Archivo a) ->
     legible a = true ->
     escribible fs (ZBackups, (nombre ++ ".pkl_" ++ strftime_marca ahora)%string)
       = true ->
     buscar (snd (binario_guardar_datos B ahora nombre datos protocolo true fs))
            (ZBackups, (nombre ++ ".pkl_" ++ strftime_marca ahora)%string)
       = Some (Archivo a)) /\
  (forall otra,
     fecha_valida ahora = true -> fecha_valida otra = true ->
     strftime_marca otra = strftime_marca ahora ->
     año otra = año ahora /\ mes otra = mes ahora /\ dia otra = dia ahora /\
     hora otra = hora ahora /\ minuto otra = minuto ahora /\
     segundo otra = segundo ahora).
Proof.
  assert (Ej : obtener_ruta_backup ahora (nombre ++ ".json")%string
               = (ZBackups, (nombre ++ ".json_" ++ strftime_marca ahora)%string)).
  { unfold obtener_ruta_backup. rewrite append_assoc. reflexivity. }
  assert (Ep : obtener_ruta_backup ahora (nombre ++ ".pkl")%string
               = (ZBackups, (nombre ++ ".pkl_" ++ strftime_marca ahora)%string)).
  { unfold obtener_ruta_backup. rewrite append_assoc. reflexivity. }
  assert (Ej' : ((nombre ++ ".json") ++ "_" ++ strftime_marca ahora
                 = nombre ++ ".json_" ++ strftime_marca ahora)%string)
    by (rewrite append_assoc; reflexivity).
  assert (Ep' : ((nombre ++ ".pkl") ++ "_" ++ strftime_marca ahora
                 = nombre ++ ".pkl_" ++ strftime_marca ahora)%string)
    by (rewrite append_assoc; reflexivity).
  split; [exact Ej|]. split; [exact Ep|]. split; [reflexivity|].
  split; [reflexivity|].
  pose proof (@intento_guardar_backups ahora (obtener_ruta_json nombre)
                (nombre ++ ".json")%string true
                (json_dump B (_preparar_datos_para_json datos)) fs
                ltac:(discriminate)) as [J1 J2].
  pose proof (@intento_guardar_backups ahora (obtener_ruta_binario nombre)
                (nombre ++ ".pkl")%string true
                (pickle_dump B protocolo datos) fs
                ltac:(discriminate)) as [P1 P2].
  rewrite <- snd_json_guardar_datos in J1, J2.
  rewrite <- snd_binario_guardar_datos in P1, P2.
  rewrite Ej in J2. rewrite Ep in P2. rewrite Ej' in J1. rewrite Ep' in P1.
  split; [|split; [|split; [|split]]].
  - intros n e He. destruct (J1 n e He) as [H|(H1 & _ & H2 & _)]; auto.
  - intros a Ha Hl Hw. apply J2; auto.
  - intros n e He. destruct (P1 n e He) as [H|(H1 & _ & H2 & _)]; auto.
  - intros a Ha Hl Hw. apply P2; auto.
  - intros otra Hv Hv' E. apply strftime_marca_inj; assumption.
Qed.

(** C4, counterexample. The claim as first stated fails: saving the users over
    an existing file at 2025-01-15 10:30:45 leaves the backup under a name
    that ends with the stamp, not with the extension. *)
Lemma C4_contraejemplo :
  map fst (entradas_de sistema_con_datos ZBackups) = [] /\
  map fst (entradas_de
             (snd (guardar_usuarios codecs_ejemplo ahora_ejemplo (VList [VInt 1])
                     "json" sistema_con_datos)) ZBackups)
    = ["usuarios.json_20250115_103045"%string] /\
  os_path_exists
    (snd (guardar_usuarios codecs_ejemplo ahora_ejemplo (VList [VInt 1])
            "json" sistema_con_datos))
    (ZBackups, "usuarios_20250115_103045.json"%string) = false /\
  map fst (entradas_de
             (snd (guardar_usuarios codecs_ejemplo ahora_ejemplo (VList [VInt 1])
                     "binario" sistema_con_datos)) ZBackups)
    = ["usuarios.pkl_20250115_103045"%string] /\
  map fst (entradas_de
             (snd (json_crear_backup ahora_ejemplo (obtener_ruta_json "usuarios")
                     "usuarios" sistema_con_datos)) ZBackups)
    = ["usuarios.json_20250115_103045"%string].
Proof. repeat split; reflexivity. Qed.

Lemma C4_testigo :
  buscar (snd (json_guardar_datos codecs_ejemplo ahora_ejemplo "usuarios"
                 (VList [VInt 1]) true sistema_con_datos))
         (ZBackups, "usuarios.json_20250115_103045"%string)
    = Some (archivo_normal "[1]" hace_un_año) /\
  buscar (snd (binario_guardar_datos codecs_ejemplo ahora_ejemplo "usuarios"
                 (VList [VInt 1]) 5 true sistema_con_datos))
         (ZBackups, "usuarios.pkl_20250115_103045"%string)
    = Some (archivo_normal pickle_de_lista_1 hace_un_año).
Proof.
  pose proof (C4_nombre_del_backup codecs_ejemplo ahora_ejemplo "usuarios"
                (VList [VInt 1]) 5 sistema_con_datos)
    as (_ & _ & _ & _ & _ & J & _ & P & _).
  split.
  - apply (J {| contenido := "[1]"; mtime := hace_un_año; legible := true;
                modificable := true; eliminable := true |}); reflexivity.
  - apply (P {| contenido := pickle_de_lista_1; mtime := hace_un_año; legible := true;
                modificable := true; eliminable := true |}); reflexivity.
Defined.

(** ** The full backup *)

Lemma length_append (a b : string) :
  String.length (a ++ b) = String.length a + String.length b.
Proof. induction a as [|x a IH]; simpl; [reflexivity|]. rewrite IH. reflexivity. Qed.

Lemma substring_append_salta (p t : string) (k m : nat) :
  substring (String.length p + k) m (p ++ t) = substring k m t.
Proof. induction p as [|x p IH]; simpl; [reflexivity|exact IH]. Qed.

Lemma digito_no_es_punto (x : Z) : Ascii.eqb (digito x) "."%char = false.
Proof.
  apply Ascii.eqb_neq. unfold digito. intros H.
  apply (f_equal nat_of_ascii) in H.
  pose proof (Z.mod_pos_bound x 10 ltac:(lia)).
  rewrite nat_ascii_embedding in H by lia.
  change (nat_of_ascii ".") with 46 in H. lia.
Qed.

(** A name that ends with a stamp does not end with [.json]: the route
    appends the extension. *)
Lemma obtener_ruta_json_marca (p : string) (ahora : fecha_hora) :
  obtener_ruta_json (p ++ strftime_marca ahora)
  = (ZJson, (p ++ strftime_marca ahora ++ ".json")%string).
Proof.
  unfold obtener_ruta_json.
  assert (E : endswith (p ++ strftime_marca ahora) ".json" = false).
  { unfold endswith. rewrite length_append.
    change (String.length (strftime_marca ahora)) with 15.
    change (String.length ".json") with 5.
    replace (String.length p + 15 - 5) with (String.length p + 10) by lia.
    rewrite substring_append_salta.
    unfold strftime_marca, cuatro_digitos, dos_digitos. cbn [append substring].
    cbn [String.eqb]. rewrite digito_no_es_punto. apply andb_false_r. }
  rewrite E, append_assoc. reflexivity.
Qed.

Lemma es_IOError_no_es_ValueError e :
  es_IOError e = true -> es_TypeError_o_ValueError e = false.
Proof. destruct e; simpl; intros H; try reflexivity; discriminate. Qed.

(** A JSON save without backup that returns: it returns [True], the dump
    ended well, its output is the file, and nothing else changed. *)
Lemma json_guardar_datos_retorna B ahora nombre datos b fs fs2 :
  json_guardar_datos B ahora nombre datos false fs = (Retorna b, fs2) ->
  b = true /\
  (exists a, buscar fs2 (obtener_ruta_json nombre) = Some (Archivo a) /\
             json_dump B (_preparar_datos_para_json datos) = (contenido a, None)) /\
  (forall n, n <> snd (obtener_ruta_json nombre) ->
             buscar fs2 (ZJson, n) = buscar fs (ZJson, n)) /\
  (forall z, z <> ZJson -> carpeta_de fs2 z = carpeta_de fs z).
Proof.
  rewrite json_guardar_datos_eq. unfold capturar.
  destruct (intento_guardar_spec ahora (obtener_ruta_json nombre)
              (obtener_ruta_backup ahora (nombre ++ ".json")%string) false
              (json_dump B (_preparar_datos_para_json datos)) fs
              (@json_no_es_backups _ _ _)) as [Hno Hsi].
  destruct (escribible fs (obtener_ruta_json nombre)).
  - destruct (Hsi eq_refl) as (fs' & -> & H1 & H2 & H3).
    destruct (json_dump B (_preparar_datos_para_json datos)) as [texto [e|]];
      cbn [fst snd] in *.
    + destruct (es_TypeError_o_ValueError e); [discriminate|].
      destruct (es_IOError e); discriminate.
    + intros H; injection H as <- <-. split; [reflexivity|].
      split; [|split; [exact H2|exact H3]].
      eexists; split; [exact H1|].
      rewrite (proj1 (contenido_archivo_escrito _ _ _ _)). reflexivity.
  - destruct (Hno eq_refl) as (e & He & ->).
    rewrite (es_IOError_no_es_ValueError _ He), He. discriminate.
Qed.

Lemma json_cargar_datos_segun_archivo B nombre fs fs' :
  buscar fs' (obtener_ruta_json nombre) = buscar fs (obtener_ruta_json nombre) ->
  json_cargar_datos B nombre fs' = json_cargar_datos B nombre fs.
Proof. unfold json_cargar_datos, leer_archivo. intros ->. reflexivity. Qed.

Lemma backups_totales_segun_carpeta fs fs' :
  carpeta_de fs' ZBackups = carpeta_de fs ZBackups ->
  backups_totales (obtener_estadisticas_almacenamiento fs')
  = backups_totales (obtener_estadisticas_almacenamiento fs).
Proof.
  unfold obtener_estadisticas_almacenamiento, os_listdir. cbn [backups_totales].
  intros ->. reflexivity.
Qed.

(** C5 (as amended).  When [crear_backup] reports success, each
    collection whose JSON load gave a value that Python counts as true has
    been written again, in JSON, to the file
    [{collection}_backup_{YYYYMMDD_HHMMSS}.json] of the JSON directory; a
    collection whose load gave [None] (missing or unreadable file, bytes
    that do not parse) or an empty value is skipped and counts as
    success.  Nothing is written to the directory of the backups or to the
    binary directory, so the backup counter of the statistics, which counts
    the entries of the directory of the backups, is what it was before. *)
Theorem C5_crear_backup (B : codecs) (ahora : fecha_hora) (fs fs' : sistema) :
  crear_backup B ahora fs = (Retorna true, fs') ->
  carpeta_de fs' ZBackups = carpeta_de fs ZBackups /\
  carpeta_de fs' ZBinarios = carpeta_de fs ZBinarios /\
  backups_totales (obtener_estadisticas_almacenamiento fs')
    = backups_totales (obtener_estadisticas_almacenamiento fs) /\
  (forall n,
     n <> ("usuarios_backup_" ++ strftime_marca ahora ++ ".json")%string ->
     n <> ("tareas_backup_" ++ strftime_marca ahora ++ ".json")%string ->
     buscar fs' (ZJson, n) = buscar fs (ZJson, n)) /\
  exists usuarios_json tareas_json,
    cargar_usuarios B "json" fs = Retorna usuarios_json /\
    cargar_tareas B "json" fs = Retorna tareas_json /\
    (if es_verdadero usuarios_json
     then exists a,
         buscar fs' (ZJson, ("usuarios_backup_" ++ strftime_marca ahora ++ ".json")%string)
           = Some (Archivo a) /\
         json_dump B (_preparar_datos_para_json usuarios_json) = (contenido a, None)
     else
         buscar fs' (ZJson, ("usuarios_backup_" ++ strftime_marca ahora ++ ".json")%string)
         = buscar fs (ZJson, ("usuarios_backup_" ++ strftime_marca ahora ++ ".json")%string)) /\
    (if es_verdadero tareas_json
     then exists a,
         buscar fs' (ZJson, ("tareas_backup_" ++ strftime_marca ahora ++ ".json")%string)
           = Some (Archivo a) /\
         json_dump B (_preparar_datos_para_json tareas_json) = (contenido a, None)
     else
         buscar fs' (ZJson, ("tareas_backup_" ++ strftime_marca ahora ++ ".json")%string)
         = buscar fs (ZJson, ("tareas_backup_" ++ strftime_marca ahora ++ ".json")%string)).
Proof.
  set (nu := ("usuarios_backup_" ++ strftime_marca ahora ++ ".json")%string).
  set (nt := ("tareas_backup_" ++ strftime_marca ahora ++ ".json")%string).
  assert (Ru : obtener_ruta_json ("usuarios_backup_" ++ strftime_marca ahora) = (ZJson, nu))
    by apply obtener_ruta_json_marca.
  assert (Rt : obtener_ruta_json ("tareas_backup_" ++ strftime_marca ahora) = (ZJson, nt))
    by apply obtener_ruta_json_marca.
  assert (Hnut : nu <> nt) by discriminate.
  assert (Hnu : nu <> "tareas.json"%string) by discriminate.
  unfold crear_backup, capturar.
  match goal with
  | |- context [match ?m fs with _ => _ end] => destruct (m fs) as [[b|e] fs0] eqn:Ecuerpo
  end; [|destruct (es_Exception e); intros H; discriminate H].
  intros H; injection H as -> <-.
  unfold bind, leer in Ecuerpo.
  destruct (cargar_usuarios B "json" fs) as [u|e] eqn:Eu; [|discriminate].
  match type of Ecuerpo with
  | (let (_, _) := ?X in _) = _ => destruct X as [[b1|e1] fs1] eqn:E1
  end; [|discriminate].
  destruct (cargar_tareas B "json" fs1) as [t|e] eqn:Et; [|discriminate].
  match type of Ecuerpo with
  | (let (_, _) := ?X in _) = _ => destruct X as [[b2|e2] fs2] eqn:E2
  end; [|discriminate].
  unfold ret in Ecuerpo. injection Ecuerpo as _ <-.
  (* effect of the first save *)
  assert (S1 : (forall n, n <> nu -> buscar fs1 (ZJson, n) = buscar fs (ZJson, n)) /\
               (forall z, z <> ZJson -> carpeta_de fs1 z = carpeta_de fs z) /\
               (if es_verdadero u
                then exists a, buscar fs1 (ZJson, nu) = Some (Archivo a) /\
                       json_dump B (_preparar_datos_para_json u) = (contenido a, None)
                else buscar fs1 (ZJson, nu) = buscar fs (ZJson, nu))).
  { destruct (es_verdadero u).
    - apply json_guardar_datos_retorna in E1. rewrite Ru in E1.
      destruct E1 as (_ & Ha & Hn & Hz). auto.
    - unfold ret in E1. injection E1 as _ <-. auto. }
  destruct S1 as (S1n & S1z & S1u).
  assert (S2 : (forall n, n <> nt -> buscar fs2 (ZJson, n) = buscar fs1 (ZJson, n)) /\
               (forall z, z <> ZJson -> carpeta_de fs2 z = carpeta_de fs1 z) /\
               (if es_verdadero t
                then exists a, buscar fs2 (ZJson, nt) = Some (Archivo a) /\
                       json_dump B (_preparar_datos_para_json t) = (contenido a, None)
                else buscar fs2 (ZJson, nt) = buscar fs1 (ZJson, nt))).
  { destruct (es_verdadero t).
    - apply json_guardar_datos_retorna in E2. rewrite Rt in E2.
      destruct E2 as (_ & Ha & Hn & Hz). auto.
    - unfold ret in E2. injection E2 as _ <-. auto. }
  destruct S2 as (S2n & S2z & S2t).
  assert (Hb : carpeta_de fs2 ZBackups = carpeta_de fs ZBackups)
    by (rewrite S2z, S1z; [reflexivity|discriminate|discriminate]).
  split; [exact Hb|].
  split; [rewrite S2z, S1z; [reflexivity|discriminate|discriminate]|].
  split; [apply backups_totales_segun_carpeta; exact Hb|].
  split; [intros n H1 H2; rewrite S2n, S1n; auto|].
  exists u, t. split; [reflexivity|]. split.
  { rewrite <- Et. unfold cargar_tareas. simpl. symmetry.
    apply json_cargar_datos_segun_archivo. apply S1n.
    intros H. apply Hnu. symmetry. exact H. }
  split.
  - rewrite (S2n nu Hnut). exact S1u.
  - destruct (es_verdadero t); [exact S2t|].
    rewrite S2t. apply S1n. intros H. apply Hnut. symmetry. exact H.
Qed.

(** C5, counterexample. The claim as first stated fails on both counts: on a
    fresh root the full backup reports success and writes nothing; and with
    both collections saved it reports success, writes its two copies to the
    JSON directory, and the backup counter of the statistics stays at 0 while
    the count of JSON files goes to 4. *)
Lemma C5_contraejemplo :
  crear_backup codecs_ejemplo ahora_ejemplo sistema_vacio
    = (Retorna true, sistema_vacio) /\
  fst (crear_backup codecs_ejemplo ahora_ejemplo sistema_con_datos) = Retorna true /\
  map fst (entradas_de
             (snd (crear_backup codecs_ejemplo ahora_ejemplo sistema_con_datos))
             ZJson)
    = ["usuarios.json"; "tareas.json"; "usuarios_backup_20250115_103045.json";
       "tareas_backup_20250115_103045.json"]%string /\
  backups_totales
    (obtener_estadisticas_almacenamiento
       (snd (crear_backup codecs_ejemplo ahora_ejemplo sistema_con_datos))) = 0 /\
  archivos_json
    (obtener_estadisticas_almacenamiento
       (snd (crear_backup codecs_ejemplo ahora_ejemplo sistema_con_datos))) = 4.
Proof. repeat split; reflexivity. Qed.

Lemma C5_testigo :
  carpeta_de (snd (crear_backup codecs_ejemplo ahora_ejemplo sistema_con_datos))
             ZBackups
    = carpeta_de sistema_con_datos ZBackups /\
  backups_totales
    (obtener_estadisticas_almacenamiento
       (snd (crear_backup codecs_ejemplo ahora_ejemplo sistema_con_datos)))
    = backups_totales (obtener_estadisticas_almacenamiento sistema_con_datos).
Proof.
  pose proof (@C5_crear_backup codecs_ejemplo ahora_ejemplo sistema_con_datos
                (snd (crear_backup codecs_ejemplo ahora_ejemplo sistema_con_datos))
                eq_refl) as (H1 & _ & H2 & _).
  split; [exact H1|exact H2].
Defined.

(** ** Synchronisation *)

Lemma escribir_archivo_otros ahora r texto fs n :
  n <> snd r ->
  escribible (snd (escribir_archivo ahora r texto fs)) (fst r, n)
  = escribible fs (fst r, n).
Proof.
  intros Hn. unfold escribir_archivo, sobre_entrada.
  destruct (carpeta_de fs (fst r)) as [c|] eqn:Ec; [|reflexivity].
  destruct (permisos_al_escribir fs r) as [[l m] d].
  assert (Hok : forall a,
            escribible
              (con_carpeta fs (fst r)
                 {| entradas := poner_entrada (snd r) (Archivo a) (entradas c);
                    acepta_nuevos := acepta_nuevos c |}) (fst r, n)
            = escribible fs (fst r, n)).
  { intros a. unfold escribible. cbn [fst snd].
    rewrite carpeta_de_con_carpeta_eq, Ec. cbn [entradas acepta_nuevos].
    rewrite buscar_entrada_poner_neq by exact Hn. reflexivity. }
  destruct (buscar_entrada (snd r) (entradas c)) as [[v|t]|];
    [destruct (modificable v)| |destruct (acepta_nuevos c)];
    cbn [snd]; first [apply Hok | reflexivity].
Qed.

(** What a binary save does to the state, whatever its outcome, and when
    it returns. *)
Lemma binario_guardar_datos_efecto B ahora nombre datos protocolo cb fs :
  let r := obtener_ruta_binario nombre in
  let salida := pickle_dump B protocolo datos in
  let res := fst (binario_guardar_datos B ahora nombre datos protocolo cb fs) in
  let fs' := snd (binario_guardar_datos B ahora nombre datos protocolo cb fs) in
  carpeta_de fs' ZJson = carpeta_de fs ZJson /\
  (forall n, n <> snd r -> buscar fs' (ZBinarios, n) = buscar fs (ZBinarios, n)) /\
  (forall n, n <> snd r -> escribible fs' (ZBinarios, n) = escribible fs (ZBinarios, n)) /\
  (escribible fs r = true ->
     buscar fs' r = Some (Archivo (archivo_escrito ahora fs r (fst salida)))) /\
  (snd salida = None -> res = Retorna (escribible fs r)).
Proof.
  intros r salida res fs'.
  set (dst := obtener_ruta_backup ahora (nombre ++ ".pkl")%string).
  assert (Hr : fst r <> fst dst) by discriminate.
  destruct (tras_respaldo_spec r dst cb fs) as (Hf & _).
  assert (Hfs' : fs' = snd (intento_guardar ahora r dst cb salida fs))
    by apply snd_binario_guardar_datos.
  assert (Hres : res = fst (binario_guardar_datos B ahora nombre datos protocolo cb fs))
    by reflexivity.
  clearbody res fs'.
  rewrite binario_guardar_datos_eq in Hres. fold r dst salida in Hres.
  unfold capturar in Hres.
  pose proof (intento_guardar_eq ahora r dst cb salida fs) as Eq.
  destruct (intento_guardar_spec ahora r dst cb salida fs Hr) as [Hno Hsi].
  assert (Hbin : carpeta_de (tras_respaldo r dst cb fs) ZBinarios = carpeta_de fs ZBinarios)
    by (apply Hf; discriminate).
  destruct (escribible fs r) eqn:Ew.
  - destruct (Hsi eq_refl) as (fs2 & E & H1 & H2 & H3).
    rewrite E in Hfs', Hres. cbn [snd] in Hfs'. subst fs'.
    split; [rewrite H3 by discriminate; apply Hf; discriminate|].
    split; [exact H2|]. split; [|split; [intros _; exact H1|]].
    + intros n Hn. rewrite E in Eq.
      pose proof (escribir_archivo_otros ahora r (fst salida)
                    (tras_respaldo r dst cb fs) Hn) as Ho.
      destruct (escribir_archivo ahora r (fst salida) (tras_respaldo r dst cb fs))
        as [[[]|e] fsx] eqn:Ex;
        (assert (Efs : fs2 = fsx) by congruence); subst fsx; clear Eq;
        cbn [snd] in Ho; change (fst r) with ZBinarios in Ho; rewrite Ho;
        apply (escribible_segun_carpeta _ _ (ZBinarios, n)); exact Hbin.
    + intros Hs. rewrite Hs in Hres. exact Hres.
  - destruct (Hno eq_refl) as (e & He & E).
    rewrite E in Hfs', Hres. cbn [snd] in Hfs'. subst fs'.
    split; [apply Hf; discriminate|].
    split; [intros n _; apply (buscar_segun_carpeta _ _ (ZBinarios, n)); exact Hbin|].
    split; [intros n _; apply (escribible_segun_carpeta _ _ (ZBinarios, n)); exact Hbin|].
    split; [discriminate|].
    intros _. rewrite Hres. destruct e; try discriminate He; reflexivity.
Qed.

Lemma sincronizar_formatos_eq B ahora :
  sincronizar_formatos B ahora =
  capturar
    (usuarios_json <- leer (cargar_usuarios B "json") ;;
     paso_sincronizar B ahora "usuarios" usuarios_json ;;;
     tareas_json <- leer (cargar_tareas B "json") ;;
     paso_sincronizar B ahora "tareas" tareas_json ;;;
     ret true)%py
    (fun e => if es_Exception e then Some (ret false) else None).
Proof. reflexivity. Qed.

Lemma paso_sincronizar_efecto B ahora nombre v fs :
  let r := obtener_ruta_binario (nombre ++ "_sync") in
  let res := fst (paso_sincronizar B ahora nombre v fs) in
  let fs' := snd (paso_sincronizar B ahora nombre v fs) in
  carpeta_de fs' ZJson = carpeta_de fs ZJson /\
  (forall n, n <> snd r -> buscar fs' (ZBinarios, n) = buscar fs (ZBinarios, n)) /\
  (forall n, n <> snd r -> escribible fs' (ZBinarios, n) = escribible fs (ZBinarios, n)) /\
  (es_verdadero v = true -> escribible fs r = true ->
     exists a, buscar fs' r = Some (Archivo a) /\
               contenido a = fst (pickle_dump B (HIGHEST_PROTOCOL B) v)) /\
  ((es_verdadero v = true -> snd (pickle_dump B (HIGHEST_PROTOCOL B) v) = None) ->
     res = Retorna tt).
Proof.
  cbv zeta. unfold paso_sincronizar.
  destruct (es_verdadero v).
  - destruct (binario_guardar_datos_efecto B ahora (nombre ++ "_sync") v
                (HIGHEST_PROTOCOL B) true fs) as (H1 & H2 & H3 & H4 & H5).
    unfold bind.
    destruct (binario_guardar_datos B ahora (nombre ++ "_sync") v
                (HIGHEST_PROTOCOL B) true fs) as [[b|e] fs1]; cbn [fst snd] in *.
    + repeat split; auto.
      intros _ Hw. eexists; split; [apply H4; exact Hw|].
      apply contenido_archivo_escrito.
    + repeat split; auto.
      * intros _ Hw. eexists; split; [apply H4; exact Hw|].
        apply contenido_archivo_escrito.
      * intros Hs. specialize (H5 (Hs eq_refl)). discriminate H5.
  - repeat split; auto. discriminate.
Qed.

Lemma cargar_segun_json B fs fs' :
  carpeta_de fs' ZJson = carpeta_de fs ZJson ->
  cargar_usuarios B "json" fs' = cargar_usuarios B "json" fs /\
  cargar_tareas B "json" fs' = cargar_tareas B "json" fs.
Proof.
  intros H. unfold cargar_usuarios, cargar_tareas. cbn [String.eqb Ascii.eqb].
  split; apply json_cargar_datos_segun_archivo;
    apply (buscar_segun_carpeta _ _ (obtener_ruta_json _)); exact H.
Qed.

(** C6 (as amended).  [sincronizar_formatos] goes one way only, from JSON
    to binary: each collection whose JSON load gives a true value is
    pickled into the file [{collection}_sync.pkl] of the binary directory.
    It never writes to the JSON directory, and in the binary directory it
    touches no other name, so the binary collection files themselves are
    left alone.  It is best effort: if the loads return and the dumps do
    not raise it reports success whether or not the files could be
    written. *)
Theorem C6_sincronizar_formatos (B : codecs) (ahora : fecha_hora) (fs : sistema) :
  carpeta_de (snd (sincronizar_formatos B ahora fs)) ZJson = carpeta_de fs ZJson /\
  (forall n, n <> "usuarios_sync.pkl"%string -> n <> "tareas_sync.pkl"%string ->
     buscar (snd (sincronizar_formatos B ahora fs)) (ZBinarios, n)
     = buscar fs (ZBinarios, n)) /\
  (forall u,
     cargar_usuarios B "json" fs = Retorna u -> es_verdadero u = true ->
     escribible fs (ZBinarios, "usuarios_sync.pkl"%string) = true ->
     exists a,
       buscar (snd (sincronizar_formatos B ahora fs))
              (ZBinarios, "usuarios_sync.pkl"%string) = Some (Archivo a) /\
       contenido a = fst (pickle_dump B (HIGHEST_PROTOCOL B) u)) /\
  (forall u t,
     cargar_usuarios B "json" fs = Retorna u ->
     (es_verdadero u = true -> snd (pickle_dump B (HIGHEST_PROTOCOL B) u) = None) ->
     cargar_tareas B "json" fs = Retorna t -> es_verdadero t = true ->
     escribible fs (ZBinarios, "tareas_sync.pkl"%string) = true ->
     exists a,
       buscar (snd (sincronizar_formatos B ahora fs))
              (ZBinarios, "tareas_sync.pkl"%string) = Some (Archivo a) /\
       contenido a = fst (pickle_dump B (HIGHEST_PROTOCOL B) t)) /\
  (forall u t,
     cargar_usuarios B "json" fs = Retorna u ->
     cargar_tareas B "json" fs = Retorna t ->
     (es_verdadero u = true -> snd (pickle_dump B (HIGHEST_PROTOCOL B) u) = None) ->
     (es_verdadero t = true -> snd (pickle_dump B (HIGHEST_PROTOCOL B) t) = None) ->
     fst (sincronizar_formatos B ahora fs) = Retorna true).
Proof.
  rewrite sincronizar_formatos_eq.
  set (h := fun e => if es_Exception e then Some (ret false) else None).
  assert (Hh : forall e k fs', h e = Some k -> snd (k fs') = fs').
  { intros e k fs'. unfold h. destruct (es_Exception e); intros H; inversion H.
    reflexivity. }
  rewrite (snd_capturar _ h fs Hh).
  unfold capturar, bind, leer.
  destruct (cargar_usuarios B "json" fs) as [u|eu] eqn:Eu.
  2:{ cbn [snd fst]. repeat split; auto; intros; discriminate. }
  destruct (paso_sincronizar_efecto B ahora "usuarios" u fs)
    as (U1 & U2 & U3 & U4 & U5).
  change (snd (obtener_ruta_binario ("usuarios" ++ "_sync")))
    with "usuarios_sync.pkl"%string in *.
  change (obtener_ruta_binario ("usuarios" ++ "_sync"))
    with (ZBinarios, "usuarios_sync.pkl"%string) in *.
  destruct (paso_sincronizar B ahora "usuarios" u fs) as [[[]|e1] fs1];
    cbn [fst snd] in *.
  2:{ split; [exact U1|]. split; [intros n Hn _; apply U2; exact Hn|].
      split; [intros u' Hu' Hv Hw; injection Hu' as <-; apply U4; assumption|].
      split; [intros u' t Hu' Hd; injection Hu' as <-;
              specialize (U5 Hd); discriminate U5|].
      intros u' t Hu' _ Hd; injection Hu' as <-.
      specialize (U5 Hd); discriminate U5. }
  destruct (cargar_segun_json B fs fs1 U1) as [_ Et]. rewrite Et.
  destruct (cargar_tareas B "json" fs) as [t|et] eqn:Ett.
  2:{ cbn [snd fst]. split; [exact U1|].
      split; [intros n Hn _; apply U2; exact Hn|].
      split; [intros u' Hu' Hv Hw; injection Hu' as <-; apply U4; assumption|].
      split; intros; discriminate. }
  destruct (paso_sincronizar_efecto B ahora "tareas" t fs1)
    as (T1 & T2 & T3 & T4 & T5).
  change (snd (obtener_ruta_binario ("tareas" ++ "_sync")))
    with "tareas_sync.pkl"%string in *.
  change (obtener_ruta_binario ("tareas" ++ "_sync"))
    with (ZBinarios, "tareas_sync.pkl"%string) in *.
  assert (Hfinal : forall r2 fs2,
            paso_sincronizar B ahora "tareas" t fs1 = (r2, fs2) ->
            snd (match r2 with
                 | Retorna _ => ret true fs2
                 | Lanza e => (Lanza e, fs2)
                 end) = fs2)
    by (intros [[]|e] fs2 _; reflexivity).
  destruct (paso_sincronizar B ahora "tareas" t fs1) as [r2 fs2] eqn:E2.
  rewrite (Hfinal r2 fs2 eq_refl). cbn [fst snd] in *.
  split; [rewrite T1; exact U1|].
  split; [intros n Hu Ht; rewrite T2, U2; auto|].
  split.
  { intros u' Hu' Hv Hw; injection Hu' as <-.
    rewrite T2 by discriminate. apply U4; assumption. }
  split.
  { intros u' t' Hu' _ Ht' Hv Hw. injection Ht' as <-.
    apply T4; [exact Hv|]. rewrite U3 by discriminate. exact Hw. }
  intros u' t' Hu' Ht' Hdu Hdt. injection Hu' as <-. injection Ht' as <-.
  specialize (T5 Hdt). subst r2. reflexivity.
Qed.

(** C6, counterexample. The claim as first stated fails: with the users saved
    in binary only, the synchronisation reports success and leaves everything
    as it was; the binary collection has not been copied to the JSON
    directory. With both JSON collections saved, the copies go to the [_sync]
    files of the binary directory and the JSON directory is not written. *)
Lemma C6_contraejemplo :
  cargar_usuarios codecs_ejemplo "binario" sistema_solo_binario
    = Retorna (VList [VInt 1]) /\
  sincronizar_formatos codecs_ejemplo ahora_ejemplo sistema_solo_binario
    = (Retorna true, sistema_solo_binario) /\
  fst (sincronizar_formatos codecs_ejemplo ahora_ejemplo sistema_con_datos)
    = Retorna true /\
  carpeta_de (snd (sincronizar_formatos codecs_ejemplo ahora_ejemplo sistema_con_datos))
             ZJson
    = carpeta_de sistema_con_datos ZJson /\
  map fst (entradas_de
             (snd (sincronizar_formatos codecs_ejemplo ahora_ejemplo sistema_con_datos))
             ZBinarios)
    = ["usuarios.pkl"; "usuarios_sync.pkl"; "tareas_sync.pkl"]%string.
Proof. repeat split; reflexivity. Qed.

Lemma C6_testigo :
  (exists a,
     buscar (snd (sincronizar_formatos codecs_ejemplo ahora_ejemplo sistema_con_datos))
            (ZBinarios, "usuarios_sync.pkl"%string) = Some (Archivo a) /\
     contenido a = pickle_de_lista_1) /\
  (exists a,
     buscar (snd (sincronizar_formatos codecs_ejemplo ahora_ejemplo sistema_con_datos))
            (ZBinarios, "tareas_sync.pkl"%string) = Some (Archivo a) /\
     contenido a = pickle_de_lista_1) /\
  fst (sincronizar_formatos codecs_ejemplo ahora_ejemplo sistema_con_datos)
    = Retorna true.
Proof.
  pose proof (C6_sincronizar_formatos codecs_ejemplo ahora_ejemplo sistema_con_datos)
    as (_ & _ & U & T & R).
  split; [|split].
  - apply (U (VList [VInt 1])); reflexivity.
  - apply (T (VList [VInt 1]) (VList [VInt 1])); try reflexivity.
  - apply (R (VList [VInt 1]) (VList [VInt 1])); reflexivity.
Defined.

End PropiedadesPersistencia.

(* ================================================================== *)
(** * Further properties of the lazy query engine *)

Section MasPropiedadesIterador.
Import Generadores Consultas.
Local Open Scope list_scope.
Variable A : Type.

Lemma bucle_next_filter (f : option (A -> bool)) (l : list A) (i : nat) :
  match bucle_next f l i with
  | (None, j) => filter (pasa_filtro f) l = [] /\ j = i + length l
  | (Some x, j) =>
      exists pre post,
        l = pre ++ x :: post /\ filter (pasa_filtro f) pre = [] /\
        pasa_filtro f x = true /\ j = i + length pre + 1
  end.
Proof.
  revert i; induction l as [|t r IH]; intros i; cbn [bucle_next].
  - split; [reflexivity|simpl; lia].
  - destruct (pasa_filtro f t) eqn:P.
    + exists [], r. repeat split; try assumption. simpl; lia.
    + specialize (IH (S i)). destruct (bucle_next f r (S i)) as [[x|] j].
      * destruct IH as (pre & post & -> & Hpre & Hx & ->).
        exists (t :: pre), post. repeat split; try assumption.
        -- cbn [filter]. rewrite P. exact Hpre.
        -- simpl; lia.
      * destruct IH as [Hf ->]. split; [cbn [filter]; rewrite P; exact Hf|simpl; lia].
Qed.

(** The elements that the test of [__next__] lets through. *)
Lemma consumir_filter (it : IteradorTareas A) (c : nat) :
  length (tareas it) - indice it < c ->
  consumir c it
  = Some (filter (pasa_filtro (filtro it)) (skipn (indice it) (tareas it))).
Proof.
  revert it. induction c as [|c IH]; intros it Hc; [lia|].
  cbn [consumir]. unfold next.
  pose proof (bucle_next_filter (filtro it) (skipn (indice it) (tareas it)) (indice it)) as H.
  destruct (bucle_next (filtro it) (skipn (indice it) (tareas it)) (indice it))
    as [[x|] j].
  - destruct H as (pre & post & E & Hpre & Hx & ->).
    assert (Hlen : length (skipn (indice it) (tareas it)) = length pre + S (length post))
      by (rewrite E, length_app; reflexivity).
    rewrite length_skipn in Hlen.
    rewrite IH; cbn [tareas filtro indice]; [|lia].
    assert (Hs : skipn (indice it + length pre + 1) (tareas it) = post).
    { replace (indice it + length pre + 1) with ((length pre + 1) + indice it) by lia.
      rewrite <- skipn_skipn, E.
      replace (pre ++ x :: post) with ((pre ++ [x]) ++ post)
        by (rewrite <- app_assoc; reflexivity).
      rewrite skipn_app, skipn_all2 by (rewrite length_app; simpl; lia).
      rewrite length_app. cbn [length].
      replace (length pre + 1 - (length pre + 1)) with 0 by lia. reflexivity. }
    rewrite Hs, E, filter_app, Hpre. cbn [filter app]. rewrite Hx. reflexivity.
  - destruct H as [Hf _]. rewrite Hf. reflexivity.
Qed.

Lemma filter_todos (l : list A) : filter (fun _ => true) l = l.
Proof.
  induction l as [|x r IH]; cbn [filter]; [reflexivity|]. rewrite IH. reflexivity.
Qed.

(** X1.  [list(IteradorTareas(tareas, filtro))]: an iterator consumed to
    the end yields, in their order, the remaining elements that the filter
    accepts when there is a filter, and all the remaining elements when
    there is none; so a fresh iterator yields the filtered list, or the
    whole list without filter.  Any number of calls above the number of
    remaining elements is enough to reach [StopIteration]. *)
Theorem X1_consumir_es_filter (it : IteradorTareas A) (c : nat) :
  length (tareas it) - indice it < c ->
  consumir c it
  = Some match filtro it with
         | None => skipn (indice it) (tareas it)
         | Some p => filter p (skipn (indice it) (tareas it))
         end.
Proof.
  intros Hc. rewrite (consumir_filter it Hc). f_equal.
  destruct (filtro it) as [p|].
  - apply filter_ext. intros x. reflexivity.
  - apply filter_todos.
Qed.

End MasPropiedadesIterador.

Lemma X1_testigo :
  Consultas.consumir 5 (Generadores.nuevo_iterador [1; 2; 3; 4] (Some Nat.even))
  = Some [2; 4] /\
  Consultas.consumir 5 (Generadores.nuevo_iterador [1; 2; 3; 4] None)
  = Some [1; 2; 3; 4].
Proof.
  split.
  - apply (@X1_consumir_es_filter nat
             (Generadores.nuevo_iterador [1; 2; 3; 4] (Some Nat.even)) 5).
    simpl. lia.
  - apply (@X1_consumir_es_filter nat
             (Generadores.nuevo_iterador [1; 2; 3; 4] None) 5).
    simpl. lia.
Defined.

Section MasPropiedadesLotes.
Import Generadores Consultas.
Local Open Scope list_scope.
Variable A : Type.
Variable estado_valor : A -> option string.

Lemma In_rebanada (x : A) (ts : list A) (i w : nat) :
  In x (rebanada ts i w) -> In x ts.
Proof.
  unfold rebanada. intros H.
  rewrite <- (firstn_skipn i ts). apply in_or_app. right.
  rewrite <- (firstn_skipn w (skipn i ts)). apply in_or_app. left. exact H.
Qed.

Lemma length_filter_cons (p : A -> bool) (t : A) (r : list A) :
  length (filter p (t :: r)) = Nat.b2n (p t) + length (filter p r).
Proof. cbn [filter]. destruct (p t); reflexivity. Qed.

Lemma un_estado_a_lo_mas (t : A) :
  Nat.b2n (tiene_estado estado_valor "pendiente" t)
  + Nat.b2n (tiene_estado estado_valor "en_progreso" t)
  + Nat.b2n (tiene_estado estado_valor "completada" t) <= 1 /\
  (estado_valor t = Some "pendiente"%string \/
   estado_valor t = Some "en_progreso"%string \/
   estado_valor t = Some "completada"%string ->
   Nat.b2n (tiene_estado estado_valor "pendiente" t)
   + Nat.b2n (tiene_estado estado_valor "en_progreso" t)
   + Nat.b2n (tiene_estado estado_valor "completada" t) = 1).
Proof.
  unfold tiene_estado. destruct (estado_valor t) as [v|].
  - destruct (String.eqb_spec v "pendiente") as [->|Hp]; [split; reflexivity|].
    destruct (String.eqb_spec v "en_progreso") as [->|He]; [split; reflexivity|].
    destruct (String.eqb_spec v "completada") as [->|Hc]; [split; reflexivity|].
    split; [simpl; lia|]. intros [E|[E|E]]; congruence.
  - split; [simpl; lia|]. intros [E|[E|E]]; discriminate.
Qed.

Lemma contar_tres_estados (l : list A) :
  contar_estado estado_valor "pendiente" l
  + contar_estado estado_valor "en_progreso" l
  + contar_estado estado_valor "completada" l <= length l /\
  ((forall t, In t l ->
      estado_valor t = Some "pendiente"%string \/
      estado_valor t = Some "en_progreso"%string \/
      estado_valor t = Some "completada"%string) ->
   contar_estado estado_valor "pendiente" l
   + contar_estado estado_valor "en_progreso" l
   + contar_estado estado_valor "completada" l = length l).
Proof.
  unfold contar_estado.
  induction l as [|t r [IH1 IH2]]; [split; reflexivity|].
  rewrite !length_filter_cons. cbn [length].
  destruct (un_estado_a_lo_mas t) as [H1 H2].
  split; [lia|].
  intros H. specialize (H2 (H t (or_introl eq_refl))).
  assert (Hr : forall x, In x r ->
                 estado_valor x = Some "pendiente"%string \/
                 estado_valor x = Some "en_progreso"%string \/
                 estado_valor x = Some "completada"%string)
    by (intros x Hx; apply H; right; exact Hx).
  specialize (IH2 Hr). lia.
Qed.

(** X2.  In every dictionary that [generador_estadisticas_por_lote] yields,
    whatever the window size, the three counts by state never add up to
    more than [total_tareas]; they add up to it exactly when every task of
    the input has one of the three states. *)
Theorem X2_conteos_del_lote (ts : list A) (w : Z) (dicts : list estadisticas_lote) :
  generador_estadisticas_por_lote estado_valor ts w = Retorna dicts ->
  Forall (fun d => pendientes d + en_progreso d + completadas d <= total_tareas d)
         dicts /\
  ((forall t, In t ts ->
      estado_valor t = Some "pendiente"%string \/
      estado_valor t = Some "en_progreso"%string \/
      estado_valor t = Some "completada"%string) ->
   Forall (fun d => pendientes d + en_progreso d + completadas d = total_tareas d)
          dicts).
Proof.
  unfold generador_estadisticas_por_lote.
  destruct (w =? 0)%Z; [discriminate|].
  destruct (w <? 0)%Z; intros H; injection H as <-.
  - split; [constructor|intros _; constructor].
  - split.
    + apply Forall_forall. intros d Hd. apply in_map_iff in Hd.
      destruct Hd as (i & <- & _). unfold estadisticas_en. cbn.
      apply contar_tres_estados.
    + intros Hall. apply Forall_forall. intros d Hd. apply in_map_iff in Hd.
      destruct Hd as (i & <- & _). unfold estadisticas_en. cbn.
      apply contar_tres_estados. intros t Ht. apply Hall.
      apply In_rebanada in Ht. exact Ht.
Qed.

(** X3.  For a window size [w >= 1], the dictionary of the k-th window has
    [lote_numero = k + 1] and a [rango_indices] that starts at [k * w] and
    spans exactly [total_tareas] indices of the input: it ends at
    [k * w + total_tareas - 1], which is an index of the input. *)
Theorem X3_rango_indices (ts : list A) (w : Z) (dicts : list estadisticas_lote)
    (k : nat) (d : estadisticas_lote) :
  (1 <= w)%Z ->
  generador_estadisticas_por_lote estado_valor ts w = Retorna dicts ->
  nth_error dicts k = Some d ->
  lote_numero d = k + 1 /\
  rango_indices d = (k * Z.to_nat w, k * Z.to_nat w + total_tareas d - 1) /\
  1 <= total_tareas d <= Z.to_nat w /\
  k * Z.to_nat w + total_tareas d <= length ts.
Proof.
  intros Hw. unfold generador_estadisticas_por_lote.
  destruct (Z.eqb_spec w 0) as [|_]; [lia|].
  destruct (Z.ltb_spec w 0) as [|_]; [lia|].
  set (n := Z.to_nat w). assert (Hn : 1 <= n) by (unfold n; lia).
  intros H; injection H as <-.
  unfold range. rewrite map_map, nth_error_map, nth_error_seq0.
  destruct (Nat.ltb_spec k ((length ts + n - 1) / n)) as [Hk|Hk];
    cbn [option_map]; [|discriminate].
  intros H; injection H as <-.
  destruct (@cuenta_de_lotes (length ts) n Hn) as [Hcubre Hultimo].
  unfold estadisticas_en. cbn [lote_numero rango_indices total_tareas].
  rewrite Nat.div_mul by lia. rewrite length_rebanada.
  split; [reflexivity|]. split; [f_equal; nia|]. split; nia.
Qed.

End MasPropiedadesLotes.

Lemma X2_testigo :
  Forall (fun d => Generadores.pendientes d + Generadores.en_progreso d
                   + Generadores.completadas d <= Generadores.total_tareas d)
    [ {| Generadores.lote_numero := 1; Generadores.rango_indices := (0, 9);
         Generadores.total_tareas := 10; Generadores.pendientes := 6;
         Generadores.en_progreso := 0; Generadores.completadas := 4;
         Generadores.porcentaje_completadas := Generadores.porcentaje 4 10 |};
      {| Generadores.lote_numero := 2; Generadores.rango_indices := (10, 19);
         Generadores.total_tareas := 10; Generadores.pendientes := 7;
         Generadores.en_progreso := 0; Generadores.completadas := 3;
         Generadores.porcentaje_completadas := Generadores.porcentaje 3 10 |};
      {| Generadores.lote_numero := 3; Generadores.rango_indices := (20, 24);
         Generadores.total_tareas := 5; Generadores.pendientes := 3;
         Generadores.en_progreso := 0; Generadores.completadas := 2;
         Generadores.porcentaje_completadas := Generadores.porcentaje 2 5 |} ].
Proof.
  exact (proj1 (@X2_conteos_del_lote nat Generadores.estado_por_numero
                  Generadores.veinticinco_tareas 10 _ eq_refl)).
Defined.

Lemma X3_testigo :
  Generadores.rango_indices
    {| Generadores.lote_numero := 3; Generadores.rango_indices := (20, 24);
       Generadores.total_tareas := 5; Generadores.pendientes := 3;
       Generadores.en_progreso := 0; Generadores.completadas := 2;
       Generadores.porcentaje_completadas := Generadores.porcentaje 2 5 |}
  = (2 * Z.to_nat 10, 2 * Z.to_nat 10 + 5 - 1).
Proof.
  refine (proj1 (proj2 (@X3_rango_indices nat Generadores.estado_por_numero
                          Generadores.veinticinco_tareas 10 _ 2 _ _ eq_refl eq_refl))).
  vm_compute; intros H; discriminate H.
Defined.

Section PropiedadesConsultas.
Import Generadores Persistencia Consultas.
Local Open Scope list_scope.

(** X4.  On a list of [Tarea] objects the by-state generator splits the
    list in three: the numbers of tasks it yields for ["pendiente"],
    ["en_progreso"] and ["completada"] add up to the length of the list, a
    task is yielded for a state exactly when it is in the list with that
    state, and any other state yields nothing. *)
Theorem X4_por_estado_particion (ts : list Tarea.t) :
  length (generador_tareas_por_estado Tarea.estado_valor ts "pendiente")
  + length (generador_tareas_por_estado Tarea.estado_valor ts "en_progreso")
  + length (generador_tareas_por_estado Tarea.estado_valor ts "completada")
  = length ts /\
  (forall e t,
     In t (generador_tareas_por_estado Tarea.estado_valor ts e) <->
     In t ts /\ Tarea.value (Tarea.estado t) = e) /\
  (forall e,
     e <> "pendiente"%string -> e <> "en_progreso"%string ->
     e <> "completada"%string ->
     generador_tareas_por_estado Tarea.estado_valor ts e = []).
Proof.
  assert (Hin : forall e t,
            In t (generador_tareas_por_estado Tarea.estado_valor ts e) <->
            In t ts /\ Tarea.value (Tarea.estado t) = e).
  { intros e t. unfold generador_tareas_por_estado. rewrite filter_In.
    unfold tiene_estado, Tarea.estado_valor. rewrite String.eqb_eq. reflexivity. }
  split; [|split; [exact Hin|]].
  - apply (proj2 (contar_tres_estados Tarea.estado_valor ts)).
    intros t _. unfold Tarea.estado_valor.
    destruct (Tarea.estado t); simpl; auto.
  - intros e Hp He Hc.
    destruct (generador_tareas_por_estado Tarea.estado_valor ts e) as [|t r] eqn:E;
      [reflexivity|].
    assert (Ht : In t (generador_tareas_por_estado Tarea.estado_valor ts e))
      by (rewrite E; left; reflexivity).
    apply Hin in Ht. destruct Ht as [_ Hv].
    destruct (Tarea.estado t); simpl in Hv; congruence.
Qed.

(** ** Tasks by user *)




(** ** Overdue and soon-due tasks *)

Lemma filtrar_o_lanzar_retorna (A : Type) (p : A -> resultado bool)
    (q : A -> bool) (xs : list A) :
  (forall x, In x xs -> p x = Retorna (q x)) ->
  filtrar_o_lanzar p xs = Retorna (filter q xs).
Proof.
  induction xs as [|x r IH]; intros H; cbn [filtrar_o_lanzar filter];
    [reflexivity|].
  rewrite (H x (or_introl eq_refl)), IH by (intros y Hy; apply H; right; exact Hy).
  reflexivity.
Qed.

Lemma filtrar_o_lanzar_lanza (A : Type) (p : A -> resultado bool)
    (e : excepcion) (xs : list A) :
  (forall x, In x xs -> p x = Lanza e \/ exists b, p x = Retorna b) ->
  (exists x, In x xs /\ p x = Lanza e) ->
  filtrar_o_lanzar p xs = Lanza e.
Proof.
  induction xs as [|x r IH]; intros Hall (y & Hy & Hp); [destruct Hy|].
  cbn [filtrar_o_lanzar].
  destruct Hy as [<-|Hy]; [rewrite Hp; reflexivity|].
  destruct (Hall x (or_introl eq_refl)) as [Hx|(b & Hx)]; rewrite Hx;
    [reflexivity|].
  rewrite IH; [reflexivity|intros z Hz; apply Hall; right; exact Hz|].
  exists y. split; [exact Hy|exact Hp].
Qed.

Lemma dias_enteros (x d : Z) :
  (0 <= x / microsegundos_por_dia /\ x / microsegundos_por_dia <= d
   <-> 0 <= x < (d + 1) * microsegundos_por_dia)%Z.
Proof.
  assert (Hd : (microsegundos_por_dia <> 0)%Z) by discriminate.
  pose proof (Z.div_mod x _ Hd) as E.
  pose proof (Z.mod_pos_bound x microsegundos_por_dia eq_refl) as B.
  revert E B.
  generalize (x / microsegundos_por_dia)%Z (x mod microsegundos_por_dia)%Z.
  unfold microsegundos_por_dia. intros q r E B. lia.
Qed.

(** X6.  When every task has a due date, both generators run to the end
    (the clock being read at one instant for the whole run): what the
    first yields is the list of the tasks whose due date is strictly
    before now, and what the second yields the list of the tasks whose due
    date is at or after now and less than [dias + 1] whole days after it,
    each with the tasks in their original order and as many times as they
    are in the list; no task is yielded by both. *)
Theorem X6_vencidas_y_proximas (ahora : fecha_hora) (dias : Z) (ts : list Tarea.t) :
  (forall t, In t ts -> Tarea.fecha_limite t <> None) ->
  exists vencidas proximas,
    generador_tareas_vencidas ahora ts = Retorna vencidas /\
    generador_tareas_proximas_vencer ahora ts dias = Retorna proximas /\
    vencidas
    = filter (fun t => match Tarea.fecha_limite t with
                       | Some f => (instante f <? instante ahora)%Z
                       | None => false
                       end) ts /\
    proximas
    = filter (fun t => match Tarea.fecha_limite t with
                       | Some f =>
                           ((instante ahora <=? instante f)
                            && (instante f
                                <? instante ahora + (dias + 1) * microsegundos_por_dia))%Z
                       | None => false
                       end) ts /\
    (forall t, In t vencidas <->
       In t ts /\ exists f, Tarea.fecha_limite t = Some f /\
                            (instante f < instante ahora)%Z) /\
    (forall t, In t proximas <->
       In t ts /\ exists f, Tarea.fecha_limite t = Some f /\
         (instante ahora <= instante f
          < instante ahora + (dias + 1) * microsegundos_por_dia)%Z) /\
    (forall t, In t vencidas -> ~ In t proximas).
Proof.
  intros Hf.
  set (qv := fun t => match Tarea.fecha_limite t with
                      | Some f => (instante f <? instante ahora)%Z
                      | None => false end).
  set (qp := fun t => match Tarea.fecha_limite t with
                      | Some f =>
                          ((instante ahora <=? instante f)
                           && (instante f
                               <? instante ahora + (dias + 1) * microsegundos_por_dia))%Z
                      | None => false end).
  assert (Ev : generador_tareas_vencidas ahora ts = Retorna (filter qv ts)).
  { apply filtrar_o_lanzar_retorna. intros t Ht. specialize (Hf t Ht).
    unfold Tarea.esta_vencida, qv. destruct (Tarea.fecha_limite t); congruence. }
  assert (Ep : generador_tareas_proximas_vencer ahora ts dias = Retorna (filter qp ts)).
  { apply filtrar_o_lanzar_retorna. intros t Ht. specialize (Hf t Ht).
    unfold proxima_a_vencer, Tarea.calcular_dias_restantes, qp.
    destruct (Tarea.fecha_limite t) as [f|]; [|congruence]. f_equal.
    apply eq_true_iff_eq.
    rewrite !andb_true_iff, !Z.leb_le, Z.ltb_lt, dias_enteros. lia. }
  assert (Hv : forall t, In t (filter qv ts) <->
             In t ts /\ exists f, Tarea.fecha_limite t = Some f /\
                                  (instante f < instante ahora)%Z).
  { intros t. rewrite filter_In. unfold qv. split.
    - intros [Hin H]. split; [exact Hin|].
      destruct (Tarea.fecha_limite t) as [f|]; [|discriminate].
      exists f. split; [reflexivity|]. apply Z.ltb_lt. exact H.
    - intros [Hin (f & -> & H)]. split; [exact Hin|]. apply Z.ltb_lt. exact H. }
  assert (Hp : forall t, In t (filter qp ts) <->
             In t ts /\ exists f, Tarea.fecha_limite t = Some f /\
               (instante ahora <= instante f
                < instante ahora + (dias + 1) * microsegundos_por_dia)%Z).
  { intros t. rewrite filter_In. unfold qp. split.
    - intros [Hin H]. split; [exact Hin|].
      destruct (Tarea.fecha_limite t) as [f|]; [|discriminate].
      exists f. split; [reflexivity|].
      apply andb_true_iff in H. rewrite Z.leb_le, Z.ltb_lt in H. exact H.
    - intros [Hin (f & -> & H)]. split; [exact Hin|].
      apply andb_true_iff. rewrite Z.leb_le, Z.ltb_lt. exact H. }
  exists (filter qv ts), (filter qp ts).
  split; [exact Ev|]. split; [exact Ep|].
  split; [reflexivity|]. split; [reflexivity|].
  split; [exact Hv|]. split; [exact Hp|].
  intros t H1 H2. apply Hv in H1. apply Hp in H2.
  destruct H1 as [_ (f & E1 & H1)], H2 as [_ (g & E2 & H2)].
  rewrite E1 in E2. injection E2 as <-. lia.
Qed.

(** X7.  A single task without due date makes the date queries fail: the
    overdue and the soon-due generators raise [TypeError] and the calendar
    generator raises [AttributeError], whatever the other tasks are. *)
Theorem X7_sin_fecha_limite (ahora : fecha_hora) (dias año mes : Z)
    (ts : list Tarea.t) :
  (exists t, In t ts /\ Tarea.fecha_limite t = None) ->
  generador_tareas_vencidas ahora ts = Lanza TypeError /\
  generador_tareas_proximas_vencer ahora ts dias = Lanza TypeError /\
  generador_fechas_limite_calendario ts año mes = Lanza AttributeError.
Proof.
  intros (t & Ht & Hn). split; [|split].
  - apply filtrar_o_lanzar_lanza.
    + intros x _. unfold Tarea.esta_vencida.
      destruct (Tarea.fecha_limite x); eauto.
    + exists t. split; [exact Ht|]. unfold Tarea.esta_vencida. rewrite Hn. reflexivity.
  - apply filtrar_o_lanzar_lanza.
    + intros x _. unfold proxima_a_vencer, Tarea.calcular_dias_restantes.
      destruct (Tarea.fecha_limite x); eauto.
    + exists t. split; [exact Ht|].
      unfold proxima_a_vencer, Tarea.calcular_dias_restantes. rewrite Hn. reflexivity.
  - unfold generador_fechas_limite_calendario.
    rewrite (@filtrar_o_lanzar_lanza _ (es_del_mes año mes) AttributeError ts);
      [reflexivity| |].
    + intros x _. unfold es_del_mes, fecha_de.
      destruct (Tarea.fecha_limite x); eauto.
    + exists t. split; [exact Ht|]. unfold es_del_mes, fecha_de. rewrite Hn. reflexivity.
Qed.

(** X8.  The date-range filter is inclusive at both ends and empty when the
    range is inverted; a task passes the filters of two ranges exactly
    when its due date lies in their intersection, from the later start to
    the earlier end. *)
Theorem X8_filtro_fecha_rango (a b c d f : fecha_hora) (t : Tarea.t) :
  Tarea.fecha_limite t = Some f ->
  ((instante b < instante a)%Z -> crear_filtro_fecha_rango a b t = Retorna false) /\
  ((instante a <= instante b)%Z ->
   (instante f = instante a \/ instante f = instante b) ->
   crear_filtro_fecha_rango a b t = Retorna true) /\
  exists x y,
    crear_filtro_fecha_rango a b t = Retorna x /\
    crear_filtro_fecha_rango c d t = Retorna y /\
    (x && y = true <->
     (Z.max (instante a) (instante c) <= instante f
      <= Z.min (instante b) (instante d))%Z).
Proof.
  intros E. unfold crear_filtro_fecha_rango. rewrite E.
  split; [|split].
  - intros H. f_equal. apply andb_false_iff.
    destruct (Z.leb_spec (instante a) (instante f)); [right|left; reflexivity].
    apply Z.leb_gt. lia.
  - intros H [Hf|Hf]; f_equal; apply andb_true_iff; split; apply Z.leb_le; lia.
  - eexists; eexists. split; [reflexivity|]. split; [reflexivity|].
    rewrite !andb_true_iff, !Z.leb_le. lia.
Qed.

End PropiedadesConsultas.

Section PropiedadesCalendario.
Import Generadores Persistencia Consultas.
Local Open Scope list_scope.
Local Open Scope Z_scope.

Lemma tareas_del_dia_anotar (d k : Z) (t : Tarea.t) (g : por_dia) :
  tareas_del_dia d (anotar_dia k t g)
  = if k =? d then tareas_del_dia d g ++ [t] else tareas_del_dia d g.
Proof.
  induction g as [|[c l] r IH]; cbn [anotar_dia tareas_del_dia].
  - destruct (k =? d); reflexivity.
  - destruct (Z.eqb_spec c k) as [->|Hck]; cbn [tareas_del_dia].
    + destruct (k =? d); reflexivity.
    + destruct (Z.eqb_spec c d) as [->|Hcd].
      * destruct (Z.eqb_spec k d); [congruence|reflexivity].
      * exact IH.
Qed.

Lemma tareas_del_dia_agrupar (d : Z) (tm : list Tarea.t) (g : por_dia) :
  tareas_del_dia d
    (fold_left (fun g tarea => anotar_dia (dia_de tarea) tarea g) tm g)
  = tareas_del_dia d g ++ filter (fun t => dia_de t =? d) tm.
Proof.
  revert g. induction tm as [|t r IH]; intros g; cbn [fold_left filter].
  - rewrite app_nil_r. reflexivity.
  - rewrite IH, tareas_del_dia_anotar.
    destruct (dia_de t =? d); [rewrite <- app_assoc|]; reflexivity.
Qed.

Lemma claves_anotar (k : Z) (t : Tarea.t) (g : por_dia) :
  (forall d, In d (map fst (anotar_dia k t g)) <-> d = k \/ In d (map fst g)) /\
  (NoDup (map fst g) -> NoDup (map fst (anotar_dia k t g))).
Proof.
  induction g as [|[c l] r [IHin IHnd]]; cbn [anotar_dia map fst].
  - split.
    + intros d. cbn [In]. intuition.
    + intros _. constructor; [intros []|constructor].
  - destruct (Z.eqb_spec c k) as [->|Hck]; cbn [map fst].
    + split; [|exact (fun H => H)]. intros d. cbn [In]. intuition.
    + split.
      * intros d. cbn [In]. rewrite IHin. intuition.
      * intros H. inversion H as [|? ? Hc Hr]; subst. constructor; [|auto].
        rewrite IHin. intros [E|E]; [congruence|exact (Hc E)].
Qed.

Lemma claves_agrupar (tm : list Tarea.t) (g : por_dia) :
  (forall d,
     In d (map fst (fold_left (fun g tarea => anotar_dia (dia_de tarea) tarea g) tm g))
     <-> In d (map fst g) \/ exists t, In t tm /\ dia_de t = d) /\
  (NoDup (map fst g) ->
   NoDup (map fst (fold_left (fun g tarea => anotar_dia (dia_de tarea) tarea g) tm g))).
Proof.
  revert g. induction tm as [|t r IH]; intros g; cbn [fold_left].
  - split; [|exact (fun H => H)]. intros d. split; [auto|].
    intros [H|(t & [] & _)]. exact H.
  - destruct (IH (anotar_dia (dia_de t) t g)) as [IHin IHnd].
    destruct (claves_anotar (dia_de t) t g) as [Ain And]. split.
    + intros d. rewrite IHin, Ain. split.
      * intros [[E|H]|(x & Hx & E)]; [right; exists t|left|right; exists x].
        -- split; [left; reflexivity|congruence].
        -- exact H.
        -- split; [right; exact Hx|exact E].
      * intros [H|(x & [<-|Hx] & E)]; [left; right; exact H|left; left; congruence|].
        right. exists x. split; assumption.
    + intros H. apply IHnd, And, H.
Qed.

Lemma In_insertar (x y : Z) (l : list Z) :
  In y (insertar x l) <-> y = x \/ In y l.
Proof.
  induction l as [|z r IH]; cbn [insertar].
  - cbn [In]. intuition.
  - destruct (x <=? z); cbn [In]; [intuition|]. rewrite IH. intuition.
Qed.

Lemma In_sorted (y : Z) (l : list Z) : In y (sorted l) <-> In y l.
Proof.
  induction l as [|x r IH]; cbn [sorted fold_right]; [reflexivity|].
  fold (sorted r). rewrite In_insertar, IH. cbn [In]. intuition.
Qed.

Lemma insertar_creciente (x : Z) (l : list Z) :
  StronglySorted Z.lt l -> ~ In x l -> StronglySorted Z.lt (insertar x l).
Proof.
  induction l as [|y r IH]; intros Hs Hx; cbn [insertar].
  - constructor; constructor.
  - inversion Hs as [|? ? Hr Hy]; subst.
    destruct (Z.leb_spec x y) as [Hle|Hgt].
    + assert (Hlt : x < y) by (assert (y <> x) by (intros ->; apply Hx; left; reflexivity); lia).
      constructor; [exact Hs|]. constructor; [exact Hlt|].
      rewrite Forall_forall in *. intros z Hz. specialize (Hy z Hz). lia.
    + constructor.
      * apply IH; [exact Hr|]. intros H. apply Hx. right. exact H.
      * rewrite Forall_forall in *. intros z Hz. apply In_insertar in Hz.
        destruct Hz as [->|Hz]; [lia|auto].
Qed.

Lemma sorted_creciente (l : list Z) :
  NoDup l -> StronglySorted Z.lt (sorted l).
Proof.
  induction 1 as [|x r Hx Hr IH]; cbn [sorted fold_right]; [constructor|].
  fold (sorted r). apply insertar_creciente; [exact IH|].
  rewrite In_sorted. exact Hx.
Qed.

Lemma filter_filter (A : Type) (p q : A -> bool) (l : list A) :
  filter p (filter q l) = filter (fun x => q x && p x) l.
Proof.
  induction l as [|x r IH]; cbn [filter]; [reflexivity|].
  destruct (q x); cbn [filter andb]; rewrite IH; reflexivity.
Qed.

(** X9.  When every task has a due date the calendar generator runs to
    the end.  Its entries come by strictly increasing day, so no day comes
    twice; the tasks of an entry are the tasks due that day of that month,
    in their original order, and there is at least one; [total_tareas] is
    their number; and every task due in the month is in the entry of its
    day. *)
Theorem X9_calendario_del_mes (ts : list Tarea.t) (año mes : Z) :
  (forall t, In t ts -> Tarea.fecha_limite t <> None) ->
  exists dias,
    generador_fechas_limite_calendario ts año mes = Retorna dias /\
    StronglySorted Z.lt (map dc_dia dias) /\
    Forall
      (fun r =>
         dc_tareas r = filter (vence_el año mes (dc_dia r)) ts /\
         dc_tareas r <> [] /\
         dc_total_tareas r = length (dc_tareas r) /\
         dc_fecha r = (año, mes, dc_dia r))
      dias /\
    (forall t, In t ts -> forall f, Tarea.fecha_limite t = Some f ->
       Persistencia.año f = año -> Persistencia.mes f = mes ->
       exists r, In r dias /\ dc_dia r = Persistencia.dia f /\ In t (dc_tareas r)).
Proof.
  intros Hf.
  set (q := fun t => match Tarea.fecha_limite t with
                     | Some f => (Persistencia.año f =? año) && (Persistencia.mes f =? mes)
                     | None => false end).
  assert (Eq : filtrar_o_lanzar (es_del_mes año mes) ts = Retorna (filter q ts)).
  { apply filtrar_o_lanzar_retorna. intros t Ht. specialize (Hf t Ht).
    unfold es_del_mes, fecha_de, q. destruct (Tarea.fecha_limite t); congruence. }
  assert (Et : forall d,
            tareas_del_dia d (agrupar_por_dia (filter q ts))
            = filter (vence_el año mes d) ts).
  { intros d. unfold agrupar_por_dia. rewrite tareas_del_dia_agrupar.
    cbn [tareas_del_dia app]. rewrite filter_filter. apply filter_ext.
    intros t. unfold q, vence_el, dia_de.
    destruct (Tarea.fecha_limite t); reflexivity. }
  destruct (claves_agrupar (filter q ts) []) as [Cin Cnd].
  fold (agrupar_por_dia (filter q ts)) in Cin, Cnd.
  assert (Hmap : forall l,
            map dc_dia
              (map (fun dia =>
                      {| dc_fecha := (año, mes, dia);
                         dc_dia := dia;
                         dc_tareas := tareas_del_dia dia (agrupar_por_dia (filter q ts));
                         dc_total_tareas :=
                           length (tareas_del_dia dia (agrupar_por_dia (filter q ts)));
                         dc_resumen :=
                           resumen_de
                             (length (tareas_del_dia dia (agrupar_por_dia (filter q ts)))) |})
                   l) = l).
  { intros l. rewrite map_map. cbn [dc_dia]. apply map_id. }
  unfold generador_fechas_limite_calendario. rewrite Eq.
  eexists. split; [reflexivity|]. cbv zeta. split; [|split].
  - rewrite Hmap. apply sorted_creciente, Cnd. constructor.
  - apply Forall_forall. intros r Hr. apply in_map_iff in Hr.
    destruct Hr as (d & <- & Hd).
    cbn [dc_tareas dc_dia dc_total_tareas dc_fecha].
    split; [apply Et|]. split; [|split; reflexivity].
    apply In_sorted, Cin in Hd. destruct Hd as [[]|(t & Ht & E)].
    rewrite Et. apply filter_In in Ht. destruct Ht as [Hin Hq].
    intros Hnil.
    assert (Hx : In t (filter (vence_el año mes d) ts)).
    { apply filter_In. split; [exact Hin|].
      unfold q in Hq. unfold vence_el. unfold dia_de in E.
      destruct (Tarea.fecha_limite t) as [f|]; [|discriminate].
      rewrite Hq. cbn [andb]. apply Z.eqb_eq. exact E. }
    rewrite Hnil in Hx. destruct Hx.
  - intros t Hin f Ef Ha Hm.
    assert (Hq : q t = true).
    { unfold q. rewrite Ef. apply andb_true_iff. split; apply Z.eqb_eq; assumption. }
    assert (Hk : In (Persistencia.dia f) (sorted (map fst (agrupar_por_dia (filter q ts))))).
    { apply In_sorted, Cin. right. exists t. split.
      - apply filter_In. split; assumption.
      - unfold dia_de. rewrite Ef. reflexivity. }
    eexists. split; [apply in_map; exact Hk|]. cbn [dc_dia dc_tareas].
    split; [reflexivity|]. rewrite Et. apply filter_In. split; [exact Hin|].
    unfold vence_el. rewrite Ef. unfold q in Hq. rewrite Ef in Hq. rewrite Hq.
    cbn [andb]. apply Z.eqb_refl.
Qed.

End PropiedadesCalendario.

Section PropiedadesGeneradorInfinito.
Import Consultas.
Local Open Scope list_scope.

Lemma leer_ceros (k : nat) (s : string) :
  leer_decimal (ceros k ++ s) = leer_decimal s.
Proof.
  induction k as [|k IH]; [reflexivity|].
  unfold leer_decimal in *. cbn [ceros append NilEmpty.uint_of_string].
  rewrite <- IH.
  destruct (NilEmpty.uint_of_string (ceros k ++ s)) as [d|]; reflexivity.
Qed.

Lemma leer_formato_06d (n : nat) : leer_decimal (formato_06d n) = Some n.
Proof.
  unfold formato_06d. cbv zeta. rewrite leer_ceros.
  unfold leer_decimal, str_de_nat.
  assert (E : NilZero.string_of_uint (Nat.to_uint n)
              = NilEmpty.string_of_uint (Nat.to_uint n)).
  { assert (H : Nat.to_uint n <> Decimal.Nil).
    { rewrite <- (Unsigned.of_to n) at 1. rewrite Unsigned.to_of.
      apply DecimalFacts.unorm_nonnil. }
    destruct (Nat.to_uint n); [congruence|reflexivity..]. }
  rewrite E, NilEmpty.usu, Unsigned.of_to. reflexivity.
Qed.

Lemma formato_06d_inj (n m : nat) : formato_06d n = formato_06d m -> n = m.
Proof.
  intros E. pose proof (leer_formato_06d n) as H. rewrite E, leer_formato_06d in H.
  congruence.
Qed.

Lemma append_inj (p a b : string) : (p ++ a = p ++ b)%string -> a = b.
Proof.
  induction p as [|c p IH]; cbn [append]; intros E; [exact E|].
  injection E as E. exact (IH E).
Qed.

Lemma primeros_ids_nth (n : nat) (g : GeneradorInfinito) (k : nat) (id : string) :
  nth_error (primeros_ids n g) k = Some id ->
  k < n /\ id = (prefijo g ++ "_" ++ formato_06d (contador g + k + 1))%string.
Proof.
  revert g k. induction n as [|n IH]; intros g k; cbn [primeros_ids].
  - destruct k; discriminate.
  - destruct k as [|k]; cbn [nth_error].
    + intros E. injection E as <-. split; [lia|].
      cbn [siguiente_id fst]. rewrite Nat.add_0_r. reflexivity.
    + intros E. apply IH in E. cbn [siguiente_id snd prefijo contador] in E.
      destruct E as [Hk ->]. split; [lia|].
      replace (contador g + 1 + k + 1) with (contador g + S k + 1) by lia.
      reflexivity.
Qed.

(** X10.  The identifiers of a [GeneradorInfinito] never repeat: the first
    [n] identifiers of a generator, from any state, are [n] different
    strings; the one at place [k] is the prefix, an underscore and the
    decimal digits of [contador + k + 1], which read back as that number
    (the six-digit width pads and never cuts). *)
Theorem X10_ids_sin_repetir (n : nat) (g : GeneradorInfinito) :
  length (primeros_ids n g) = n /\
  NoDup (primeros_ids n g) /\
  (forall k id, nth_error (primeros_ids n g) k = Some id ->
     exists digitos,
       id = (prefijo g ++ "_" ++ digitos)%string /\
       digitos = formato_06d (contador g + k + 1) /\
       leer_decimal digitos = Some (contador g + k + 1)).
Proof.
  split; [|split].
  - revert g. induction n as [|n IH]; intros g; cbn [primeros_ids length];
      [reflexivity|]. rewrite IH. reflexivity.
  - apply NoDup_nth_error. intros i j Hi E.
    destruct (nth_error (primeros_ids n g) i) as [a|] eqn:Ea;
      [|apply nth_error_None in Ea; lia].
    symmetry in E.
    destruct (primeros_ids_nth _ _ _ Ea) as [_ Ha].
    destruct (primeros_ids_nth _ _ _ E) as [_ Hb].
    rewrite Ha in Hb. apply append_inj in Hb. apply (append_inj "_") in Hb.
    apply formato_06d_inj in Hb. lia.
  - intros k id E. destruct (primeros_ids_nth _ _ _ E) as [_ ->].
    eexists. split; [reflexivity|]. split; [reflexivity|].
    apply leer_formato_06d.
Qed.

End PropiedadesGeneradorInfinito.

Section PropiedadesUsuario.
Import Usuario.
Local Open Scope list_scope.
Variable solo_blancos : string -> bool.

Lemma esta_en_In (x : string) (l : list string) :
  esta_en x l = true <-> In x l.
Proof.
  unfold esta_en. rewrite existsb_exists. split.
  - intros (y & Hy & E). apply String.eqb_eq in E. subst. exact Hy.
  - intros H. exists x. split; [exact H|apply String.eqb_refl].
Qed.

Lemma list_remove_spec (x : string) (l : list string) :
  (In x l ->
   exists a b, l = a ++ x :: b /\ ~ In x a /\ list_remove x l = Retorna (a ++ b)) /\
  (~ In x l -> list_remove x l = Lanza ValueError).
Proof.
  induction l as [|y r [IHin IHout]]; cbn [list_remove].
  - split; [intros []|reflexivity].
  - destruct (String.eqb_spec y x) as [->|Hyx]; split.
    + intros _. exists [], r. split; [reflexivity|]. split; [intros []|reflexivity].
    + intros H. exfalso. apply H. left. reflexivity.
    + intros [E|H]; [congruence|]. destruct (IHin H) as (a & b & -> & Ha & ->).
      exists (y :: a), b. split; [reflexivity|]. split; [|reflexivity].
      intros [E|E]; [congruence|exact (Ha E)].
    + intros H. rewrite IHout; [reflexivity|].
      intros Hr. apply H. right. exact Hr.
Qed.

(** When [agregar_tarea] returns [True] and when [False]. *)
Lemma agregar_tarea_resultado (u : Usuario.t) (tarea_id : string) :
  (fst (agregar_tarea solo_blancos u tarea_id) = Retorna true <->
   tarea_id <> ""%string /\ solo_blancos tarea_id = false /\
   ~ In tarea_id (tareas_asignadas u)) /\
  (fst (agregar_tarea solo_blancos u tarea_id) = Retorna false <->
   tarea_id <> ""%string /\ solo_blancos tarea_id = false /\
   In tarea_id (tareas_asignadas u)).
Proof.
  unfold agregar_tarea.
  destruct (String.eqb_spec tarea_id "") as [E|E]; cbn [orb fst].
  - split; (split; [discriminate|intros [H _]; congruence]).
  - destruct (solo_blancos tarea_id); cbn [fst].
    + split; (split; [discriminate|intros (_ & H & _); discriminate H]).
    + destruct (esta_en tarea_id (tareas_asignadas u)) eqn:Ein; cbn [negb fst].
      * apply esta_en_In in Ein. split.
        -- split; [discriminate|intros (_ & _ & H); contradiction].
        -- split; [intros _; auto|reflexivity].
      * assert (Hout : ~ In tarea_id (tareas_asignadas u)).
        { intros H. apply esta_en_In in H. congruence. }
        split.
        -- split; [intros _; auto|reflexivity].
        -- split; [discriminate|intros (_ & _ & H); contradiction].
Qed.

Lemma tareas_asignadas_invariante (u : Usuario.t) (tarea_id : string) :
  NoDup (tareas_asignadas u) ->
  NoDup (tareas_asignadas (snd (agregar_tarea solo_blancos u tarea_id))) /\
  NoDup (tareas_asignadas (snd (remover_tarea u tarea_id))) /\
  (fst (agregar_tarea solo_blancos u tarea_id) = Lanza ValueError <->
   tarea_id = ""%string \/ solo_blancos tarea_id = true) /\
  (fst (agregar_tarea solo_blancos u tarea_id) = Retorna true ->
   tareas_asignadas (snd (agregar_tarea solo_blancos u tarea_id))
   = tareas_asignadas u ++ [tarea_id]) /\
  (fst (agregar_tarea solo_blancos u tarea_id) <> Retorna true ->
   snd (agregar_tarea solo_blancos u tarea_id) = u) /\
  (fst (remover_tarea u tarea_id) = true <-> In tarea_id (tareas_asignadas u)) /\
  ~ In tarea_id (tareas_asignadas (snd (remover_tarea u tarea_id))) /\
  (forall x, x <> tarea_id ->
     (In x (tareas_asignadas (snd (remover_tarea u tarea_id)))
      <-> In x (tareas_asignadas u))) /\
  (fst (remover_tarea u tarea_id) = false -> snd (remover_tarea u tarea_id) = u).
Proof.
  intros Hnd.
  assert (Hag : NoDup (tareas_asignadas (snd (agregar_tarea solo_blancos u tarea_id))) /\
                (fst (agregar_tarea solo_blancos u tarea_id) = Lanza ValueError <->
                 tarea_id = ""%string \/ solo_blancos tarea_id = true) /\
                (fst (agregar_tarea solo_blancos u tarea_id) = Retorna true ->
                 tareas_asignadas (snd (agregar_tarea solo_blancos u tarea_id))
                 = tareas_asignadas u ++ [tarea_id]) /\
                (fst (agregar_tarea solo_blancos u tarea_id) <> Retorna true ->
                 snd (agregar_tarea solo_blancos u tarea_id) = u)).
  { unfold agregar_tarea.
    destruct (String.eqb_spec tarea_id "") as [E|E]; cbn [orb].
    - cbn [fst snd]. repeat split; auto; discriminate.
    - destruct (solo_blancos tarea_id) eqn:Eb; cbn [fst snd].
      + repeat split; auto; discriminate.
      + destruct (esta_en tarea_id (tareas_asignadas u)) eqn:Ein; cbn [negb fst snd].
        * repeat split; auto; try discriminate. intros [H|H]; congruence.
        * cbn [con_tareas tareas_asignadas]. split; [|split; [|split]].
          -- apply NoDup_app; [exact Hnd|constructor; [intros []|constructor]|].
             intros x Hx [<-|[]]. apply esta_en_In in Hx. congruence.
          -- split; [discriminate|intros [H|H]; congruence].
          -- reflexivity.
          -- intros H. exfalso. apply H. reflexivity. }
  destruct Hag as (A1 & A2 & A3 & A4).
  assert (Hre : NoDup (tareas_asignadas (snd (remover_tarea u tarea_id))) /\
                (fst (remover_tarea u tarea_id) = true <-> In tarea_id (tareas_asignadas u)) /\
                ~ In tarea_id (tareas_asignadas (snd (remover_tarea u tarea_id))) /\
                (forall x, x <> tarea_id ->
                   (In x (tareas_asignadas (snd (remover_tarea u tarea_id)))
                    <-> In x (tareas_asignadas u))) /\
                (fst (remover_tarea u tarea_id) = false ->
                 snd (remover_tarea u tarea_id) = u)).
  { unfold remover_tarea.
    destruct (list_remove_spec tarea_id (tareas_asignadas u)) as [Sin Sout].
    destruct (in_dec string_dec tarea_id (tareas_asignadas u)) as [Hin|Hout].
    - destruct (Sin Hin) as (a & b & E & Ha & ->). cbn [fst snd con_tareas tareas_asignadas].
      rewrite E in Hnd. apply NoDup_remove in Hnd. destruct Hnd as [Hnd Hx].
      split; [exact Hnd|]. split; [split; auto|]. split; [exact Hx|].
      split; [|discriminate].
      intros x Hne. rewrite E, !in_app_iff. cbn [In]. intuition congruence.
    - rewrite (Sout Hout). cbn [fst snd].
      split; [exact Hnd|]. split; [split; [discriminate|intros H; exfalso; exact (Hout H)]|].
      split; [exact Hout|]. split; [reflexivity|reflexivity]. }
  destruct Hre as (R1 & R2 & R3 & R4 & R5).
  repeat split; try assumption; try apply A2; try apply R2; try apply R4; auto.
Qed.

(** X11.  The list of assigned tasks of a user stays free of repetitions
    under [agregar_tarea] and [remover_tarea].  [agregar_tarea] raises
    [ValueError] exactly on an empty or blank id and leaves the user as it
    was; otherwise it returns [False], without a change, exactly when the
    id is already assigned, and returns [True] exactly when it is not, the
    id being then appended at the end.  [remover_tarea] returns [True]
    exactly when the id is assigned and then takes out its first
    occurrence, keeping the others in their order; else it returns [False]
    without a change. *)
Theorem X11_tareas_asignadas_sin_repetir (u : Usuario.t) (tarea_id : string) :
  NoDup (tareas_asignadas u) ->
  NoDup (tareas_asignadas (snd (agregar_tarea solo_blancos u tarea_id))) /\
  NoDup (tareas_asignadas (snd (remover_tarea u tarea_id))) /\
  (fst (agregar_tarea solo_blancos u tarea_id) = Lanza ValueError <->
   tarea_id = ""%string \/ solo_blancos tarea_id = true) /\
  (fst (agregar_tarea solo_blancos u tarea_id) = Retorna true ->
   tareas_asignadas (snd (agregar_tarea solo_blancos u tarea_id))
   = tareas_asignadas u ++ [tarea_id]) /\
  (fst (agregar_tarea solo_blancos u tarea_id) <> Retorna true ->
   snd (agregar_tarea solo_blancos u tarea_id) = u) /\
  (fst (remover_tarea u tarea_id) = true <-> In tarea_id (tareas_asignadas u)) /\
  ~ In tarea_id (tareas_asignadas (snd (remover_tarea u tarea_id))) /\
  (forall x, x <> tarea_id ->
     (In x (tareas_asignadas (snd (remover_tarea u tarea_id)))
      <-> In x (tareas_asignadas u))) /\
  (fst (remover_tarea u tarea_id) = false -> snd (remover_tarea u tarea_id) = u) /\
  (fst (agregar_tarea solo_blancos u tarea_id) = Retorna true <->
   tarea_id <> ""%string /\ solo_blancos tarea_id = false /\
   ~ In tarea_id (tareas_asignadas u)) /\
  (fst (agregar_tarea solo_blancos u tarea_id) = Retorna false <->
   tarea_id <> ""%string /\ solo_blancos tarea_id = false /\
   In tarea_id (tareas_asignadas u)) /\
  (tarea_id <> ""%string -> solo_blancos tarea_id = false ->
   ~ In tarea_id (tareas_asignadas u) ->
   agregar_tarea solo_blancos u tarea_id
   = (Retorna true, con_tareas u (tareas_asignadas u ++ [tarea_id]))) /\
  (In tarea_id (tareas_asignadas u) ->
   exists antes despues,
     tareas_asignadas u = antes ++ tarea_id :: despues /\
     ~ In tarea_id antes /\
     remover_tarea u tarea_id = (true, con_tareas u (antes ++ despues))).
Proof.
  intros Hnd.
  destruct (@tareas_asignadas_invariante u tarea_id Hnd)
    as (H1 & H2 & H3 & H4 & H5 & H6 & H7 & H8 & H9).
  destruct (agregar_tarea_resultado u tarea_id) as [T F].
  refine (conj H1 (conj H2 (conj H3 (conj H4 (conj H5 (conj H6 (conj H7
            (conj H8 (conj H9 (conj T (conj F (conj _ _)))))))))))).
  - intros Hne Hb Hout. unfold agregar_tarea.
    destruct (String.eqb_spec tarea_id ""); [congruence|]. rewrite Hb. cbn [orb].
    destruct (esta_en tarea_id (tareas_asignadas u)) eqn:Ein;
      [apply esta_en_In in Ein; contradiction|reflexivity].
  - intros Hin.
    destruct (proj1 (list_remove_spec tarea_id (tareas_asignadas u)) Hin)
      as (a & b & E & Ha & Hr).
    exists a, b. split; [exact E|]. split; [exact Ha|].
    unfold remover_tarea. rewrite Hr. reflexivity.
Qed.

(** X12.  Assigning a task that was not assigned and removing it again
    gives back the list of assigned tasks as it was, and both calls return
    [True]. *)
Theorem X12_agregar_y_remover (u : Usuario.t) (tarea_id : string) :
  tarea_id <> ""%string -> solo_blancos tarea_id = false ->
  ~ In tarea_id (tareas_asignadas u) ->
  fst (agregar_tarea solo_blancos u tarea_id) = Retorna true /\
  remover_tarea (snd (agregar_tarea solo_blancos u tarea_id)) tarea_id = (true, u).
Proof.
  intros Hne Hb Hout. unfold agregar_tarea.
  destruct (String.eqb_spec tarea_id ""); [congruence|]. rewrite Hb. cbn [orb].
  destruct (esta_en tarea_id (tareas_asignadas u)) eqn:Ein;
    [apply esta_en_In in Ein; contradiction|].
  cbn [negb fst snd]. split; [reflexivity|].
  unfold remover_tarea. cbn [con_tareas tareas_asignadas id nombre].
  assert (E : list_remove tarea_id (tareas_asignadas u ++ [tarea_id])
              = Retorna (tareas_asignadas u)).
  { revert Hout. generalize (tareas_asignadas u). intros l.
    induction l as [|y r IH]; intros Hout; cbn [app list_remove].
    - rewrite String.eqb_refl. reflexivity.
    - destruct (String.eqb_spec y tarea_id) as [->|_];
        [exfalso; apply Hout; left; reflexivity|].
      rewrite IH; [reflexivity|]. intros H. apply Hout. right. exact H. }
  rewrite E. destruct u; reflexivity.
Qed.

End PropiedadesUsuario.

Section MasPropiedadesPersistencia.
Import Persistencia.
Local Open Scope list_scope.

(** ** Writes, exactly *)

Lemma escribir_archivo_exacto ahora r texto fs c :
  carpeta_de fs (fst r) = Some c ->
  escribible fs r = true ->
  escribir_archivo ahora r texto fs =
  (Retorna tt,
   con_carpeta fs (fst r)
     {| entradas := poner_entrada (snd r)
                      (Archivo (archivo_escrito ahora fs r texto)) (entradas c);
        acepta_nuevos := acepta_nuevos c |}).
Proof.
  intros Hc Hw. unfold escribir_archivo, escribible, archivo_escrito, sobre_entrada in *.
  rewrite Hc in *. destruct (permisos_al_escribir fs r) as [[l m] d].
  destruct (buscar_entrada (snd r) (entradas c)) as [[v|t]|].
  - rewrite Hw. reflexivity.
  - discriminate.
  - rewrite Hw. reflexivity.
Qed.

Lemma escribir_archivo_segun_carpeta ahora r texto fs fs' :
  carpeta_de fs' (fst r) = carpeta_de fs (fst r) ->
  fst (escribir_archivo ahora r texto fs') = fst (escribir_archivo ahora r texto fs) /\
  carpeta_de (snd (escribir_archivo ahora r texto fs')) (fst r)
  = carpeta_de (snd (escribir_archivo ahora r texto fs)) (fst r).
Proof.
  intros H. unfold escribir_archivo.
  assert (Hp : permisos_al_escribir fs' r = permisos_al_escribir fs r).
  { unfold permisos_al_escribir. rewrite (buscar_segun_carpeta fs fs' r H). reflexivity. }
  rewrite Hp, H.
  destruct (carpeta_de fs (fst r)) as [c|] eqn:Ec;
    [|cbn [fst snd]; split; [reflexivity|congruence]].
  destruct (permisos_al_escribir fs r) as [[l m] d].
  match goal with
  | |- context [sobre_entrada c (snd r) ?a] =>
      destruct (sobre_entrada c (snd r) a) as [c'|e]
  end; cbn [fst snd].
  - split; [reflexivity|]. rewrite !carpeta_de_con_carpeta_eq. reflexivity.
  - split; [reflexivity|]. congruence.
Qed.

Lemma tras_respaldo_sin fs r dst cb :
  cb = false \/ buscar fs r = None -> tras_respaldo r dst cb fs = fs.
Proof.
  unfold tras_respaldo, os_path_exists. intros [-> | ->]; [reflexivity|].
  rewrite andb_false_r. reflexivity.
Qed.

(** What a save attempt leaves alone, whatever its outcome. *)
Lemma intento_guardar_resto ahora r dst cb salida fs :
  fst r <> fst dst ->
  (forall z, z <> fst r -> z <> fst dst ->
     carpeta_de (snd (intento_guardar ahora r dst cb salida fs)) z = carpeta_de fs z) /\
  (forall n, n <> snd r ->
     buscar (snd (intento_guardar ahora r dst cb salida fs)) (fst r, n)
     = buscar fs (fst r, n)) /\
  (cb = false \/ buscar fs r = None ->
   carpeta_de (snd (intento_guardar ahora r dst cb salida fs)) (fst dst)
   = carpeta_de fs (fst dst)).
Proof.
  intros Hr.
  destruct (tras_respaldo_spec r dst cb fs) as (Hf & _).
  split; [|split].
  - intros z Hz Hz'. rewrite intento_guardar_marco by assumption. apply Hf, Hz'.
  - intros n Hn.
    destruct (intento_guardar_spec ahora r dst cb salida fs Hr) as [Hno Hsi].
    destruct (escribible fs r) eqn:Ew.
    + destruct (Hsi eq_refl) as (fs2 & E & _ & H2 & _). rewrite E. exact (H2 n Hn).
    + destruct (Hno eq_refl) as (e & _ & E). rewrite E. cbn [snd].
      apply (buscar_segun_carpeta fs _ (fst r, n)). cbn [fst]. apply Hf, Hr.
  - intros Hsin. rewrite intento_guardar_marco by (auto; congruence).
    rewrite (@tras_respaldo_sin fs r dst cb Hsin). reflexivity.
Qed.

(** X13.  A save leaves the other files alone, whatever its outcome: a JSON
    save never changes the binary directory nor any other file of the JSON
    directory, a binary save never changes the JSON directory nor any other
    file of the binary directory, and neither touches the directory of the
    backups when it is called without backup or when the file does not
    exist yet. *)
Theorem X13_guardar_no_toca_lo_demas (B : codecs) (ahora : fecha_hora)
    (nombre : string) (datos : valor) (protocolo : Z) (cb : bool) (fs : sistema) :
  carpeta_de (snd (json_guardar_datos B ahora nombre datos cb fs)) ZBinarios
    = carpeta_de fs ZBinarios /\
  (forall n, n <> snd (obtener_ruta_json nombre) ->
     buscar (snd (json_guardar_datos B ahora nombre datos cb fs)) (ZJson, n)
     = buscar fs (ZJson, n)) /\
  (cb = false \/ buscar fs (obtener_ruta_json nombre) = None ->
   carpeta_de (snd (json_guardar_datos B ahora nombre datos cb fs)) ZBackups
   = carpeta_de fs ZBackups) /\
  carpeta_de (snd (binario_guardar_datos B ahora nombre datos protocolo cb fs)) ZJson
    = carpeta_de fs ZJson /\
  (forall n, n <> snd (obtener_ruta_binario nombre) ->
     buscar (snd (binario_guardar_datos B ahora nombre datos protocolo cb fs))
            (ZBinarios, n)
     = buscar fs (ZBinarios, n)) /\
  (cb = false \/ buscar fs (obtener_ruta_binario nombre) = None ->
   carpeta_de (snd (binario_guardar_datos B ahora nombre datos protocolo cb fs)) ZBackups
   = carpeta_de fs ZBackups).
Proof.
  rewrite snd_json_guardar_datos, snd_binario_guardar_datos.
  destruct (@intento_guardar_resto ahora (obtener_ruta_json nombre)
              (obtener_ruta_backup ahora (nombre ++ ".json")%string) cb
              (json_dump B (_preparar_datos_para_json datos)) fs
              (@json_no_es_backups _ _ _)) as (J1 & J2 & J3).
  destruct (@intento_guardar_resto ahora (obtener_ruta_binario nombre)
              (obtener_ruta_backup ahora (nombre ++ ".pkl")%string) cb
              (pickle_dump B protocolo datos) fs
              (@binario_no_es_backups _ _ _)) as (B1 & B2 & B3).
  split; [apply J1; discriminate|]. split; [exact J2|]. split; [exact J3|].
  split; [apply B1; discriminate|]. split; [exact B2|exact B3].
Qed.

Lemma intento_guardar_sin_respaldo ahora r dst cb salida fs :
  fst r <> fst dst ->
  fst (intento_guardar ahora r dst cb salida fs)
  = fst (intento_guardar ahora r dst false salida fs) /\
  carpeta_de (snd (intento_guardar ahora r dst cb salida fs)) (fst r)
  = carpeta_de (snd (intento_guardar ahora r dst false salida fs)) (fst r).
Proof.
  intros Hr. rewrite !intento_guardar_eq.
  destruct (tras_respaldo_spec r dst cb fs) as (Hf & _).
  assert (E : tras_respaldo r dst false fs = fs) by reflexivity.
  rewrite E.
  destruct (@escribir_archivo_segun_carpeta ahora r (fst salida) fs
              (tras_respaldo r dst cb fs) (Hf _ Hr)) as [H1 H2].
  destruct (escribir_archivo ahora r (fst salida) (tras_respaldo r dst cb fs))
    as [[u|e] fa];
  destruct (escribir_archivo ahora r (fst salida) fs) as [[u'|e'] fb];
    cbn [fst snd] in *; try discriminate.
  - split; [reflexivity|exact H2].
  - injection H1 as ->. split; [reflexivity|exact H2].
Qed.

Lemma fst_capturar (A : Type) (m1 m2 : M A) (h : excepcion -> option (M A))
    (fs : sistema) :
  (forall e k, h e = Some k -> forall s s', fst (k s) = fst (k s')) ->
  fst (m1 fs) = fst (m2 fs) ->
  fst (capturar m1 h fs) = fst (capturar m2 h fs).
Proof.
  intros Hh H. unfold capturar.
  destruct (m1 fs) as [[a|e] s1], (m2 fs) as [[a'|e'] s2]; cbn [fst] in H;
    try discriminate H.
  - exact H.
  - injection H as ->. destruct (h e') as [k|] eqn:Ek; [|reflexivity].
    apply (Hh _ _ Ek).
Qed.

(** X14.  Asking for a backup never changes what a save does to the data:
    with and without backup the save returns or raises the same, and
    leaves the same directory of the format; the two runs can differ only
    in the directory of the backups. *)
Theorem X14_respaldo_no_cambia_el_guardado (B : codecs) (ahora : fecha_hora)
    (nombre : string) (datos : valor) (protocolo : Z) (fs : sistema) :
  fst (json_guardar_datos B ahora nombre datos true fs)
    = fst (json_guardar_datos B ahora nombre datos false fs) /\
  (forall z, z <> ZBackups ->
     carpeta_de (snd (json_guardar_datos B ahora nombre datos true fs)) z
     = carpeta_de (snd (json_guardar_datos B ahora nombre datos false fs)) z) /\
  fst (binario_guardar_datos B ahora nombre datos protocolo true fs)
    = fst (binario_guardar_datos B ahora nombre datos protocolo false fs) /\
  (forall z, z <> ZBackups ->
     carpeta_de (snd (binario_guardar_datos B ahora nombre datos protocolo true fs)) z
     = carpeta_de (snd (binario_guardar_datos B ahora nombre datos protocolo false fs)) z).
Proof.
  destruct (@intento_guardar_sin_respaldo ahora (obtener_ruta_json nombre)
              (obtener_ruta_backup ahora (nombre ++ ".json")%string) true
              (json_dump B (_preparar_datos_para_json datos)) fs
              (@json_no_es_backups _ _ _)) as (J1 & J2).
  destruct (@intento_guardar_sin_respaldo ahora (obtener_ruta_binario nombre)
              (obtener_ruta_backup ahora (nombre ++ ".pkl")%string) true
              (pickle_dump B protocolo datos) fs
              (@binario_no_es_backups _ _ _)) as (B1 & B2).
  pose proof (X := fun cb => @intento_guardar_resto ahora (obtener_ruta_json nombre)
              (obtener_ruta_backup ahora (nombre ++ ".json")%string) cb
              (json_dump B (_preparar_datos_para_json datos)) fs
              (@json_no_es_backups _ _ _)).
  pose proof (Y := fun cb => @intento_guardar_resto ahora (obtener_ruta_binario nombre)
              (obtener_ruta_backup ahora (nombre ++ ".pkl")%string) cb
              (pickle_dump B protocolo datos) fs
              (@binario_no_es_backups _ _ _)).
  split; [|split; [|split]].
  - rewrite !json_guardar_datos_eq. apply fst_capturar; [|exact J1].
    intros e k Hk s s'. destruct (es_TypeError_o_ValueError e);
      [injection Hk as <-; reflexivity|].
    destruct (es_IOError e); [injection Hk as <-; reflexivity|discriminate].
  - intros z Hz. rewrite !snd_json_guardar_datos.
    destruct z; [exact J2| |congruence].
    rewrite (proj1 (X true)), (proj1 (X false)) by discriminate. reflexivity.
  - rewrite !binario_guardar_datos_eq. apply fst_capturar; [|exact B1].
    intros e k Hk s s'. destruct e; cbn in Hk; try discriminate Hk;
      injection Hk as <-; reflexivity.
  - intros z Hz. rewrite !snd_binario_guardar_datos.
    destruct z; [|exact B2|congruence].
    rewrite (proj1 (Y true)), (proj1 (Y false)) by discriminate. reflexivity.
Qed.

Lemma legible_archivo_escrito ahora fs r texto :
  (forall a, buscar fs r = Some (Archivo a) -> legible a = true) ->
  legible (archivo_escrito ahora fs r texto) = true.
Proof.
  intros H. unfold archivo_escrito, permisos_al_escribir.
  destruct (buscar fs r) as [[a|t]|]; cbn [legible]; auto.
Qed.

(** X15.  Round trip: when the file can be written and read and the dump
    ends without error, the save returns [True], the file holds the text
    of the dump, and a load that follows returns what the decoder makes of
    that text; in both formats, with or without backup. *)
Theorem X15_guardar_y_cargar (B : codecs) (ahora : fecha_hora) (nombre : string)
    (datos : valor) (protocolo : Z) (cb : bool) (fs : sistema) (texto : string) :
  (escribible fs (obtener_ruta_json nombre) = true ->
   (forall a, buscar fs (obtener_ruta_json nombre) = Some (Archivo a) ->
              legible a = true) ->
   json_dump B (_preparar_datos_para_json datos) = (texto, None) ->
   fst (json_guardar_datos B ahora nombre datos cb fs) = Retorna true /\
   leer_archivo (snd (json_guardar_datos B ahora nombre datos cb fs))
                (obtener_ruta_json nombre) = Retorna texto /\
   (forall d, json_load B texto = Retorna d ->
      json_cargar_datos B nombre (snd (json_guardar_datos B ahora nombre datos cb fs))
      = Retorna d)) /\
  (escribible fs (obtener_ruta_binario nombre) = true ->
   (forall a, buscar fs (obtener_ruta_binario nombre) = Some (Archivo a) ->
              legible a = true) ->
   pickle_dump B protocolo datos = (texto, None) ->
   fst (binario_guardar_datos B ahora nombre datos protocolo cb fs) = Retorna true /\
   leer_archivo (snd (binario_guardar_datos B ahora nombre datos protocolo cb fs))
                (obtener_ruta_binario nombre) = Retorna texto /\
   (forall d, pickle_load B texto = Retorna d ->
      binario_cargar_datos B nombre
        (snd (binario_guardar_datos B ahora nombre datos protocolo cb fs))
      = Retorna d)).
Proof.
  split.
  - intros Hw Hl Hd.
    destruct (intento_guardar_spec ahora (obtener_ruta_json nombre)
                (obtener_ruta_backup ahora (nombre ++ ".json")%string) cb
                (json_dump B (_preparar_datos_para_json datos)) fs
                (@json_no_es_backups _ _ _)) as [_ Hsi].
    destruct (Hsi Hw) as (fs2 & E & H1 & _).
    rewrite json_guardar_datos_eq. unfold capturar. rewrite E, Hd. cbn [fst snd].
    rewrite Hd in H1. cbn [fst] in H1.
    assert (Hleer : leer_archivo fs2 (obtener_ruta_json nombre) = Retorna texto).
    { unfold leer_archivo. rewrite H1, (legible_archivo_escrito _ _ _ _ Hl).
      rewrite (proj1 (contenido_archivo_escrito _ _ _ _)). reflexivity. }
    split; [reflexivity|]. split; [exact Hleer|].
    intros d Hd'. unfold json_cargar_datos. rewrite Hleer, Hd'. reflexivity.
  - intros Hw Hl Hd.
    destruct (intento_guardar_spec ahora (obtener_ruta_binario nombre)
                (obtener_ruta_backup ahora (nombre ++ ".pkl")%string) cb
                (pickle_dump B protocolo datos) fs
                (@binario_no_es_backups _ _ _)) as [_ Hsi].
    destruct (Hsi Hw) as (fs2 & E & H1 & _).
    rewrite binario_guardar_datos_eq. unfold capturar. rewrite E, Hd. cbn [fst snd].
    rewrite Hd in H1. cbn [fst] in H1.
    assert (Hleer : leer_archivo fs2 (obtener_ruta_binario nombre) = Retorna texto).
    { unfold leer_archivo. rewrite H1, (legible_archivo_escrito _ _ _ _ Hl).
      rewrite (proj1 (contenido_archivo_escrito _ _ _ _)). reflexivity. }
    split; [reflexivity|]. split; [exact Hleer|].
    intros d Hd'. unfold binario_cargar_datos. rewrite Hleer, Hd'. reflexivity.
Qed.

End MasPropiedadesPersistencia.

Section PropiedadesAlmacenamiento.
Import Persistencia.
Local Open Scope list_scope.

(** ** The number of backups *)

Lemma length_poner_entrada n e l :
  length (poner_entrada n e l)
  = match buscar_entrada n l with
    | Some _ => length l
    | None => S (length l)
    end.
Proof.
  induction l as [|[m x] r IH]; cbn [poner_entrada buscar_entrada length];
    [reflexivity|].
  destruct (String.eqb m n); cbn [length]; [reflexivity|].
  rewrite IH. destruct (buscar_entrada n r); reflexivity.
Qed.

Lemma map_fst_poner_entrada n e l :
  map fst (poner_entrada n e l)
  = match buscar_entrada n l with
    | Some _ => map fst l
    | None => map fst l ++ [n]
    end.
Proof.
  induction l as [|[m x] r IH]; cbn [poner_entrada buscar_entrada map fst app];
    [reflexivity|].
  destruct (String.eqb m n); cbn [map fst]; [reflexivity|].
  rewrite IH. destruct (buscar_entrada n r); reflexivity.
Qed.

Lemma backups_totales_eq fs :
  backups_totales (obtener_estadisticas_almacenamiento fs)
  = length (entradas_de fs ZBackups).
Proof.
  unfold obtener_estadisticas_almacenamiento, os_listdir, entradas_de.
  cbn [backups_totales].
  destruct (carpeta_de fs ZBackups); [apply length_map|reflexivity].
Qed.

Lemma respaldo_casos r dst fs :
  snd (respaldo r dst fs) = fs \/
  exists c a,
    carpeta_de fs (fst dst) = Some c /\
    snd (respaldo r dst fs)
    = con_carpeta fs (fst dst)
        {| entradas := poner_entrada (snd dst) (Archivo a) (entradas c);
           acepta_nuevos := acepta_nuevos c |}.
Proof.
  unfold respaldo, capturar, shutil_copy2, sobre_entrada.
  destruct (buscar fs r) as [[a|t]|]; cbn; auto.
  destruct (legible a); cbn; auto.
  destruct (carpeta_de fs (fst dst)) as [c|] eqn:Ec; cbn; auto.
  destruct (buscar_entrada (snd dst) (entradas c)) as [[v|t]|]; cbn; auto.
  - destruct (modificable v); cbn; [right; eauto|auto].
  - destruct (acepta_nuevos c) eqn:Ea; cbn; [|auto].
    right. exists c, a. rewrite Ea. auto.
Qed.

Lemma respaldo_exacto r dst fs c a :
  buscar fs r = Some (Archivo a) -> legible a = true ->
  carpeta_de fs (fst dst) = Some c -> escribible fs dst = true ->
  snd (respaldo r dst fs)
  = con_carpeta fs (fst dst)
      {| entradas := poner_entrada (snd dst) (Archivo a) (entradas c);
         acepta_nuevos := acepta_nuevos c |}.
Proof.
  intros Er Hl Ec Hw. unfold escribible in Hw. rewrite Ec in Hw.
  unfold respaldo, capturar, shutil_copy2, sobre_entrada.
  rewrite Er, Hl, Ec. cbn [negb].
  destruct (buscar_entrada (snd dst) (entradas c)) as [[v|t]|];
    [rewrite Hw; reflexivity|discriminate|rewrite Hw; reflexivity].
Qed.

Lemma intento_guardar_cuenta ahora r dst cb salida fs :
  fst r <> ZBackups -> fst dst = ZBackups ->
  (length (entradas_de fs ZBackups)
   <= length (entradas_de (snd (intento_guardar ahora r dst cb salida fs)) ZBackups)
   <= S (length (entradas_de fs ZBackups))) /\
  (forall a,
     cb = true -> buscar fs r = Some (Archivo a) -> legible a = true ->
     escribible fs dst = true ->
     length (entradas_de (snd (intento_guardar ahora r dst cb salida fs)) ZBackups)
     = if os_path_exists fs dst then length (entradas_de fs ZBackups)
       else S (length (entradas_de fs ZBackups))).
Proof.
  intros Hr Hd.
  assert (E : entradas_de (snd (intento_guardar ahora r dst cb salida fs)) ZBackups
              = entradas_de (tras_respaldo r dst cb fs) ZBackups).
  { unfold entradas_de. rewrite intento_guardar_marco by congruence. reflexivity. }
  rewrite E. clear E. unfold tras_respaldo. split.
  - destruct (cb && os_path_exists fs r); [|lia].
    destruct (respaldo_casos r dst fs) as [->|(c & a & Ec & ->)]; [lia|].
    rewrite Hd in *. unfold entradas_de.
    rewrite carpeta_de_con_carpeta_eq, Ec. cbn [entradas].
    rewrite length_poner_entrada. destruct (buscar_entrada (snd dst) (entradas c)); lia.
  - intros a -> Er Hl Hw. unfold os_path_exists at 1. rewrite Er. cbn [andb].
    assert (Hc : exists c, carpeta_de fs (fst dst) = Some c).
    { unfold escribible in Hw. destruct (carpeta_de fs (fst dst)) as [c|];
        [eauto|discriminate]. }
    destruct Hc as (c & Ec).
    rewrite (@respaldo_exacto r dst fs c a Er Hl Ec Hw).
    unfold os_path_exists, buscar, entradas_de. rewrite Hd in *.
    rewrite carpeta_de_con_carpeta_eq, Ec. cbn [entradas].
    rewrite length_poner_entrada.
    destruct (buscar_entrada (snd dst) (entradas c)); reflexivity.
Qed.

(** X16.  A save adds at most one entry to the directory of the backups
    and removes none.  When the file exists and can be read, and the name
    of the backup can be written, a save with backup adds exactly one
    backup if that name is free and none if it is taken, as it is when a
    backup of the same file was made during the same second: the older
    backup is then overwritten. *)
Theorem X16_cuenta_de_backups (B : codecs) (ahora : fecha_hora) (nombre : string)
    (datos : valor) (protocolo : Z) (cb : bool) (fs : sistema) :
  (backups_totales (obtener_estadisticas_almacenamiento fs)
   <= backups_totales (obtener_estadisticas_almacenamiento
                         (snd (json_guardar_datos B ahora nombre datos cb fs)))
   <= S (backups_totales (obtener_estadisticas_almacenamiento fs))) /\
  (forall a,
     cb = true ->
     buscar fs (obtener_ruta_json nombre) = Some (Archivo a) -> legible a = true ->
     escribible fs (obtener_ruta_backup ahora (nombre ++ ".json")%string) = true ->
     backups_totales (obtener_estadisticas_almacenamiento
                        (snd (json_guardar_datos B ahora nombre datos cb fs)))
     = if os_path_exists fs (obtener_ruta_backup ahora (nombre ++ ".json")%string)
       then backups_totales (obtener_estadisticas_almacenamiento fs)
       else S (backups_totales (obtener_estadisticas_almacenamiento fs))) /\
  (backups_totales (obtener_estadisticas_almacenamiento fs)
   <= backups_totales (obtener_estadisticas_almacenamiento
                         (snd (binario_guardar_datos B ahora nombre datos protocolo cb fs)))
   <= S (backups_totales (obtener_estadisticas_almacenamiento fs))) /\
  (forall a,
     cb = true ->
     buscar fs (obtener_ruta_binario nombre) = Some (Archivo a) -> legible a = true ->
     escribible fs (obtener_ruta_backup ahora (nombre ++ ".pkl")%string) = true ->
     backups_totales (obtener_estadisticas_almacenamiento
                        (snd (binario_guardar_datos B ahora nombre datos protocolo cb fs)))
     = if os_path_exists fs (obtener_ruta_backup ahora (nombre ++ ".pkl")%string)
       then backups_totales (obtener_estadisticas_almacenamiento fs)
       else S (backups_totales (obtener_estadisticas_almacenamiento fs))).
Proof.
  rewrite !backups_totales_eq, snd_json_guardar_datos, snd_binario_guardar_datos.
  destruct (@intento_guardar_cuenta ahora (obtener_ruta_json nombre)
              (obtener_ruta_backup ahora (nombre ++ ".json")%string) cb
              (json_dump B (_preparar_datos_para_json datos)) fs)
    as [J1 J2]; [discriminate|reflexivity|].
  destruct (@intento_guardar_cuenta ahora (obtener_ruta_binario nombre)
              (obtener_ruta_backup ahora (nombre ++ ".pkl")%string) cb
              (pickle_dump B protocolo datos) fs)
    as [B1 B2]; [discriminate|reflexivity|].
  split; [exact J1|]. split; [exact J2|]. split; [exact B1|exact B2].
Qed.

(** ** Pruning *)

Lemma calcular_fecha_limite_ok ahora dias :
  (Z.abs dias <= timedelta_max_dias)%Z ->
  (0 <= instante ahora - dias * microsegundos_por_dia < instante_tope)%Z ->
  calcular_fecha_limite ahora dias
  = Retorna (instante ahora - dias * microsegundos_por_dia)%Z.
Proof.
  intros Hd Hr. unfold calcular_fecha_limite.
  destruct (Z.gtb_spec (Z.abs dias) timedelta_max_dias) as [|_]; [lia|].
  cbv zeta.
  destruct (Z.leb_spec 0 (instante ahora - dias * microsegundos_por_dia)); [|lia].
  destruct (Z.ltb_spec (instante ahora - dias * microsegundos_por_dia) instante_tope);
    [|lia].
  reflexivity.
Qed.

Lemma limpiar_backups_todos ahora dias fs c :
  carpeta_de fs ZBackups = Some c ->
  NoDup (map fst (entradas c)) ->
  (Z.abs dias <= timedelta_max_dias)%Z ->
  (0 <= instante ahora - dias * microsegundos_por_dia < instante_tope)%Z ->
  (forall ne, In ne (entradas c) ->
     antigua (instante ahora - dias * microsegundos_por_dia) ne = true ->
     se_puede_eliminar ne = true) ->
  limpiar_backups_antiguos ahora dias fs =
  (Retorna (length (filter (antigua (instante ahora - dias * microsegundos_por_dia))
                      (entradas c))),
   con_carpeta fs ZBackups
     {| entradas := filter (fun ne => negb (antigua
                              (instante ahora - dias * microsegundos_por_dia) ne))
                      (entradas c);
        acepta_nuevos := acepta_nuevos c |}).
Proof.
  intros Hc Hnd Hd Hr Hok.
  assert (Hfs : fs = con_carpeta fs ZBackups
                       {| entradas := entradas c; acepta_nuevos := acepta_nuevos c |}).
  { symmetry. apply con_carpeta_misma. rewrite Hc. destruct c; reflexivity. }
  assert (Hlist : os_listdir fs ZBackups = Retorna (map fst (entradas c))).
  { unfold os_listdir. rewrite Hc. reflexivity. }
  unfold limpiar_backups_antiguos.
  unfold bind at 1, leer at 1. rewrite (@calcular_fecha_limite_ok ahora dias Hd Hr).
  unfold capturar, bind, leer. rewrite Hlist. rewrite Hfs at 1.
  pose proof (bucle_limpieza_prefijo
                (instante ahora - dias * microsegundos_por_dia)%Z
                (acepta_nuevos c) fs [] [] (entradas c) [] 0) as P.
  rewrite !app_nil_r in P. cbn [app] in P.
  fold bucle_limpieza. rewrite P by assumption. reflexivity.
Qed.

Lemma NoDup_map_fst_filter (p : string * entrada -> bool) l :
  NoDup (map fst l) -> NoDup (map fst (filter p l)).
Proof.
  induction l as [|x r IH]; cbn [filter map]; intros H; [exact H|].
  inversion H as [|? ? Hx Hr]; subst.
  destruct (p x); cbn [map]; [|auto]. constructor; [|auto].
  intros Hin. apply Hx. apply in_map_iff in Hin. destruct Hin as (y & Ey & Hy).
  apply filter_In in Hy. apply in_map_iff. exists y. tauto.
Qed.

Lemma filter_contrario (A : Type) (p : A -> bool) (l : list A) :
  filter p (filter (fun x => negb (p x)) l) = [] /\
  filter (fun x => negb (p x)) (filter (fun x => negb (p x)) l)
  = filter (fun x => negb (p x)) l.
Proof.
  induction l as [|x r [IH1 IH2]]; [split; reflexivity|].
  cbn [filter]. destruct (p x) eqn:E; cbn [negb filter]; [split; assumption|].
  rewrite E. cbn [negb]. rewrite IH1, IH2. split; reflexivity.
Qed.

(** X17.  Pruning is idempotent: after a pruning in which every removal
    was accepted, a second pruning with the same threshold and clock
    removes nothing, returns 0 and leaves the state as it is. *)
Theorem X17_limpieza_idempotente (ahora : fecha_hora) (dias : Z) (fs : sistema)
    (c : carpeta) :
  carpeta_de fs ZBackups = Some c ->
  NoDup (map fst (entradas c)) ->
  (Z.abs dias <= timedelta_max_dias)%Z ->
  (0 <= instante ahora - dias * microsegundos_por_dia < instante_tope)%Z ->
  (forall ne, In ne (entradas c) ->
     antigua (instante ahora - dias * microsegundos_por_dia) ne = true ->
     se_puede_eliminar ne = true) ->
  limpiar_backups_antiguos ahora dias (snd (limpiar_backups_antiguos ahora dias fs))
  = (Retorna 0, snd (limpiar_backups_antiguos ahora dias fs)).
Proof.
  intros Hc Hnd Hd Hr Hok.
  rewrite (@limpiar_backups_todos ahora dias fs c Hc Hnd Hd Hr Hok). cbn [snd].
  set (limite := (instante ahora - dias * microsegundos_por_dia)%Z) in *.
  set (c1 := {| entradas := filter (fun ne => negb (antigua limite ne)) (entradas c);
                acepta_nuevos := acepta_nuevos c |}).
  destruct (filter_contrario (antigua limite) (entradas c)) as [F1 F2].
  assert (Hc1 : carpeta_de (con_carpeta fs ZBackups c1) ZBackups = Some c1)
    by apply carpeta_de_con_carpeta_eq.
  rewrite (@limpiar_backups_todos ahora dias _ c1 Hc1).
  - fold limite. cbn [entradas acepta_nuevos c1]. rewrite F1, F2.
    rewrite con_carpeta_con_carpeta. reflexivity.
  - apply NoDup_map_fst_filter, Hnd.
  - exact Hd.
  - exact Hr.
  - fold limite. cbn [entradas c1]. intros ne Hin. apply filter_In in Hin.
    apply Hok, Hin.
Qed.

Lemma bucle_limpieza_cons limite n r cuenta fs :
  bucle_limpieza limite (n :: r) cuenta fs
  = if existe (obtener_info_archivo fs (ZBackups, n)) &&
       match fecha_modificacion (obtener_info_archivo fs (ZBackups, n)) with
       | Some t => (t <? limite)%Z
       | None => false
       end
    then match os_remove (ZBackups, n) fs with
         | (Retorna _, fs1) => bucle_limpieza limite r (cuenta + 1) fs1
         | (Lanza e, fs1) => (Lanza e, fs1)
         end
    else bucle_limpieza limite r cuenta fs.
Proof.
  cbn [bucle_limpieza]. unfold bind at 1, leer at 1.
  match goal with
  | |- context [if ?b then _ else _] => destruct b
  end; reflexivity.
Qed.

Lemma incl_quitar_entrada n l : incl (quitar_entrada n l) l.
Proof.
  induction l as [|[m x] r IH]; cbn [quitar_entrada]; [apply incl_refl|].
  destruct (String.eqb m n); [apply incl_tl, incl_refl|].
  intros y [<-|Hy]; [left; reflexivity|right; apply IH, Hy].
Qed.

Lemma os_remove_marco n fs :
  (forall z, z <> ZBackups ->
     carpeta_de (snd (os_remove (ZBackups, n) fs)) z = carpeta_de fs z) /\
  incl (entradas_de (snd (os_remove (ZBackups, n) fs)) ZBackups)
       (entradas_de fs ZBackups).
Proof.
  unfold os_remove. cbn [fst snd].
  destruct (carpeta_de fs ZBackups) as [c|] eqn:Ec; cbn [snd];
    [|split; [reflexivity|apply incl_refl]].
  destruct (buscar_entrada n (entradas c)) as [[a|t]|]; cbn [snd];
    try (split; [reflexivity|apply incl_refl]).
  destruct (eliminable a); cbn [snd]; [|split; [reflexivity|apply incl_refl]].
  split.
  - intros z Hz. apply carpeta_de_con_carpeta_neq. congruence.
  - unfold entradas_de. rewrite carpeta_de_con_carpeta_eq, Ec. cbn [entradas].
    apply incl_quitar_entrada.
Qed.

Lemma bucle_limpieza_marco limite nombres :
  forall cuenta fs,
    (forall z, z <> ZBackups ->
       carpeta_de (snd (bucle_limpieza limite nombres cuenta fs)) z
       = carpeta_de fs z) /\
    incl (entradas_de (snd (bucle_limpieza limite nombres cuenta fs)) ZBackups)
         (entradas_de fs ZBackups).
Proof.
  induction nombres as [|n r IH]; intros cuenta fs.
  - split; [reflexivity|apply incl_refl].
  - rewrite bucle_limpieza_cons.
    match goal with
    | |- context [if ?b then _ else _] => destruct b
    end; [|apply IH].
    destruct (os_remove_marco n fs) as [M1 M2].
    destruct (os_remove (ZBackups, n) fs) as [[u|e] fs1]; cbn [snd] in *.
    + destruct (IH (cuenta + 1) fs1) as [I1 I2]. split.
      * intros z Hz. rewrite I1, M1 by exact Hz. reflexivity.
      * eapply incl_tran; eassumption.
    + split; assumption.
Qed.

(** X18.  Pruning only removes backups: whatever the state and the
    outcome, it leaves the JSON and the binary directories as they are
    and every entry of the directory of the backups after it was there
    before.  Without a directory of backups it returns 0.  A number of
    days beyond what [timedelta] takes raises [OverflowError], the date
    being computed outside the [try] block, and nothing is removed. *)
Theorem X18_limpieza_solo_quita_backups (ahora : fecha_hora) (dias : Z)
    (fs : sistema) :
  carpeta_de (snd (limpiar_backups_antiguos ahora dias fs)) ZJson
    = carpeta_de fs ZJson /\
  carpeta_de (snd (limpiar_backups_antiguos ahora dias fs)) ZBinarios
    = carpeta_de fs ZBinarios /\
  incl (entradas_de (snd (limpiar_backups_antiguos ahora dias fs)) ZBackups)
       (entradas_de fs ZBackups) /\
  (carpeta_de fs ZBackups = None ->
   forall limite, calcular_fecha_limite ahora dias = Retorna limite ->
   limpiar_backups_antiguos ahora dias fs = (Retorna 0, fs)) /\
  ((Z.abs dias > timedelta_max_dias)%Z ->
   limpiar_backups_antiguos ahora dias fs = (Lanza OverflowError, fs)).
Proof.
  assert (Hm : (forall z, z <> ZBackups ->
                  carpeta_de (snd (limpiar_backups_antiguos ahora dias fs)) z
                  = carpeta_de fs z) /\
               incl (entradas_de (snd (limpiar_backups_antiguos ahora dias fs)) ZBackups)
                    (entradas_de fs ZBackups)).
  { remember (limpiar_backups_antiguos ahora dias fs) as res eqn:Eres.
    unfold limpiar_backups_antiguos in Eres. unfold bind at 1, leer at 1 in Eres.
    destruct (calcular_fecha_limite ahora dias) as [limite|e]; subst res; cbn [snd];
      [|split; [reflexivity|apply incl_refl]].
    rewrite snd_capturar.
    - remember (bind (leer (fun fs0 => os_listdir fs0 ZBackups))
                  (fun archivos_backup => bucle_limpieza limite archivos_backup 0) fs)
        as res eqn:Eres.
      unfold bind, leer in Eres.
      destruct (os_listdir fs ZBackups) as [nombres|e]; subst res; cbn [snd];
        [|split; [reflexivity|apply incl_refl]].
      apply bucle_limpieza_marco.
    - intros e k fs' Hk. destruct (es_Exception e); [|discriminate].
      injection Hk as <-. reflexivity. }
  destruct Hm as [M1 M2].
  split; [apply M1; discriminate|]. split; [apply M1; discriminate|].
  split; [exact M2|]. split.
  - intros Hc limite Hl. unfold limpiar_backups_antiguos.
    unfold bind at 1, leer at 1. rewrite Hl.
    unfold capturar, bind, leer, os_listdir. rewrite Hc. reflexivity.
  - intros Hd. unfold limpiar_backups_antiguos, bind, leer, calcular_fecha_limite.
    destruct (Z.gtb_spec (Z.abs dias) timedelta_max_dias) as [_|]; [reflexivity|lia].
Qed.

(** ** Statistics *)

Lemma fold_left_max (r : list Z) (x : Z) :
  In (fold_left Z.max r x) (x :: r) /\
  (x <= fold_left Z.max r x)%Z /\
  Forall (fun y => (y <= fold_left Z.max r x)%Z) r.
Proof.
  revert x. induction r as [|y r IH]; intros x; cbn [fold_left].
  - split; [left; reflexivity|]. split; [lia|constructor].
  - destruct (IH (Z.max x y)) as (I1 & I2 & I3). split; [|split].
    + destruct I1 as [E|I1]; [|right; right; exact I1].
      rewrite <- E. destruct (Z.max_spec x y) as [[_ ->]|[_ ->]];
        [right; left; reflexivity|left; reflexivity].
    + lia.
    + constructor; [lia|exact I3].
Qed.

Lemma maximo_spec (l : list Z) :
  (maximo l = None <-> l = []) /\
  (forall m, maximo l = Some m -> In m l /\ Forall (fun y => (y <= m)%Z) l).
Proof.
  destruct l as [|x r]; cbn [maximo].
  - split; [tauto|discriminate].
  - split; [split; discriminate|].
    intros m E. injection E as <-.
    destruct (fold_left_max r x) as (I1 & I2 & I3).
    split; [exact I1|constructor; assumption].
Qed.

Lemma buscar_entrada_In n e l :
  buscar_entrada n l = Some e -> In n (map fst l).
Proof.
  induction l as [|[m x] r IH]; cbn [buscar_entrada map fst]; [discriminate|].
  destruct (String.eqb_spec m n) as [->|_]; [left; reflexivity|].
  intros H. right. exact (IH H).
Qed.

(** X19.  In the statistics, [fecha_ultimo_backup] is [None] exactly when
    the directory of the backups has no entry (or does not exist);
    otherwise it is the modification time of one of the backups and no
    backup has a later one. *)
Theorem X19_fecha_ultimo_backup (fs : sistema) :
  (fecha_ultimo_backup (obtener_estadisticas_almacenamiento fs) = None
   <-> entradas_de fs ZBackups = []) /\
  (forall m,
     fecha_ultimo_backup (obtener_estadisticas_almacenamiento fs) = Some m ->
     (exists n e, buscar fs (ZBackups, n) = Some e /\ mtime_de e = m) /\
     (forall n e, buscar fs (ZBackups, n) = Some e -> (mtime_de e <= m)%Z)).
Proof.
  set (f := fun n => match buscar fs (ZBackups, n) with
                     | Some e => [mtime_de e]
                     | None => []
                     end).
  assert (Ef : fecha_ultimo_backup (obtener_estadisticas_almacenamiento fs)
               = maximo (flat_map f (map fst (entradas_de fs ZBackups)))).
  { unfold obtener_estadisticas_almacenamiento. cbn [fecha_ultimo_backup].
    f_equal.
    assert (El : match os_listdir fs ZBackups with
                 | Retorna l => l
                 | Lanza _ => []
                 end = map fst (entradas_de fs ZBackups)).
    { unfold os_listdir, entradas_de. destruct (carpeta_de fs ZBackups); reflexivity. }
    rewrite El. apply flat_map_ext. intros n.
    unfold f, obtener_info_archivo, os_stat.
    destruct (buscar fs (ZBackups, n)); reflexivity. }
  rewrite Ef.
  destruct (maximo_spec (flat_map f (map fst (entradas_de fs ZBackups)))) as [Hn Hs].
  split.
  - rewrite Hn. split.
    + intros H. destruct (entradas_de fs ZBackups) as [|[n e] r] eqn:El; [reflexivity|].
      exfalso. cbn [map fst flat_map] in H. unfold f at 1 in H.
      unfold buscar in H. cbn [fst snd] in H. rewrite El in H.
      cbn [buscar_entrada] in H. rewrite String.eqb_refl in H. discriminate H.
    + intros ->. reflexivity.
  - intros m Hm. destruct (Hs m Hm) as [Hin Hall]. split.
    + apply in_flat_map in Hin. destruct Hin as (n & _ & Hin). unfold f in Hin.
      destruct (buscar fs (ZBackups, n)) as [e|] eqn:Eb; [|destruct Hin].
      destruct Hin as [<-|[]]. exists n, e. split; [exact Eb|reflexivity].
    + intros n e Eb. rewrite Forall_forall in Hall. apply Hall.
      apply in_flat_map. exists n. split.
      * unfold buscar in Eb. cbn [fst snd] in Eb. exact (buscar_entrada_In _ _ Eb).
      * unfold f. rewrite Eb. left. reflexivity.
Qed.

(** ** Paths *)

Lemma substring_todo (t : string) : substring 0 (String.length t) t = t.
Proof.
  induction t as [|c t IH]; [reflexivity|]. cbn [String.length substring].
  rewrite IH. reflexivity.
Qed.

Lemma endswith_append (s sufijo : string) :
  endswith (s ++ sufijo) sufijo = true.
Proof.
  unfold endswith. rewrite length_append.
  replace (String.length s + String.length sufijo - String.length sufijo)
    with (String.length s + 0) by lia.
  rewrite substring_append_salta, substring_todo, String.eqb_refl, andb_true_r.
  apply Nat.leb_le. lia.
Qed.

(** X20.  The extension is added once: the name that
    [obtener_ruta_json] returns always ends in [.json] and is left as it
    is when given again, so a collection may be named with or without the
    extension and both names load the same file; the same holds for
    [obtener_ruta_binario] and [.pkl]. *)
Theorem X20_extension_una_vez (B : codecs) (nombre : string) (fs : sistema) :
  endswith (snd (obtener_ruta_json nombre)) ".json" = true /\
  obtener_ruta_json (snd (obtener_ruta_json nombre)) = obtener_ruta_json nombre /\
  obtener_ruta_json (nombre ++ ".json") = (ZJson, (nombre ++ ".json")%string) /\
  json_cargar_datos B (snd (obtener_ruta_json nombre)) fs
    = json_cargar_datos B nombre fs /\
  endswith (snd (obtener_ruta_binario nombre)) ".pkl" = true /\
  obtener_ruta_binario (snd (obtener_ruta_binario nombre))
    = obtener_ruta_binario nombre /\
  obtener_ruta_binario (nombre ++ ".pkl") = (ZBinarios, (nombre ++ ".pkl")%string) /\
  binario_cargar_datos B (snd (obtener_ruta_binario nombre)) fs
    = binario_cargar_datos B nombre fs.
Proof.
  assert (J1 : endswith (snd (obtener_ruta_json nombre)) ".json" = true).
  { unfold obtener_ruta_json. cbn [snd].
    destruct (endswith nombre ".json") eqn:E; [exact E|apply endswith_append]. }
  assert (J2 : obtener_ruta_json (snd (obtener_ruta_json nombre))
               = obtener_ruta_json nombre).
  { unfold obtener_ruta_json at 1. rewrite J1. reflexivity. }
  assert (B1 : endswith (snd (obtener_ruta_binario nombre)) ".pkl" = true).
  { unfold obtener_ruta_binario. cbn [snd].
    destruct (endswith nombre ".pkl") eqn:E; [exact E|apply endswith_append]. }
  assert (B2 : obtener_ruta_binario (snd (obtener_ruta_binario nombre))
               = obtener_ruta_binario nombre).
  { unfold obtener_ruta_binario at 1. rewrite B1. reflexivity. }
  split; [exact J1|]. split; [exact J2|]. split.
  { unfold obtener_ruta_json. rewrite endswith_append. reflexivity. }
  split.
  { unfold json_cargar_datos. rewrite J2. reflexivity. }
  split; [exact B1|]. split; [exact B2|]. split.
  { unfold obtener_ruta_binario. rewrite endswith_append. reflexivity. }
  unfold binario_cargar_datos. rewrite B2. reflexivity.
Qed.

(** ** The file of a save in the listings *)

Lemma intento_guardar_exacto ahora r dst cb salida fs c :
  fst r <> fst dst ->
  carpeta_de fs (fst r) = Some c ->
  escribible fs r = true ->
  carpeta_de (snd (intento_guardar ahora r dst cb salida fs)) (fst r)
  = Some {| entradas :=
              poner_entrada (snd r)
                (Archivo (archivo_escrito ahora fs r (fst salida))) (entradas c);
            acepta_nuevos := acepta_nuevos c |}.
Proof.
  intros Hr Hc Hw.
  rewrite (proj2 (@intento_guardar_sin_respaldo ahora r dst cb salida fs Hr)).
  rewrite intento_guardar_eq.
  assert (E : tras_respaldo r dst false fs = fs) by reflexivity.
  rewrite E, (@escribir_archivo_exacto ahora r (fst salida) fs c Hc Hw).
  cbn [snd]. apply carpeta_de_con_carpeta_eq.
Qed.

(** X21.  After a JSON save that could open its file, whatever the dump
    did then, [obtener_info_archivo] reports a regular file of the size of
    the text written, modified at the time of the save; the file is in
    the listing of the JSON files, and the count of JSON files of the
    statistics has grown by one if the file is new and is unchanged if it
    was overwritten. *)
Theorem X21_archivo_tras_guardar (B : codecs) (ahora : fecha_hora)
    (nombre : string) (datos : valor) (cb : bool) (fs : sistema) :
  escribible fs (obtener_ruta_json nombre) = true ->
  obtener_info_archivo (snd (json_guardar_datos B ahora nombre datos cb fs))
    (obtener_ruta_json nombre)
  = {| existe := true;
       tamaño := String.length (fst (json_dump B (_preparar_datos_para_json datos)));
       fecha_modificacion := Some (instante ahora);
       es_archivo := true;
       es_directorio := false |} /\
  In (snd (obtener_ruta_json nombre))
     (listar_archivos (snd (json_guardar_datos B ahora nombre datos cb fs)) "json") /\
  archivos_json (obtener_estadisticas_almacenamiento
                   (snd (json_guardar_datos B ahora nombre datos cb fs)))
  = if os_path_exists fs (obtener_ruta_json nombre)
    then archivos_json (obtener_estadisticas_almacenamiento fs)
    else S (archivos_json (obtener_estadisticas_almacenamiento fs)).
Proof.
  intros Hw. rewrite snd_json_guardar_datos.
  set (r := obtener_ruta_json nombre) in *.
  set (dst := obtener_ruta_backup ahora (nombre ++ ".json")%string).
  set (salida := json_dump B (_preparar_datos_para_json datos)).
  set (fs' := snd (intento_guardar ahora r dst cb salida fs)).
  assert (Hr : fst r <> fst dst) by discriminate.
  assert (Hc : exists c, carpeta_de fs ZJson = Some c).
  { unfold escribible in Hw. change (fst r) with ZJson in Hw.
    destruct (carpeta_de fs ZJson) as [c|]; [eauto|discriminate]. }
  destruct Hc as (c & Hc).
  assert (Hc' : carpeta_de fs' ZJson
                = Some {| entradas :=
                            poner_entrada (snd r)
                              (Archivo (archivo_escrito ahora fs r (fst salida)))
                              (entradas c);
                          acepta_nuevos := acepta_nuevos c |}).
  { apply (@intento_guardar_exacto ahora r dst cb salida fs c Hr Hc Hw). }
  assert (Hb : buscar fs' r = Some (Archivo (archivo_escrito ahora fs r (fst salida)))).
  { unfold buscar, entradas_de. change (fst r) with ZJson. rewrite Hc'.
    cbn [entradas]. apply buscar_entrada_poner_eq. }
  assert (Hfin : endswith (snd r) ".json" = true).
  { unfold r, obtener_ruta_json. cbn [snd].
    destruct (endswith nombre ".json") eqn:E; [exact E|apply endswith_append]. }
  assert (Hl' : listar_archivos fs' "json"
                = filter (fun archivo => endswith archivo ".json")
                    (match buscar_entrada (snd r) (entradas c) with
                     | Some _ => map fst (entradas c)
                     | None => map fst (entradas c) ++ [snd r]
                     end)).
  { unfold listar_archivos, os_listdir. cbn [String.eqb Ascii.eqb Bool.eqb].
    rewrite Hc'. cbn [entradas]. rewrite map_fst_poner_entrada. reflexivity. }
  assert (Hl : listar_archivos fs "json"
               = filter (fun archivo => endswith archivo ".json") (map fst (entradas c))).
  { unfold listar_archivos, os_listdir. cbn [String.eqb Ascii.eqb Bool.eqb].
    rewrite Hc. reflexivity. }
  split; [|split].
  - unfold obtener_info_archivo, os_stat, os_path_isfile, os_path_isdir.
    rewrite Hb. cbn [tamaño_de mtime_de].
    destruct (contenido_archivo_escrito ahora fs r (fst salida)) as [-> ->].
    reflexivity.
  - rewrite Hl'. apply filter_In. split; [|exact Hfin].
    destruct (buscar_entrada (snd r) (entradas c)) as [e|] eqn:E.
    + exact (buscar_entrada_In _ _ E).
    + apply in_or_app. right. left. reflexivity.
  - unfold obtener_estadisticas_almacenamiento. cbn [archivos_json].
    rewrite Hl', Hl. unfold os_path_exists, buscar, entradas_de.
    change (fst r) with ZJson. rewrite Hc.
    destruct (buscar_entrada (snd r) (entradas c)); [reflexivity|].
    rewrite filter_app, length_app. cbn [filter]. rewrite Hfin. cbn [length]. lia.
Qed.

(** ** Preparing data for JSON *)

Lemma preparar_sin_to_dict :
  forall v, Planos.sin_to_dict v = true -> _preparar_datos_para_json v = v.
Proof.
  fix IH 1. intros [ | b | n | x | s | l | l | d | c [x|]];
    cbn [Planos.sin_to_dict _preparar_datos_para_json]; intros H;
    try reflexivity; try discriminate H.
  - f_equal. induction l as [|a r IHl]; [reflexivity|].
    cbn [forallb map] in *. apply andb_true_iff in H. destruct H as [Ha Hr].
    rewrite (IH a Ha), (IHl Hr). reflexivity.
  - f_equal. induction d as [|[k a] r IHd]; [reflexivity|].
    cbn [forallb map] in *. apply andb_true_iff in H. destruct H as [Ha Hr].
    rewrite (IH a Ha), (IHd Hr). reflexivity.
Qed.

(** X22.  [_preparar_datos_para_json] changes nothing in data that holds no
    object with [to_dict] among the elements of its lists and the values
    of its dictionaries, at any depth; a list of objects with [to_dict]
    becomes the list of their dictionaries, which are not prepared
    further; a list or a dictionary keeps its length, and a dictionary its
    keys; a tuple is not visited. *)
Theorem X22_preparar_datos (v : valor) :
  (Planos.sin_to_dict v = true -> _preparar_datos_para_json v = v) /\
  (forall clase ds,
     _preparar_datos_para_json (VList (map (fun d => VObjeto clase (Some d)) ds))
     = VList ds) /\
  (forall l, exists l',
     _preparar_datos_para_json (VList l) = VList l' /\ length l' = length l) /\
  (forall d, exists d',
     _preparar_datos_para_json (VDict d) = VDict d' /\ map fst d' = map fst d) /\
  (forall l, _preparar_datos_para_json (VTuple l) = VTuple l).
Proof.
  split; [apply preparar_sin_to_dict|]. split; [|split; [|split]].
  - intros clase ds. cbn [_preparar_datos_para_json]. f_equal.
    rewrite map_map. cbn [_preparar_datos_para_json]. apply map_id.
  - intros l. eexists. split; [reflexivity|]. apply length_map.
  - intros d. eexists. split; [reflexivity|]. rewrite map_map.
    apply map_ext. intros [k x]. reflexivity.
  - intros l. reflexivity.
Qed.

End PropiedadesAlmacenamiento.

Section PropiedadesResultados.
Import Persistencia.
Local Open Scope list_scope.

(** X23.  The outcomes of a save.  A JSON save never returns [False]: it
    returns [True] exactly when the file could be opened and the dump
    ended without error, raises [OSError] when the file could not be
    opened, and turns an error of the dump into [ValueError] (for
    [TypeError] and [ValueError]) or [OSError] (for the file-system
    errors), letting any other through.  A binary save returns [True] in
    the same case, returns [False] when the file could not be opened or
    the dump ended with [PicklingError] or a file-system error, and lets
    any other error of the dump through. *)
Theorem X23_resultados_de_guardar (B : codecs) (ahora : fecha_hora)
    (nombre : string) (datos : valor) (protocolo : Z) (cb : bool) (fs : sistema) :
  fst (json_guardar_datos B ahora nombre datos cb fs) <> Retorna false /\
  (fst (json_guardar_datos B ahora nombre datos cb fs) = Retorna true <->
   escribible fs (obtener_ruta_json nombre) = true /\
   snd (json_dump B (_preparar_datos_para_json datos)) = None) /\
  (escribible fs (obtener_ruta_json nombre) = false ->
   fst (json_guardar_datos B ahora nombre datos cb fs) = Lanza OSError) /\
  (forall e,
     escribible fs (obtener_ruta_json nombre) = true ->
     snd (json_dump B (_preparar_datos_para_json datos)) = Some e ->
     fst (json_guardar_datos B ahora nombre datos cb fs)
     = Lanza (if es_TypeError_o_ValueError e then ValueError
              else if es_IOError e then OSError else e)) /\
  (fst (binario_guardar_datos B ahora nombre datos protocolo cb fs) = Retorna true <->
   escribible fs (obtener_ruta_binario nombre) = true /\
   snd (pickle_dump B protocolo datos) = None) /\
  (escribible fs (obtener_ruta_binario nombre) = false ->
   fst (binario_guardar_datos B ahora nombre datos protocolo cb fs) = Retorna false) /\
  (forall e,
     escribible fs (obtener_ruta_binario nombre) = true ->
     snd (pickle_dump B protocolo datos) = Some e ->
     fst (binario_guardar_datos B ahora nombre datos protocolo cb fs)
     = match e with
       | PicklingError => Retorna false
       | _ => if es_IOError e then Retorna false else Lanza e
       end).
Proof.
  assert (J : (escribible fs (obtener_ruta_json nombre) = false ->
               fst (json_guardar_datos B ahora nombre datos cb fs) = Lanza OSError) /\
              (escribible fs (obtener_ruta_json nombre) = true ->
               fst (json_guardar_datos B ahora nombre datos cb fs)
               = match snd (json_dump B (_preparar_datos_para_json datos)) with
                 | None => Retorna true
                 | Some e =>
                     Lanza (if es_TypeError_o_ValueError e then ValueError
                            else if es_IOError e then OSError else e)
                 end)).
  { rewrite json_guardar_datos_eq. unfold capturar.
    destruct (intento_guardar_spec ahora (obtener_ruta_json nombre)
                (obtener_ruta_backup ahora (nombre ++ ".json")%string) cb
                (json_dump B (_preparar_datos_para_json datos)) fs
                (@json_no_es_backups _ _ _)) as [Hno Hsi].
    split; intros Hw.
    - destruct (Hno Hw) as (e & He & ->).
      rewrite (es_IOError_no_es_ValueError _ He), He. reflexivity.
    - destruct (Hsi Hw) as (fs2 & -> & _).
      destruct (snd (json_dump B (_preparar_datos_para_json datos))) as [e|];
        [|reflexivity].
      destruct (es_TypeError_o_ValueError e); [reflexivity|].
      destruct (es_IOError e); reflexivity. }
  assert (P : (escribible fs (obtener_ruta_binario nombre) = false ->
               fst (binario_guardar_datos B ahora nombre datos protocolo cb fs)
               = Retorna false) /\
              (escribible fs (obtener_ruta_binario nombre) = true ->
               fst (binario_guardar_datos B ahora nombre datos protocolo cb fs)
               = match snd (pickle_dump B protocolo datos) with
                 | None => Retorna true
                 | Some e =>
                     match e with
                     | PicklingError => Retorna false
                     | _ => if es_IOError e then Retorna false else Lanza e
                     end
                 end)).
  { rewrite binario_guardar_datos_eq. unfold capturar.
    destruct (intento_guardar_spec ahora (obtener_ruta_binario nombre)
                (obtener_ruta_backup ahora (nombre ++ ".pkl")%string) cb
                (pickle_dump B protocolo datos) fs
                (@binario_no_es_backups _ _ _)) as [Hno Hsi].
    split; intros Hw.
    - destruct (Hno Hw) as (e & He & ->).
      destruct e; try discriminate He; reflexivity.
    - destruct (Hsi Hw) as (fs2 & -> & _).
      destruct (snd (pickle_dump B protocolo datos)) as [e|]; [|reflexivity].
      destruct e; reflexivity. }
  destruct J as [J0 J1], P as [P0 P1].
  split; [|split; [|split; [|split; [|split; [|split]]]]].
  - destruct (escribible fs (obtener_ruta_json nombre)).
    + rewrite (J1 eq_refl).
      destruct (snd (json_dump B (_preparar_datos_para_json datos))); discriminate.
    + rewrite (J0 eq_refl). discriminate.
  - destruct (escribible fs (obtener_ruta_json nombre)).
    + rewrite (J1 eq_refl).
      destruct (snd (json_dump B (_preparar_datos_para_json datos)));
        split; [discriminate|intros [_ H]; discriminate H|auto|auto].
    + rewrite (J0 eq_refl). split; [discriminate|intros [H _]; discriminate H].
  - exact J0.
  - intros e Hw He. rewrite (J1 Hw), He. reflexivity.
  - destruct (escribible fs (obtener_ruta_binario nombre)).
    + rewrite (P1 eq_refl).
      destruct (snd (pickle_dump B protocolo datos)) as [e|].
      * split; [|intros [_ H]; discriminate H].
        destruct e; cbn; discriminate.
      * split; auto.
    + rewrite (P0 eq_refl). split; [discriminate|intros [H _]; discriminate H].
  - exact P0.
  - intros e Hw He. rewrite (P1 Hw), He. reflexivity.
Qed.

(** ** What pruning returns *)

Lemma length_quitar_entrada n l e :
  buscar_entrada n l = Some e -> S (length (quitar_entrada n l)) = length l.
Proof.
  induction l as [|[m x] r IH]; cbn [buscar_entrada quitar_entrada length];
    [discriminate|].
  destruct (String.eqb m n); [reflexivity|].
  intros H. cbn [length]. rewrite (IH H). reflexivity.
Qed.

Lemma os_remove_cuenta n fs :
  match os_remove (ZBackups, n) fs with
  | (Retorna _, fs1) =>
      S (length (entradas_de fs1 ZBackups)) = length (entradas_de fs ZBackups)
  | (Lanza e, fs1) => es_Exception e = true /\ fs1 = fs
  end.
Proof.
  unfold os_remove. cbn [fst snd].
  destruct (carpeta_de fs ZBackups) as [c|] eqn:Ec; [|split; reflexivity].
  destruct (buscar_entrada n (entradas c)) as [[a|t]|] eqn:Eb;
    try (split; reflexivity).
  destruct (eliminable a); [|split; reflexivity].
  unfold entradas_de. rewrite carpeta_de_con_carpeta_eq, Ec. cbn [entradas].
  exact (length_quitar_entrada _ _ Eb).
Qed.

Lemma bucle_limpieza_cuenta limite nombres :
  forall cuenta fs,
    match bucle_limpieza limite nombres cuenta fs with
    | (Retorna k, fs1) =>
        cuenta <= k /\
        (k - cuenta) + length (entradas_de fs1 ZBackups)
        = length (entradas_de fs ZBackups)
    | (Lanza e, fs1) =>
        es_Exception e = true /\
        length (entradas_de fs1 ZBackups) <= length (entradas_de fs ZBackups)
    end.
Proof.
  induction nombres as [|n r IH]; intros cuenta fs.
  - cbn [bucle_limpieza]. unfold ret. split; [lia|].
    replace (cuenta - cuenta) with 0 by lia. reflexivity.
  - rewrite bucle_limpieza_cons.
    match goal with
    | |- context [if ?b then _ else _] => destruct b
    end; [|apply IH].
    pose proof (os_remove_cuenta n fs) as R.
    destruct (os_remove (ZBackups, n) fs) as [[u|e] fs1].
    + specialize (IH (cuenta + 1) fs1).
      destruct (bucle_limpieza limite r (cuenta + 1) fs1) as [[k|e] fs2].
      * destruct IH as [I1 I2]. split; lia.
      * destruct IH as [I1 I2]. split; [exact I1|lia].
    + destruct R as [He ->]. split; [exact He|lia].
Qed.

(** What pruning raises, and the number it returns against the entries
    that are gone. *)
Lemma limpiar_backups_cuenta (ahora : fecha_hora) (dias : Z) (fs : sistema) :
  (forall e,
     fst (limpiar_backups_antiguos ahora dias fs) = Lanza e ->
     e = OverflowError /\ calcular_fecha_limite ahora dias = Lanza OverflowError) /\
  (forall k,
     fst (limpiar_backups_antiguos ahora dias fs) = Retorna k ->
     k + length (entradas_de (snd (limpiar_backups_antiguos ahora dias fs)) ZBackups)
     <= length (entradas_de fs ZBackups) /\
     (0 < k ->
      k + length (entradas_de (snd (limpiar_backups_antiguos ahora dias fs)) ZBackups)
      = length (entradas_de fs ZBackups))).
Proof.
  assert (Hov : forall e, calcular_fecha_limite ahora dias = Lanza e -> e = OverflowError).
  { intros e. unfold calcular_fecha_limite.
    destruct (Z.abs dias >? timedelta_max_dias)%Z; [congruence|]. cbv zeta.
    match goal with
    | |- context [if ?b then _ else _] => destruct b
    end; congruence. }
  remember (limpiar_backups_antiguos ahora dias fs) as res eqn:Eres.
  unfold limpiar_backups_antiguos in Eres. unfold bind at 1, leer at 1 in Eres.
  destruct (calcular_fecha_limite ahora dias) as [limite|e0] eqn:Ec.
  - unfold capturar, bind, leer in Eres.
    destruct (os_listdir fs ZBackups) as [nombres|e1] eqn:El.
    + pose proof (bucle_limpieza_cuenta limite nombres 0 fs) as Hb.
      destruct (bucle_limpieza limite nombres 0 fs) as [[k0|e2] fs1].
      * subst res. cbn [fst snd]. split; [discriminate|].
        intros k E. injection E as <-. destruct Hb as [_ Hb]. lia.
      * destruct Hb as [He Hb]. rewrite He in Eres. subst res. cbn [fst snd ret].
        split; [discriminate|]. intros k E. injection E as <-. lia.
    + unfold os_listdir in El. destruct (carpeta_de fs ZBackups); [discriminate|].
      injection El as <-. subst res. cbn [fst snd es_Exception ret].
      split; [discriminate|]. intros k E. injection E as <-. lia.
  - subst res. cbn [fst snd]. split; [|discriminate].
    intros e E. injection E as <-. rewrite (Hov _ eq_refl). split; reflexivity.
Qed.

Lemma NoDup_filter_prefijo (p : string * entrada -> bool)
    (pre resto : list (string * entrada)) :
  NoDup (map fst (pre ++ resto)) -> NoDup (map fst (filter p pre ++ resto)).
Proof.
  induction pre as [|x r IH]; cbn [filter app map]; intros H; [exact H|].
  inversion H as [|? ? Hx Hr]; subst.
  destruct (p x); cbn [app map]; [|auto]. constructor; [|auto].
  intros Hin. apply Hx. rewrite map_app, in_app_iff in *.
  destruct Hin as [Hin|Hin]; [left|right; exact Hin].
  apply in_map_iff in Hin. destruct Hin as (y & Ey & Hy).
  apply filter_In in Hy. apply in_map_iff. exists y. tauto.
Qed.

Lemma length_filter_contrario (A : Type) (p : A -> bool) (l : list A) :
  length (filter (fun x => negb (p x)) l) + length (filter p l) = length l.
Proof.
  induction l as [|x r IH]; [reflexivity|]. cbn [filter].
  destruct (p x); cbn [negb length]; lia.
Qed.

(** A pruning in which the removal of an old entry fails: the old entries
    listed before it are gone, and 0 is returned. *)
Lemma limpiar_backups_falla ahora dias fs c limite pre ne post :
  carpeta_de fs ZBackups = Some c ->
  NoDup (map fst (entradas c)) ->
  calcular_fecha_limite ahora dias = Retorna limite ->
  entradas c = pre ++ ne :: post ->
  (forall x, In x pre -> antigua limite x = true -> se_puede_eliminar x = true) ->
  antigua limite ne = true ->
  se_puede_eliminar ne = false ->
  limpiar_backups_antiguos ahora dias fs =
  (Retorna 0,
   con_carpeta fs ZBackups
     {| entradas := filter (fun x => negb (antigua limite x)) pre ++ ne :: post;
        acepta_nuevos := acepta_nuevos c |}).
Proof.
  intros Hc Hnd Hlim Hsplit Hok Hold Hrm. destruct ne as [n e].
  assert (Hfs : fs = con_carpeta fs ZBackups
                       {| entradas := entradas c; acepta_nuevos := acepta_nuevos c |}).
  { symmetry. apply con_carpeta_misma. rewrite Hc. destruct c; reflexivity. }
  assert (Hlist : os_listdir fs ZBackups = Retorna (map fst (entradas c))).
  { unfold os_listdir. rewrite Hc. reflexivity. }
  unfold limpiar_backups_antiguos.
  unfold bind at 1, leer at 1. rewrite Hlim.
  unfold capturar, bind, leer. rewrite Hlist. rewrite Hfs at 1.
  rewrite Hsplit, map_app. cbn [map fst].
  pose proof (bucle_limpieza_prefijo limite (acepta_nuevos c) fs
                ((n, e) :: post) (n :: map fst post) pre [] 0) as P.
  cbn [app] in P. fold bucle_limpieza.
  rewrite P; [|rewrite <- Hsplit; exact Hnd|exact Hok].
  destruct (bucle_limpieza_falla limite (acepta_nuevos c) fs
              (filter (fun x => negb (antigua limite x)) pre) post n e
              (map fst post) (0 + length (filter (antigua limite) pre)))
    as (ex & Hex & ->).
  - apply NoDup_filter_prefijo. rewrite <- Hsplit. exact Hnd.
  - exact Hold.
  - exact Hrm.
  - rewrite Hex. reflexivity.
Qed.

(** X24.  What pruning returns.  It raises only [OverflowError], and only
    from the computation of the date.  The number it returns never
    exceeds the number of entries that have gone from the directory of
    the backups, and is that number whenever it is positive.  After a
    failed removal it returns 0 whatever was removed before: when an old
    entry resists removal, the old entries listed before it, all
    removable, are gone from the directory, and 0 is returned. *)
Theorem X24_limpieza_cuenta (ahora : fecha_hora) (dias : Z) (fs : sistema) :
  (forall e,
     fst (limpiar_backups_antiguos ahora dias fs) = Lanza e ->
     e = OverflowError /\ calcular_fecha_limite ahora dias = Lanza OverflowError) /\
  (forall k,
     fst (limpiar_backups_antiguos ahora dias fs) = Retorna k ->
     k + length (entradas_de (snd (limpiar_backups_antiguos ahora dias fs)) ZBackups)
     <= length (entradas_de fs ZBackups) /\
     (0 < k ->
      k + length (entradas_de (snd (limpiar_backups_antiguos ahora dias fs)) ZBackups)
      = length (entradas_de fs ZBackups))) /\
  (forall c limite pre ne post,
     carpeta_de fs ZBackups = Some c ->
     NoDup (map fst (entradas c)) ->
     calcular_fecha_limite ahora dias = Retorna limite ->
     entradas c = pre ++ ne :: post ->
     (forall x, In x pre -> antigua limite x = true -> se_puede_eliminar x = true) ->
     antigua limite ne = true ->
     se_puede_eliminar ne = false ->
     fst (limpiar_backups_antiguos ahora dias fs) = Retorna 0 /\
     entradas_de (snd (limpiar_backups_antiguos ahora dias fs)) ZBackups
     = filter (fun x => negb (antigua limite x)) pre ++ ne :: post /\
     length (entradas_de (snd (limpiar_backups_antiguos ahora dias fs)) ZBackups)
     + length (filter (antigua limite) pre)
     = length (entradas_de fs ZBackups)).
Proof.
  destruct (limpiar_backups_cuenta ahora dias fs) as [H1 H2].
  split; [exact H1|]. split; [exact H2|].
  intros c limite pre ne post Hc Hnd Hlim Hsplit Hok Hold Hrm.
  rewrite (@limpiar_backups_falla ahora dias fs c limite pre ne post
             Hc Hnd Hlim Hsplit Hok Hold Hrm).
  cbn [fst snd]. split; [reflexivity|].
  unfold entradas_de. rewrite carpeta_de_con_carpeta_eq, Hc. cbn [entradas].
  split; [reflexivity|].
  rewrite Hsplit, !length_app. cbn [length].
  pose proof (length_filter_contrario (antigua limite) pre). lia.
Qed.

End PropiedadesResultados.

Section PropiedadesBusquedas.
Import Persistencia Consultas GestorTareas.
Local Open Scope list_scope.
Variable titulo_contiene : string -> Tarea.t -> bool.

Lemma filtro_combinado_app (l1 l2 : list (Tarea.t -> resultado bool)) (t : Tarea.t) :
  filtro_combinado (l1 ++ l2) t
  = match filtro_combinado l1 t with
    | Retorna true => filtro_combinado l2 t
    | otro => otro
    end.
Proof.
  induction l1 as [|f r IH]; cbn [app filtro_combinado]; [reflexivity|].
  destruct (f t) as [[|]|e]; [exact IH|reflexivity|reflexivity].
Qed.

Lemma filtro_combinado_de (titulo estado : option string)
    (fecha_inicio fecha_fin : option fecha_hora) (t : Tarea.t) :
  filtro_combinado (filtros_de titulo_contiene titulo estado fecha_inicio fecha_fin) t
  = if criterio_titulo titulo_contiene titulo t && criterio_estado estado t
    then match fecha_inicio, fecha_fin, Tarea.fecha_limite t with
         | Some _, Some _, None => Lanza TypeError
         | _, _, _ => Retorna (criterio_fecha fecha_inicio fecha_fin t)
         end
    else Retorna false.
Proof.
  unfold filtros_de. rewrite !filtro_combinado_app.
  assert (Et : filtro_combinado
                 match titulo with
                 | Some texto =>
                     if String.eqb texto "" then []
                     else [fun t => Retorna (titulo_contiene texto t)]
                 | None => []
                 end t
               = Retorna (criterio_titulo titulo_contiene titulo t)).
  { unfold criterio_titulo. destruct titulo as [s|]; [|reflexivity].
    destruct (String.eqb s ""); [reflexivity|]. cbn [filtro_combinado].
    destruct (titulo_contiene s t); reflexivity. }
  assert (Ee : filtro_combinado
                 match estado with
                 | Some e =>
                     if String.eqb e "" then []
                     else [fun t => Retorna
                                      (Generadores.tiene_estado Tarea.estado_valor e t)]
                 | None => []
                 end t
               = Retorna (criterio_estado estado t)).
  { unfold criterio_estado. destruct estado as [s|]; [|reflexivity].
    destruct (String.eqb s ""); [reflexivity|]. cbn [filtro_combinado].
    unfold Generadores.tiene_estado, Tarea.estado_valor.
    destruct (String.eqb (Tarea.value (Tarea.estado t)) s); reflexivity. }
  rewrite Et, Ee.
  destruct (criterio_titulo titulo_contiene titulo t); cbn [andb]; [|reflexivity].
  destruct (criterio_estado estado t); [|reflexivity].
  unfold criterio_fecha.
  destruct fecha_inicio as [a|], fecha_fin as [b|]; try reflexivity.
  cbn [filtro_combinado]. unfold crear_filtro_fecha_rango.
  destruct (Tarea.fecha_limite t) as [f|]; [|reflexivity].
  destruct ((instante a <=? instante f)%Z && (instante f <=? instante b)%Z);
    reflexivity.
Qed.

Lemma filtrar_o_lanzar_todo (ts : list Tarea.t) :
  filtrar_o_lanzar (filtro_combinado []) ts = Retorna ts.
Proof.
  induction ts as [|t r IH]; cbn [filtrar_o_lanzar filtro_combinado]; [reflexivity|].
  cbn [filtrar_o_lanzar filtro_combinado] in IH. rewrite IH. reflexivity.
Qed.

Lemma buscar_tareas_compuesto_eq (ts : list Tarea.t) (titulo estado : option string)
    (fecha_inicio fecha_fin : option fecha_hora) :
  buscar_tareas_compuesto titulo_contiene ts titulo estado fecha_inicio fecha_fin
  = filtrar_o_lanzar
      (filtro_combinado (filtros_de titulo_contiene titulo estado fecha_inicio fecha_fin))
      ts.
Proof.
  unfold buscar_tareas_compuesto. cbv zeta.
  destruct (filtros_de titulo_contiene titulo estado fecha_inicio fecha_fin);
    [symmetry; apply filtrar_o_lanzar_todo|reflexivity].
Qed.

(** X25.  The compound search of [GestorTareas].  When every task without
    a due date fails the title or the state criterion, or no range of
    dates is asked for, the search returns the tasks that meet every
    criterion given, in their original order (all the tasks when none is
    given): [all] stops at the first filter that fails, so the filter on
    dates is never run on those tasks.  When a range is asked for and a
    task without due date meets the title and state criteria, the search
    raises [TypeError]. *)
Theorem X25_busqueda_compuesta (ts : list Tarea.t) (titulo estado : option string)
    (fecha_inicio fecha_fin : option fecha_hora) :
  ((forall t, In t ts -> Tarea.fecha_limite t = None ->
      fecha_inicio = None \/ fecha_fin = None \/
      criterio_titulo titulo_contiene titulo t = false \/
      criterio_estado estado t = false) ->
   buscar_tareas_compuesto titulo_contiene ts titulo estado fecha_inicio fecha_fin
   = Retorna
       (filter (fun t => criterio_titulo titulo_contiene titulo t
                         && criterio_estado estado t
                         && criterio_fecha fecha_inicio fecha_fin t) ts)) /\
  (fecha_inicio <> None -> fecha_fin <> None ->
   (exists t, In t ts /\ Tarea.fecha_limite t = None /\
              criterio_titulo titulo_contiene titulo t = true /\
              criterio_estado estado t = true) ->
   buscar_tareas_compuesto titulo_contiene ts titulo estado fecha_inicio fecha_fin
   = Lanza TypeError).
Proof.
  rewrite buscar_tareas_compuesto_eq. split.
  - intros H. apply filtrar_o_lanzar_retorna. intros t Ht.
    rewrite filtro_combinado_de. specialize (H t Ht).
    destruct (criterio_titulo titulo_contiene titulo t) eqn:E1; cbn [andb];
      [|reflexivity].
    destruct (criterio_estado estado t) eqn:E2; cbn [andb]; [|reflexivity].
    destruct fecha_inicio as [a|], fecha_fin as [b|]; try reflexivity.
    destruct (Tarea.fecha_limite t) as [f|] eqn:Ef; [reflexivity|].
    destruct (H eq_refl) as [H1|[H1|[H1|H1]]]; discriminate H1.
  - intros Hi Hf (t & Ht & Ef & E1 & E2).
    destruct fecha_inicio as [a|]; [|congruence].
    destruct fecha_fin as [b|]; [|congruence].
    apply filtrar_o_lanzar_lanza.
    + intros x _. rewrite filtro_combinado_de.
      destruct (criterio_titulo titulo_contiene titulo x
                && criterio_estado estado x); [|eauto].
      destruct (Tarea.fecha_limite x); eauto.
    + exists t. split; [exact Ht|]. rewrite filtro_combinado_de, E1, E2, Ef.
      reflexivity.
Qed.

End PropiedadesBusquedas.

(** ** The properties above on concrete inputs *)

Section EjemplosDeConsultas.
Import Persistencia Consultas GestorTareas Ejemplos.
Local Open Scope list_scope.

Lemma X6_testigo :
  generador_tareas_vencidas ahora_ejemplo cuatro_tareas
  = Retorna
      [tarea_ejemplo "t1" Tarea.PENDIENTE (Some "u1"%string) (Some (dia_de_enero 10))] /\
  generador_tareas_proximas_vencer ahora_ejemplo cuatro_tareas 3
  = Retorna
      [tarea_ejemplo "t2" Tarea.COMPLETADA (Some "u1"%string) (Some (dia_de_enero 16));
       tarea_ejemplo "t3" Tarea.EN_PROGRESO (Some "u2"%string) (Some (dia_de_enero 16))].
Proof.
  destruct (@X6_vencidas_y_proximas ahora_ejemplo 3 cuatro_tareas)
    as (v & p & Ev & Ep & Fv & Fp & _).
  - intros t [<-|[<-|[<-|[<-|[]]]]]; discriminate.
  - rewrite Ev, Ep, Fv, Fp. split; reflexivity.
Defined.

Lemma X7_testigo :
  generador_tareas_vencidas ahora_ejemplo (cuatro_tareas ++ [tarea_sin_fecha])
    = Lanza TypeError /\
  generador_tareas_proximas_vencer ahora_ejemplo (cuatro_tareas ++ [tarea_sin_fecha]) 3
    = Lanza TypeError /\
  generador_fechas_limite_calendario (cuatro_tareas ++ [tarea_sin_fecha]) 2025 1
    = Lanza AttributeError.
Proof.
  apply X7_sin_fecha_limite. exists tarea_sin_fecha. split; [|reflexivity].
  apply in_or_app. right. left. reflexivity.
Defined.

Lemma X8_testigo :
  crear_filtro_fecha_rango (dia_de_enero 10) (dia_de_enero 16)
    (tarea_ejemplo "t1" Tarea.PENDIENTE (Some "u1"%string) (Some (dia_de_enero 10)))
  = Retorna true.
Proof.
  refine (proj1 (proj2 (@X8_filtro_fecha_rango (dia_de_enero 10) (dia_de_enero 16)
                          (dia_de_enero 10) (dia_de_enero 16) (dia_de_enero 10)
                          (tarea_ejemplo "t1" Tarea.PENDIENTE (Some "u1"%string)
                             (Some (dia_de_enero 10)))
                          eq_refl)) _ (or_introl eq_refl)).
  vm_compute; intros H; discriminate H.
Defined.

Lemma X9_testigo :
  exists dias,
    generador_fechas_limite_calendario cuatro_tareas 2025 1 = Retorna dias /\
    StronglySorted Z.lt (map dc_dia dias).
Proof.
  destruct (@X9_calendario_del_mes cuatro_tareas 2025 1) as (dias & E & Hs & _).
  - intros t [<-|[<-|[<-|[<-|[]]]]]; discriminate.
  - exists dias. split; [exact E|exact Hs].
Defined.

Lemma X11_testigo :
  NoDup (Usuario.tareas_asignadas
           (snd (Usuario.agregar_tarea solo_espacios usuario_ejemplo "t3"))) /\
  NoDup (Usuario.tareas_asignadas (snd (Usuario.remover_tarea usuario_ejemplo "t1"))).
Proof.
  assert (H : NoDup (Usuario.tareas_asignadas usuario_ejemplo)).
  { repeat constructor; simpl; intuition discriminate. }
  split.
  - exact (proj1 (@X11_tareas_asignadas_sin_repetir solo_espacios usuario_ejemplo
                    "t3" H)).
  - exact (proj1 (proj2 (@X11_tareas_asignadas_sin_repetir solo_espacios
                           usuario_ejemplo "t1" H))).
Defined.

Lemma X12_testigo :
  Usuario.remover_tarea
    (snd (Usuario.agregar_tarea solo_espacios usuario_ejemplo "t3")) "t3"
  = (true, usuario_ejemplo).
Proof.
  refine (proj2 (@X12_agregar_y_remover solo_espacios usuario_ejemplo "t3" _ eq_refl _)).
  - discriminate.
  - simpl. intuition discriminate.
Defined.

Lemma X25_testigo :
  buscar_tareas_compuesto (fun _ _ => true) (cuatro_tareas ++ [tarea_sin_fecha])
    None (Some "pendiente"%string) (Some (dia_de_enero 1)) (Some (dia_de_enero 31))
  = Retorna
      [ tarea_ejemplo "t1" Tarea.PENDIENTE (Some "u1"%string) (Some (dia_de_enero 10));
        tarea_ejemplo "t4" Tarea.PENDIENTE None (Some (dia_de_enero 20)) ] /\
  buscar_tareas_compuesto (fun _ _ => true) (cuatro_tareas ++ [tarea_sin_fecha])
    None (Some "completada"%string) (Some (dia_de_enero 1)) (Some (dia_de_enero 31))
  = Lanza TypeError.
Proof.
  split.
  - refine (proj1 (@X25_busqueda_compuesta (fun _ _ => true)
                     (cuatro_tareas ++ [tarea_sin_fecha]) None
                     (Some "pendiente"%string) (Some (dia_de_enero 1))
                     (Some (dia_de_enero 31))) _).
    intros t [<-|[<-|[<-|[<-|[<-|[]]]]]] E; try discriminate E.
    right. right. right. reflexivity.
  - refine (proj2 (@X25_busqueda_compuesta (fun _ _ => true)
                     (cuatro_tareas ++ [tarea_sin_fecha]) None
                     (Some "completada"%string) (Some (dia_de_enero 1))
                     (Some (dia_de_enero 31))) _ _ _).
    + discriminate.
    + discriminate.
    + exists tarea_sin_fecha. split; [|repeat split].
      apply in_or_app. right. left. reflexivity.
Defined.

End EjemplosDeConsultas.

Section EjemplosDeAlmacenamiento.
Import Persistencia.
Local Open Scope list_scope.

Lemma X15_testigo :
  (fst (json_guardar_datos codecs_ejemplo ahora_ejemplo "usuarios" (VList [VInt 1])
          true sistema_con_datos) = Retorna true /\
   leer_archivo
     (snd (json_guardar_datos codecs_ejemplo ahora_ejemplo "usuarios" (VList [VInt 1])
             true sistema_con_datos))
     (obtener_ruta_json "usuarios")
   = Retorna ("[" ++ salto ++ "  1" ++ salto ++ "]")%string) /\
  binario_cargar_datos codecs_ejemplo "usuarios"
    (snd (binario_guardar_datos codecs_ejemplo ahora_ejemplo "usuarios"
            (VList [VInt 1]) 5 true sistema_vacio))
  = Retorna (VList [VInt 1]).
Proof.
  split.
  - destruct (proj1 (@X15_guardar_y_cargar codecs_ejemplo ahora_ejemplo "usuarios"
                       (VList [VInt 1]) 5 true sistema_con_datos
                       ("[" ++ salto ++ "  1" ++ salto ++ "]")%string))
      as (H1 & H2 & _).
    + reflexivity.
    + intros a E. injection E as <-. reflexivity.
    + reflexivity.
    + split; [exact H1|exact H2].
  - refine (proj2 (proj2 (proj2 (@X15_guardar_y_cargar codecs_ejemplo ahora_ejemplo
                       "usuarios" (VList [VInt 1]) 5 true sistema_vacio
                       pickle_de_lista_1) eq_refl _ eq_refl)) _ eq_refl).
    intros a E. discriminate E.
Defined.

Lemma X16_testigo :
  backups_totales (obtener_estadisticas_almacenamiento sistema_con_datos) = 0 /\
  backups_totales
    (obtener_estadisticas_almacenamiento
       (snd (json_guardar_datos codecs_ejemplo ahora_ejemplo "usuarios"
               (VList [VInt 1]) true sistema_con_datos))) = 1.
Proof.
  split; [reflexivity|].
  refine (proj1 (proj2 (@X16_cuenta_de_backups codecs_ejemplo ahora_ejemplo
                          "usuarios" (VList [VInt 1]) 5 true sistema_con_datos))
            _ eq_refl eq_refl eq_refl eq_refl).
Defined.

Lemma X17_testigo :
  limpiar_backups_antiguos ahora_ejemplo 7
    (snd (limpiar_backups_antiguos ahora_ejemplo 7 sistema_con_backups_libres))
  = (Retorna 0,
     snd (limpiar_backups_antiguos ahora_ejemplo 7 sistema_con_backups_libres)).
Proof.
  refine (@X17_limpieza_idempotente ahora_ejemplo 7 sistema_con_backups_libres
            _ eq_refl _ _ _ _).
  - apply NoDup_tres; discriminate.
  - vm_compute; intros H; discriminate H.
  - split; vm_compute; [intros H; discriminate H|reflexivity].
  - intros ne [<-|[<-|[<-|[]]]] _; reflexivity.
Defined.

Lemma X24_testigo :
  fst (limpiar_backups_antiguos ahora_ejemplo 7 sistema_con_backups) = Retorna 0 /\
  length (entradas_de sistema_con_backups ZBackups) = 3 /\
  length (entradas_de (snd (limpiar_backups_antiguos ahora_ejemplo 7 sistema_con_backups))
            ZBackups) = 2.
Proof.
  destruct (proj2 (proj2 (X24_limpieza_cuenta ahora_ejemplo 7 sistema_con_backups))
              _ (instante ahora_ejemplo - 7 * microsegundos_por_dia)%Z
              [("usuarios.json_20240101_000000"%string, archivo_normal "[1]" hace_un_año)]
              ("tareas.json_20240101_000000"%string, archivo_protegido "[1]" hace_un_año)
              [("usuarios.pkl_20240101_000000"%string, archivo_normal "x" hace_un_año)]
              eq_refl)
    as (H0 & He & _).
  - apply NoDup_tres; discriminate.
  - reflexivity.
  - reflexivity.
  - intros x [<-|[]] _. reflexivity.
  - reflexivity.
  - reflexivity.
  - split; [exact H0|]. split; [reflexivity|]. rewrite He. reflexivity.
Defined.

Lemma X21_testigo :
  archivos_json (obtener_estadisticas_almacenamiento sistema_vacio) = 0 /\
  archivos_json
    (obtener_estadisticas_almacenamiento
       (snd (json_guardar_datos codecs_ejemplo ahora_ejemplo "usuarios"
               (VList [VInt 1]) true sistema_vacio))) = 1 /\
  archivos_json
    (obtener_estadisticas_almacenamiento
       (snd (json_guardar_datos codecs_ejemplo ahora_ejemplo "usuarios"
               (VList [VInt 1]) true sistema_con_datos))) = 2.
Proof.
  split; [reflexivity|]. split.
  - exact (proj2 (proj2 (@X21_archivo_tras_guardar codecs_ejemplo ahora_ejemplo
                           "usuarios" (VList [VInt 1]) true sistema_vacio eq_refl))).
  - exact (proj2 (proj2 (@X21_archivo_tras_guardar codecs_ejemplo ahora_ejemplo
                           "usuarios" (VList [VInt 1]) true sistema_con_datos eq_refl))).
Defined.

End EjemplosDeAlmacenamiento.
